(** * FinWise financial projection engine: a shallow embedding

  This development embeds the numerical services of the backend
  ([app/services/cashflow_forecaster.py], [app/services/debt_optimizer.py],
  [app/services/goal_projector.py]) and states the properties of the
  engine specification over them.

  Conventions of the embedding.
  - A Python [float] is an exact rational ([Q]); comparisons are the
    rational ones and equality of amounts is [Qeq].  Binary rounding
    error of IEEE doubles is therefore not represented.
  - [round(x, 2)] is rounding of [100 * x] to the nearest integer, ties
    to even, returned in lowest terms, so that two rounded amounts are
    equal as rationals exactly when they are the same term.
  - A naive [datetime] is a count of microseconds on the proleptic time
    line; [d.date()] is its day number.
  - Formatted strings ([strftime], f-string messages) are kept as the
    data they are formatted from.
  - A database [Session] is the triple of tables the services touch. *)

From Stdlib Require Import ZArith QArith Qround Qabs Qpower List Bool Lia Lqa.
From Stdlib Require Import Permutation String Morphisms.
Import ListNotations.
Local Open Scope Q_scope.

(** ** Python numbers *)

Module PyNum.

(** [a < b] on floats, as a boolean. *)
Definition Qltb (a b : Q) : bool := negb (Qle_bool b a).

(** [min(a, b)]: the first argument unless the second is smaller. *)
Definition py_min (a b : Q) : Q := if Qltb b a then b else a.

(** [max(a, b)]: the first argument unless the second is greater. *)
Definition py_max (a b : Q) : Q := if Qltb a b then b else a.

(** Rounding to the nearest integer, ties to the even neighbour. *)
Definition round_half_even (q : Q) : Z :=
  let f := Qfloor q in
  match ((q - inject_Z f) ?= (1 # 2))%Q with
  | Lt => f
  | Gt => (f + 1)%Z
  | Eq => if Z.even f then f else (f + 1)%Z
  end.

(** [round(q, 2)]. *)
Definition round2 (q : Q) : Q := Qred (round_half_even (q * 100) # 100).

(** [sum(xs)] over floats, starting from 0. *)
Definition py_sum (xs : list Q) : Q := fold_left Qplus xs 0.

(** [range(n)]. *)
Definition py_range (n : Z) : list Z := map Z.of_nat (seq 0 (Z.to_nat n)).

(** [range(a, b)]. *)
Definition py_range2 (a b : Z) : list Z := map (fun k => (a + k)%Z) (py_range (b - a)).

End PyNum.
Import PyNum.


(** ** Control flow and time *)

Module Py.

(** What a call does: it returns a value or raises. *)
Inductive exn := ValueError | IndexError.

Inductive outcome (A : Type) :=
| Returns (a : A)
| Raises (e : exn).
Arguments Returns {A} a.
Arguments Raises {A} e.

(** A [while] loop run for at most [fuel] tests of its condition:
    [None] when the fuel is used up before the condition fails. *)
Fixpoint while_loop {S : Type} (fuel : nat) (cond : S -> bool) (body : S -> S) (s : S)
  : option S :=
  match fuel with
  | O => None
  | Datatypes.S fuel' =>
      if cond s then while_loop fuel' cond body (body s) else Some s
  end.

(** Naive datetimes, in microseconds. *)
Definition datetime := Z.

Definition usec_per_day : Z := 86400000000.

(** [timedelta(days=n)]. *)
Definition timedelta_days (n : Z) : Z := (n * usec_per_day)%Z.

(** [d.date()], as a day number. *)
Definition date_of (d : datetime) : Z := (d / usec_per_day)%Z.

(** [d.replace(hour=0, minute=0, second=0, microsecond=0)]. *)
Definition day_start (d : datetime) : datetime := (date_of d * usec_per_day)%Z.

(** [(a - b).days]. *)
Definition delta_days (a b : datetime) : Z := ((a - b) / usec_per_day)%Z.

(** [sorted] is stable: [x], which came before every element of the
    sorted tail [l], goes in front of the first element that does not
    strictly precede it. *)
Fixpoint insert_sorted {A : Type} (precedes : A -> A -> bool) (x : A) (l : list A) : list A :=
  match l with
  | [] => [x]
  | y :: r => if precedes y x then y :: insert_sorted precedes x r else x :: y :: r
  end.

Definition sorted_by {A : Type} (precedes : A -> A -> bool) (l : list A) : list A :=
  fold_right (insert_sorted precedes) [] l.

End Py.
Import Py.

(** ** Database models ([app/database/models.py]) *)

Module Models.

Inductive TransactionType := INCOME | EXPENSE | LENDING | BORROWING.

Inductive RecurrenceFrequency := DAILY | WEEKLY | BIWEEKLY | MONTHLY | QUARTERLY | YEARLY.

Inductive NotificationType :=
| BUDGET_ALERT | BILL_REMINDER | GOAL_MILESTONE | UNUSUAL_SPENDING
| LOW_BALANCE | GOAL_COMPLETED | DEBT_PAID_OFF.

Inductive NotificationStatus := UNREAD | READ | DISMISSED.

Definition TransactionType_eqb (a b : TransactionType) : bool :=
  match a, b with
  | INCOME, INCOME | EXPENSE, EXPENSE | LENDING, LENDING | BORROWING, BORROWING => true
  | _, _ => false
  end.

Definition is_low_balance (t : NotificationType) : bool :=
  match t with LOW_BALANCE => true | _ => false end.

Record Transaction := mkTransaction {
  tx_user_id : string;
  tx_type : TransactionType;
  tx_amount : Q;
  tx_date : datetime
}.

Record RecurringTransaction := mkRecurring {
  rt_user_id : string;
  rt_type : TransactionType;
  rt_amount : Q;
  rt_frequency : RecurrenceFrequency;
  rt_next_date : datetime;
  rt_is_active : bool
}.

(** The message and [extra_data] of a notification are formatted from
    [n_runway_days] and [n_min_balance]. *)
Record Notification := mkNotification {
  n_id : string;
  n_user_id : string;
  n_type : NotificationType;
  n_title : string;
  n_runway_days : Z;
  n_min_balance : Q;
  n_status : NotificationStatus;
  n_priority : Z;
  n_action_url : string;
  n_created_at : datetime
}.

(** The tables a session gives access to. *)
Record Session := mkSession {
  transactions : list Transaction;
  recurring_transactions : list RecurringTransaction;
  notifications : list Notification
}.

(** What the services read from their environment: the clock at the
    three places it is consulted, and the identifier [uuid.uuid4()]
    hands out. *)
Record Env := mkEnv {
  utcnow_entry : datetime;
  utcnow_check : datetime;
  utcnow_insert : datetime;
  uuid4 : string
}.

End Models.
Import Models.

(** ** Cash flow forecaster ([app/services/cashflow_forecaster.py]) *)

Module CashFlowForecaster.

Record HistoricalAverages := mkAverages {
  daily_average : Q;
  monthly_average : Q;
  total : Q;
  count : Z
}.

Record DailyBalance := mkDaily {
  date : Z;
  balance : Q;
  income : Q;
  expenses : Q;
  net : Q
}.

Inductive Warning :=
| critical (days_until : Z)
| warning (min_balance : Q) (on_date : Z).

Record SummaryPeriod := mkPeriod {
  period : Z;
  period_start : Z;
  period_end : Z;
  sp_starting_balance : Q;
  ending_balance : Q;
  total_income : Q;
  total_expenses : Q;
  net_change : Q
}.

Record Forecast := mkForecast {
  starting_balance : Q;
  forecast_days : Z;
  forecast_start_date : Z;
  forecast_end_date : Z;
  daily_balances : list DailyBalance;
  min_balance : Q;
  min_balance_date : Z;
  runway_days : Z;
  warnings : list Warning;
  summary_periods : list SummaryPeriod;
  historical_income : HistoricalAverages;
  historical_expenses : HistoricalAverages
}.

Definition _get_historical_averages (db : Session) (user_id : string)
    (start_date end_date : datetime) (transaction_type : TransactionType)
  : HistoricalAverages :=
  let rows :=
    filter (fun t =>
              String.eqb (tx_user_id t) user_id
              && TransactionType_eqb (tx_type t) transaction_type
              && (start_date <=? tx_date t)%Z
              && (tx_date t <? end_date)%Z)
           (transactions db) in
  let total := py_sum (map tx_amount rows) in
  let count := Z.of_nat (List.length rows) in
  if Qeq_bool total 0 then mkAverages 0 0 0 0
  else
    let days := (if delta_days end_date start_date =? 0
                 then 1 else delta_days end_date start_date)%Z in
    let daily_avg := total / inject_Z days in
    let monthly_avg := daily_avg * 30 in
    mkAverages (round2 daily_avg) (round2 monthly_avg) (round2 total) count.

Definition _is_due_on_date (recurring : RecurringTransaction) (check_date : datetime) : bool :=
  (date_of (rt_next_date recurring) =? date_of check_date)%Z.

(** One pass of the inner loop over the recurring transactions. *)
Definition add_if_due (projection_date : datetime) (acc : Q * Q)
    (recurring : RecurringTransaction) : Q * Q :=
  let '(day_income, day_expenses) := acc in
  if _is_due_on_date recurring projection_date then
    match rt_type recurring with
    | INCOME => (day_income + rt_amount recurring, day_expenses)
    | EXPENSE => (day_income, day_expenses + rt_amount recurring)
    | _ => (day_income, day_expenses)
    end
  else (day_income, day_expenses).

(** The scheduled income and expenses of a day. *)
Definition scheduled (recurring_transactions : list RecurringTransaction)
    (projection_date : datetime) : Q * Q :=
  fold_left (add_if_due projection_date) recurring_transactions (0, 0).

(** The income and expense figures of a day, after the fallback to the
    historical averages. *)
Definition day_figures (historical_income historical_expenses : HistoricalAverages)
    (recurring_transactions : list RecurringTransaction) (projection_date : datetime)
  : Q * Q :=
  let '(day_income, day_expenses) := scheduled recurring_transactions projection_date in
  let day_expenses :=
    if Qeq_bool day_expenses 0 then daily_average historical_expenses else day_expenses in
  let day_income :=
    if Qeq_bool day_income 0 then daily_average historical_income else day_income in
  (day_income, day_expenses).

(** The day-by-day projection loop, with [current_balance] threaded. *)
Fixpoint project (historical_income historical_expenses : HistoricalAverages)
    (recurring_transactions : list RecurringTransaction) (current_date : datetime)
    (offsets : list Z) (current_balance : Q) : list DailyBalance :=
  match offsets with
  | [] => []
  | day_offset :: rest =>
      let projection_date := (current_date + timedelta_days day_offset)%Z in
      let '(day_income, day_expenses) :=
        day_figures historical_income historical_expenses
                    recurring_transactions projection_date in
      let current_balance := current_balance + day_income - day_expenses in
      mkDaily (date_of projection_date) (round2 current_balance) (round2 day_income)
              (round2 day_expenses) (round2 (day_income - day_expenses))
      :: project historical_income historical_expenses recurring_transactions
                 current_date rest current_balance
  end.

(** [min(daily_balances, key=lambda x: x["balance"])]: the first minimum. *)
Fixpoint min_from (best : DailyBalance) (l : list DailyBalance) : DailyBalance :=
  match l with
  | [] => best
  | x :: r => min_from (if Qltb (balance x) (balance best) then x else best) r
  end.

Definition min_by_balance (l : list DailyBalance) : outcome DailyBalance :=
  match l with
  | [] => Raises ValueError
  | x :: r => Returns (min_from x r)
  end.

(** The runway search: the index of the first day at or below zero. *)
Fixpoint first_depleted (i : Z) (l : list DailyBalance) : option Z :=
  match l with
  | [] => None
  | day :: r => if Qle_bool (balance day) 0 then Some i else first_depleted (i + 1) r
  end.

Definition _create_low_balance_notification (env : Env) (db : Session) (user_id : string)
    (runway_days : Z) (projected_min_balance : Q) : Session :=
  let today_start := day_start (utcnow_check env) in
  let existing :=
    find (fun n =>
            String.eqb (n_user_id n) user_id
            && is_low_balance (n_type n)
            && (today_start <=? n_created_at n)%Z)
         (notifications db) in
  match existing with
  | Some _ => db
  | None =>
      let notification :=
        mkNotification (uuid4 env) user_id LOW_BALANCE "Low Balance Warning"
                       runway_days projected_min_balance UNREAD 3 "/forecast"
                       (utcnow_insert env) in
      mkSession (transactions db) (recurring_transactions db)
                (notifications db ++ [notification])
  end.

Definition summary_for (starting_balance : Q) (current_date : datetime)
    (daily_balances : list DailyBalance) (period_days : Z) : outcome SummaryPeriod :=
  match nth_error daily_balances (Z.to_nat period_days) with
  | None => Raises IndexError
  | Some day =>
      let period_end_balance := balance day in
      let upto := firstn (Z.to_nat (period_days + 1)) daily_balances in
      let period_total_income := py_sum (map income upto) in
      let period_total_expenses := py_sum (map expenses upto) in
      Returns (mkPeriod period_days (date_of current_date)
                        (date_of (current_date + timedelta_days period_days)%Z)
                        starting_balance (round2 period_end_balance)
                        (round2 period_total_income) (round2 period_total_expenses)
                        (round2 (period_end_balance - starting_balance)))
  end.

Fixpoint summaries (starting_balance : Q) (forecast_days : Z) (current_date : datetime)
    (daily_balances : list DailyBalance) (periods : list Z) : outcome (list SummaryPeriod) :=
  match periods with
  | [] => Returns []
  | period_days :: rest =>
      if (period_days <=? forecast_days)%Z then
        match summary_for starting_balance current_date daily_balances period_days with
        | Raises e => Raises e
        | Returns p =>
            match summaries starting_balance forecast_days current_date daily_balances rest with
            | Raises e => Raises e
            | Returns ps => Returns (p :: ps)
            end
        end
      else summaries starting_balance forecast_days current_date daily_balances rest
  end.

Definition forecast_balance (env : Env) (db : Session) (user_id : string)
    (starting_balance : Q) (forecast_days : Z) (current_date : option datetime)
  : outcome Forecast * Session :=
  let current_date :=
    match current_date with None => utcnow_entry env | Some d => d end in
  let lookback_days := 90%Z in
  let historical_start := (current_date - timedelta_days lookback_days)%Z in
  let historical_income :=
    _get_historical_averages db user_id historical_start current_date INCOME in
  let historical_expenses :=
    _get_historical_averages db user_id historical_start current_date EXPENSE in
  let recurring_transactions :=
    filter (fun r => String.eqb (rt_user_id r) user_id && rt_is_active r)
           (recurring_transactions db) in
  let forecast_end := (current_date + timedelta_days forecast_days)%Z in
  let daily_balances :=
    project historical_income historical_expenses recurring_transactions current_date
            (py_range (forecast_days + 1)) starting_balance in
  match min_by_balance daily_balances with
  | Raises e => (Raises e, db)
  | Returns min_balance_day =>
      let runway_days :=
        match first_depleted 0 daily_balances with
        | Some i => i
        | None => (forecast_days + 1)%Z
        end in
      let '(warnings, db) :=
        if (runway_days <=? 30)%Z then
          ([critical runway_days],
           _create_low_balance_notification env db user_id runway_days
                                            (balance min_balance_day))
        else if Qltb (balance min_balance_day) (starting_balance * (2 # 10)) then
          ([warning (balance min_balance_day) (date min_balance_day)], db)
        else ([], db) in
      match summaries starting_balance forecast_days current_date daily_balances
                      [30; 60; 90]%Z with
      | Raises e => (Raises e, db)
      | Returns summary_periods =>
          (Returns (mkForecast starting_balance forecast_days (date_of current_date)
                               (date_of forecast_end) daily_balances
                               (balance min_balance_day) (date min_balance_day)
                               runway_days warnings summary_periods
                               historical_income historical_expenses),
           db)
      end
  end.

End CashFlowForecaster.

(** ** Debt optimizer ([app/services/debt_optimizer.py]) *)

Module DebtOptimizer.

(** A row of a repayment schedule.  [sched_date] stands for
    [start_date + relativedelta(months=month)]: the start date and the
    number of calendar months added to it. *)
Record ScheduleRow := mkRow {
  sched_month : Z;
  sched_date : datetime * Z;
  sched_payment : Q;
  sched_principal : Q;
  sched_interest : Q;
  sched_remaining_balance : Q
}.

(** The body of the [for month in range(1, max_months + 1)] loop; the
    second component is [remaining_balance] when the loop is left. *)
Fixpoint repayment_loop (monthly_rate monthly_payment : Q) (start_date : datetime)
    (months : list Z) (remaining_balance : Q) : list ScheduleRow * Q :=
  match months with
  | [] => ([], remaining_balance)
  | month :: rest =>
      if Qle_bool remaining_balance 0 then ([], remaining_balance)
      else
        let interest_payment := remaining_balance * monthly_rate in
        let principal_payment :=
          py_min (monthly_payment - interest_payment) remaining_balance in
        let principal_payment :=
          if Qltb principal_payment 0 then 0 else principal_payment in
        let remaining_balance := remaining_balance - principal_payment in
        let row :=
          mkRow month (start_date, month) (round2 monthly_payment)
                (round2 principal_payment) (round2 interest_payment)
                (round2 (py_max 0 remaining_balance)) in
        if Qle_bool remaining_balance 0 then ([row], remaining_balance)
        else
          let '(schedule, final) :=
            repayment_loop monthly_rate monthly_payment start_date rest
                           remaining_balance in
          (row :: schedule, final)
  end.

Definition default_max_months : Z := 360.

(** The whole run: the schedule and the balance left at the end. *)
Definition repayment_run (principal annual_interest_rate : Q) (start_date : datetime)
    (monthly_payment : Q) (max_months : Z) : list ScheduleRow * Q :=
  let monthly_rate := annual_interest_rate / 100 / 12 in
  repayment_loop monthly_rate monthly_payment start_date
                 (py_range2 1 (max_months + 1)) principal.

Definition calculate_repayment_schedule (principal annual_interest_rate : Q)
    (start_date : datetime) (monthly_payment : Q) (max_months : Z) : list ScheduleRow :=
  fst (repayment_run principal annual_interest_rate start_date monthly_payment max_months).

(** [calculate_minimum_payment] (the closed amortization formula, over
    [math.pow]) is not part of this development.

    A debt as the optimizer receives it. *)
Record Debt := mkDebt {
  id : string;
  name : string;
  remainingAmount : Q;
  interestRate : Q;
  monthlyPayment : Q
}.

Record DebtResult := mkDebtResult {
  dr_id : string;
  dr_name : string;
  months_to_payoff : Z;
  dr_total_interest : Q
}.

Record StrategyResult := mkStrategy {
  total_months : Z;
  total_interest : Q;
  debts : list DebtResult
}.

(** The variables of the [while remaining > 0 and months < 360] loop. *)
Record Payoff := mkPayoff {
  remaining : Q;
  interest_paid : Q;
  months : Z
}.

Definition payoff_cond (s : Payoff) : bool :=
  Qltb 0 (remaining s) && (months s <? 360)%Z.

Definition payoff_body (rate payment : Q) (s : Payoff) : Payoff :=
  let interest := remaining s * rate in
  let principal := py_min (payment - interest) (remaining s) in
  mkPayoff (remaining s - principal) (interest_paid s + interest) (months s + 1).

(** The amortization of one debt. *)
Definition payoff (fuel : nat) (debt : Debt) (extra_budget : Q) : option Payoff :=
  let rate := interestRate debt / 100 / 12 in
  let payment := monthlyPayment debt + extra_budget in
  while_loop fuel payoff_cond (payoff_body rate payment)
             (mkPayoff (remainingAmount debt) 0 0).

(** The [for debt in sorted_debts] loop with its three accumulators. *)
Fixpoint simulate_debts (fuel : nat) (extra_budget : Q) (sorted_debts : list Debt)
    (total_months : Z) (total_interest : Q) (debt_results : list DebtResult)
  : option (Z * Q * list DebtResult) :=
  match sorted_debts with
  | [] => Some (total_months, total_interest, debt_results)
  | debt :: rest =>
      match payoff fuel debt extra_budget with
      | None => None
      | Some s =>
          simulate_debts fuel extra_budget rest
            (Z.max total_months (months s))
            (total_interest + interest_paid s)
            (debt_results
               ++ [mkDebtResult (id debt) (name debt) (months s)
                                (round2 (interest_paid s))])
      end
  end.

Definition by_rate_desc (y x : Debt) : bool := Qltb (interestRate x) (interestRate y).

Definition by_balance_asc (y x : Debt) : bool := Qltb (remainingAmount y) (remainingAmount x).

Definition sort_for (strategy : string) (debts : list Debt) : list Debt :=
  if String.eqb strategy "avalanche"
  then sorted_by by_rate_desc debts
  else sorted_by by_balance_asc debts.

Definition _simulate_strategy (fuel : nat) (debts : list Debt) (extra_budget : Q)
    (strategy : string) : option StrategyResult :=
  match simulate_debts fuel extra_budget (sort_for strategy debts) 0%Z 0 [] with
  | None => None
  | Some (total_months, total_interest, debt_results) =>
      Some (mkStrategy total_months (round2 total_interest) debt_results)
  end.

(** The summary string is formatted from the strategy and the savings. *)
Inductive Optimization :=
| no_debts
| optimized (recommended_strategy : string) (avalanche snowball : StrategyResult)
            (interest_savings : Q).

(** The two aggregates the recommendation compares. *)
Definition aggregate_interest (r : StrategyResult) : Q :=
  py_sum (map dr_total_interest (debts r)).

Definition optimize_debt_strategy (fuel : nat) (debts : list Debt)
    (extra_monthly_budget : Q) : option Optimization :=
  match debts with
  | [] => Some no_debts
  | _ :: _ =>
      match _simulate_strategy fuel debts extra_monthly_budget "avalanche" with
      | None => None
      | Some avalanche_result =>
          match _simulate_strategy fuel debts extra_monthly_budget "snowball" with
          | None => None
          | Some snowball_result =>
              let avalanche_total_interest := aggregate_interest avalanche_result in
              let snowball_total_interest := aggregate_interest snowball_result in
              let recommended_strategy :=
                if Qltb avalanche_total_interest snowball_total_interest
                then "avalanche"%string else "snowball"%string in
              let savings := Qabs (avalanche_total_interest - snowball_total_interest) in
              Some (optimized recommended_strategy avalanche_result snowball_result
                              (round2 savings))
          end
      end
  end.

End DebtOptimizer.

(** ** Goal projector ([app/services/goal_projector.py]) *)

Module GoalProjector.

(** The fields of a [datetime] the projector reads.  The projection
    keeps [estimated_months]; the formatted [estimated_completion] date
    derived from it is left out. *)
Record YearMonth := mkYM {
  year : Z;
  month : Z
}.

Record Projection := mkProjection {
  target_amount : Q;
  current_amount : Q;
  remaining_amount : Q;
  target_date : YearMonth;
  months_remaining : Z;
  monthly_contribution_needed : Q;
  available_monthly : Q;
  estimated_months : Z;
  status : string;
  probability : Q;
  on_track : bool
}.

Definition _determine_status (current target needed available : Q) : string :=
  if Qle_bool target current then "achieved"
  else if Qltb (available * (12 # 10)) needed then "behind"
  else if Qltb available needed then "at-risk"
  else "on-track".

Definition _calculate_probability (needed available : Q) : Q :=
  if Qle_bool available 0 then 1 # 10
  else
    let ratio := if Qltb 0 needed then available / needed else 10 in
    if Qle_bool (12 # 10) ratio then 95 # 100
    else if Qle_bool 1 ratio then 85 # 100
    else if Qle_bool (8 # 10) ratio then 70 # 100
    else if Qle_bool (6 # 10) ratio then 50 # 100
    else if Qle_bool (4 # 10) ratio then 30 # 100
    else 15 # 100.

Definition calculate_goal_projection (now : YearMonth) (target_amount current_amount : Q)
    (target_date : YearMonth) (monthly_income monthly_expenses : Q) : Projection :=
  let months_remaining :=
    ((year target_date - year now) * 12 + (month target_date - month now))%Z in
  let months_remaining := Z.max 0 months_remaining in
  let remaining_amount := target_amount - current_amount in
  let monthly_contribution_needed :=
    if (0 <? months_remaining)%Z
    then remaining_amount / inject_Z months_remaining
    else remaining_amount in
  let available_monthly := monthly_income - monthly_expenses in
  let status :=
    _determine_status current_amount target_amount monthly_contribution_needed
                      available_monthly in
  let estimated_months :=
    if Qltb 0 available_monthly
    then Qceiling (remaining_amount / available_monthly)
    else 999%Z in
  let probability :=
    _calculate_probability monthly_contribution_needed available_monthly in
  mkProjection (round2 target_amount) (round2 current_amount) (round2 remaining_amount)
               target_date months_remaining (round2 monthly_contribution_needed)
               (round2 available_monthly) estimated_months status probability
               (String.eqb status "on-track" || String.eqb status "achieved").

End GoalProjector.

(** ** Notions used to state the properties *)

Module Notions.
Import CashFlowForecaster.

(** The date a forecast starts from. *)
Definition start_of (env : Env) (current_date : option datetime) : datetime :=
  match current_date with None => utcnow_entry env | Some d => d end.

(** The active recurring transactions of a user. *)
Definition active (db : Session) (user_id : string) : list RecurringTransaction :=
  filter (fun r => String.eqb (rt_user_id r) user_id && rt_is_active r)
         (recurring_transactions db).

Definition history (db : Session) (user_id : string) (start : datetime)
    (transaction_type : TransactionType) : HistoricalAverages :=
  _get_historical_averages db user_id (start - timedelta_days 90)%Z start transaction_type.

(** The calendar date of the day at [day_offset]. *)
Definition day_at (start : datetime) (day_offset : Z) : datetime :=
  (start + timedelta_days day_offset)%Z.

(** The recurring transactions of one type that are due on a date. *)
Definition due_in (ty : TransactionType) (on : datetime) (rts : list RecurringTransaction)
  : list RecurringTransaction :=
  filter (fun r => _is_due_on_date r on && TransactionType_eqb (rt_type r) ty) rts.

(** The active ones of a user among them. *)
Definition due (db : Session) (user_id : string) (transaction_type : TransactionType)
    (on : datetime) : list RecurringTransaction :=
  due_in transaction_type on (active db user_id).

(** The income and expense figures the forecast uses for an offset. *)
Definition figures (db : Session) (user_id : string) (start : datetime) (day_offset : Z)
  : Q * Q :=
  day_figures (history db user_id start INCOME) (history db user_id start EXPENSE)
              (active db user_id) (day_at start day_offset).

Definition net_of (db : Session) (user_id : string) (start : datetime) (day_offset : Z) : Q :=
  fst (figures db user_id start day_offset) - snd (figures db user_id start day_offset).

(** Rounded running totals of a list of daily nets. *)
Fixpoint running (nets : list Q) (b : Q) : list Q :=
  match nets with
  | [] => []
  | n :: r => round2 (b + n) :: running r (b + n)
  end.

(** The notification a low-balance forecast inserts. *)
Definition low_balance_notification (env : Env) (user_id : string) (runway_days : Z)
    (projected_min_balance : Q) : Notification :=
  mkNotification (uuid4 env) user_id LOW_BALANCE "Low Balance Warning"
                 runway_days projected_min_balance UNREAD 3 "/forecast"
                 (utcnow_insert env).

(** Whether a low-balance notification of the user exists since midnight. *)
Definition notified_today (env : Env) (db : Session) (user_id : string) : bool :=
  existsb (fun n =>
             String.eqb (n_user_id n) user_id
             && is_low_balance (n_type n)
             && (day_start (utcnow_check env) <=? n_created_at n)%Z)
          (notifications db).

(** [i] is the index of the first day whose balance is at or below zero. *)
Definition first_at_or_below_zero (l : list DailyBalance) (i : Z) : Prop :=
  (0 <= i)%Z /\ exists day,
    nth_error l (Z.to_nat i) = Some day /\ balance day <= 0 /\
    forall j day', (j < Z.to_nat i)%nat -> nth_error l j = Some day' -> 0 < balance day'.

End Notions.

Module DebtNotions.
Import DebtOptimizer.

(** The final loop variables of the amortization of one debt (the
    initial ones if the fuel does not suffice). *)
Definition payoff_of (fuel : nat) (extra_budget : Q) (debt : Debt) : Payoff :=
  match payoff fuel debt extra_budget with
  | Some s => s
  | None => mkPayoff (remainingAmount debt) 0 0
  end.

(** The result row of one debt: it depends on that debt and on the
    extra budget only. *)
Definition result_of (fuel : nat) (extra_budget : Q) (debt : Debt) : DebtResult :=
  mkDebtResult (id debt) (name debt) (months (payoff_of fuel extra_budget debt))
               (round2 (interest_paid (payoff_of fuel extra_budget debt))).

(** An amount with at most two decimals. *)
Definition is_cents (q : Q) : Prop := exists z : Z, q == z # 100.

(** The monthly step, in the words of the specification: the interest
    on the balance, and the principal paid, which is
    [min(payment - interest, balance)] and 0 when the payment does not
    cover the interest. *)
Definition interest_on (annual_rate balance : Q) : Q := balance * (annual_rate / 100 / 12).

Definition principal_paid (annual_rate payment balance : Q) : Q :=
  if Qltb payment (interest_on annual_rate balance) then 0
  else py_min (payment - interest_on annual_rate balance) balance.

(** The balance before the step of index [k] (month [k + 1]). *)
Fixpoint balance_before (annual_rate payment principal : Q) (k : nat) : Q :=
  match k with
  | O => principal
  | S k' =>
      let b := balance_before annual_rate payment principal k' in
      b - principal_paid annual_rate payment b
  end.

End DebtNotions.

(** ** Concrete inputs *)

Module Examples.

(** A clock reading midnight of day 0 throughout. *)
Definition env0 : Env := mkEnv 0%Z 0%Z 0%Z "00000000-0000-4000-8000-000000000000".

Definition empty_db : Session := mkSession [] [] [].

(** An active expense of 100 of user [u], next due on day [d]. *)
Definition expense_on (d : Z) : RecurringTransaction :=
  mkRecurring "u" EXPENSE 100 DAILY (timedelta_days d) true.

(** One daily expense of 100, next due today. *)
Definition one_daily_expense : Session := mkSession [] [expense_on 0] [].

(** An expense of 100 due on each of the days 0 to 5. *)
Definition expense_every_day : Session :=
  mkSession [] (map expense_on [0; 1; 2; 3; 4; 5]%Z) [].

(** A salary of 50 and a bill of 20 due today, with some history. *)
Definition mixed_db : Session :=
  mkSession [mkTransaction "u" EXPENSE 900 (- timedelta_days 10)%Z;
             mkTransaction "u" INCOME 1800 (- timedelta_days 20)%Z]
            [mkRecurring "u" INCOME 50 MONTHLY 0%Z true;
             mkRecurring "u" EXPENSE 20 WEEKLY 0%Z true;
             mkRecurring "u" EXPENSE 5 WEEKLY 0%Z false]
            [].

(** Two small debts, and one whose payment is below its interest. *)
Definition card : DebtOptimizer.Debt := DebtOptimizer.mkDebt "d1" "card" 200 24 100.

Definition loan : DebtOptimizer.Debt := DebtOptimizer.mkDebt "d2" "loan" 100 12 50.

Definition two_debts : list DebtOptimizer.Debt := [loan; card].

Definition underwater : DebtOptimizer.Debt :=
  DebtOptimizer.mkDebt "d3" "underwater" 1000 24 10.

End Examples.

(** ** Further notions *)

Module MoreNotions.
Import CashFlowForecaster Notions.

(** Whether a transaction is read by a forecast of [user_id] starting
    at [start]: the user's own income or expense, dated in the 90 days
    before [start]. *)
Definition read_by_forecast (user_id : string) (start : datetime) (t : Transaction) : bool :=
  String.eqb (tx_user_id t) user_id
  && (TransactionType_eqb (tx_type t) INCOME || TransactionType_eqb (tx_type t) EXPENSE)
  && (start - timedelta_days 90 <=? tx_date t)%Z
  && (tx_date t <? start)%Z.

(** Whether a recurring transaction is read by a forecast of [user_id]. *)
Definition scheduled_for (user_id : string) (r : RecurringTransaction) : bool :=
  String.eqb (rt_user_id r) user_id && rt_is_active r.

(** The warnings a forecast carries, from its runway and minimum. *)
Definition warnings_for (starting_balance : Q) (runway_days : Z) (low : DailyBalance)
  : list Warning :=
  if (runway_days <=? 30)%Z then [critical runway_days]
  else if Qltb (balance low) (starting_balance * (2 # 10))
       then [warning (balance low) (date low)]
       else [].

End MoreNotions.

(** ** The level payment ([DebtOptimizer.calculate_minimum_payment]) *)

Module DebtPayment.

(** What the call does: it returns a payment, or raises
    [ZeroDivisionError] (a float division by zero) or [ValueError]
    ([math.pow] of zero to a negative power).  Overflow of [math.pow] is
    outside the number model. *)
Inductive outcome :=
| Payment (amount : Q)
| ZeroDivisionError
| MathDomainError.

Definition calculate_minimum_payment (principal annual_interest_rate : Q) (months : Z)
  : outcome :=
  if Qeq_bool annual_interest_rate 0 then
    if (months =? 0)%Z then ZeroDivisionError
    else Payment (principal / inject_Z months)
  else
    let monthly_rate := annual_interest_rate / 100 / 12 in
    if Qeq_bool (1 + monthly_rate) 0 && (months <? 0)%Z then MathDomainError
    else
      let growth := (1 + monthly_rate) ^ months in
      if Qeq_bool (growth - 1) 0 then ZeroDivisionError
      else Payment (round2 (principal * (monthly_rate * growth) / (growth - 1))).


End DebtPayment.

(** ** Financial simulator ([app/services/financial_simulator.py]) *)

Module FinancialSimulator.

(** The [parameters] dictionary, by key: a key that is absent is [None]. *)
Record Parameters := mkParameters {
  p_starting_balance : option Q;
  p_change_amount : option Q;
  p_change_type : option string;
  p_category : option string;
  p_reduction_percentage : option Q;
  p_estimated_monthly_savings : option Q;
  p_amount : option Q;
  p_frequency : option string;
  p_type : option string;
  p_additional_monthly_contribution : option Q
}.

Definition no_parameters : Parameters :=
  mkParameters None None None None None None None None None None.

(** [d.get(key, default)]. *)
Definition get {A : Type} (value : option A) (default : A) : A :=
  match value with Some v => v | None => default end.

(** What a [_simulate_*] helper returns. *)
Record Scenario := mkScenario {
  sc_daily_balances : list CashFlowForecaster.DailyBalance;
  sc_runway_days : Z
}.

(** The runway loop shared by the helpers. *)
Definition runway_of (modified_balances : list CashFlowForecaster.DailyBalance)
    (forecast_days : Z) : Z :=
  match CashFlowForecaster.first_depleted 0 modified_balances with
  | Some i => i
  | None => (forecast_days + 1)%Z
  end.

Fixpoint income_loop (change_type : string) (change_amount daily_income_change : Q)
    (days : list CashFlowForecaster.DailyBalance) (current_balance : Q)
  : list CashFlowForecaster.DailyBalance :=
  match days with
  | [] => []
  | day :: rest =>
      let adjusted_income :=
        if String.eqb change_type "percentage"
        then CashFlowForecaster.income day * (1 + change_amount / 100)
        else CashFlowForecaster.income day + daily_income_change in
      let current_balance :=
        current_balance + adjusted_income - CashFlowForecaster.expenses day in
      CashFlowForecaster.mkDaily (CashFlowForecaster.date day) (round2 current_balance)
        (round2 adjusted_income) (CashFlowForecaster.expenses day)
        (round2 (adjusted_income - CashFlowForecaster.expenses day))
      :: income_loop change_type change_amount daily_income_change rest current_balance
  end.

Definition _simulate_income_change (env : Env) (db : Session) (user_id : string)
    (starting_balance : Q) (parameters : Parameters) (forecast_days : Z)
    (current_date : datetime) : outcome Scenario * Session :=
  let change_amount := get (p_change_amount parameters) 0 in
  let change_type := get (p_change_type parameters) "fixed"%string in
  match CashFlowForecaster.forecast_balance env db user_id starting_balance forecast_days
          (Some current_date) with
  | (Raises e, db) => (Raises e, db)
  | (Returns baseline, db) =>
      let daily_income_change := change_amount / 30 in
      let modified_balances :=
        income_loop change_type change_amount daily_income_change
                    (CashFlowForecaster.daily_balances baseline) starting_balance in
      (Returns (mkScenario modified_balances (runway_of modified_balances forecast_days)),
       db)
  end.

Fixpoint expense_loop (daily_expense_change : Q)
    (days : list CashFlowForecaster.DailyBalance) (current_balance : Q)
  : list CashFlowForecaster.DailyBalance :=
  match days with
  | [] => []
  | day :: rest =>
      let adjusted_expenses :=
        py_max 0 (CashFlowForecaster.expenses day + daily_expense_change) in
      let current_balance :=
        current_balance + CashFlowForecaster.income day - adjusted_expenses in
      CashFlowForecaster.mkDaily (CashFlowForecaster.date day) (round2 current_balance)
        (CashFlowForecaster.income day) (round2 adjusted_expenses)
        (round2 (CashFlowForecaster.income day - adjusted_expenses))
      :: expense_loop daily_expense_change rest current_balance
  end.

Definition _simulate_expense_change (env : Env) (db : Session) (user_id : string)
    (starting_balance : Q) (parameters : Parameters) (forecast_days : Z)
    (current_date : datetime) : outcome Scenario * Session :=
  let change_amount := get (p_change_amount parameters) 0 in
  match CashFlowForecaster.forecast_balance env db user_id starting_balance forecast_days
          (Some current_date) with
  | (Raises e, db) => (Raises e, db)
  | (Returns baseline, db) =>
      let daily_expense_change := change_amount / 30 in
      let modified_balances :=
        expense_loop daily_expense_change
                     (CashFlowForecaster.daily_balances baseline) starting_balance in
      (Returns (mkScenario modified_balances (runway_of modified_balances forecast_days)),
       db)
  end.

(** A dictionary holding the key [change_amount] only. *)
Definition only_change_amount (change_amount : Q) : Parameters :=
  mkParameters None (Some change_amount) None None None None None None None None.

Definition _simulate_budget_cut (env : Env) (db : Session) (user_id : string)
    (starting_balance : Q) (parameters : Parameters) (forecast_days : Z)
    (current_date : datetime) : outcome Scenario * Session :=
  let category := get (p_category parameters) ""%string in
  let reduction_pct := get (p_reduction_percentage parameters) 0 / 100 in
  let monthly_reduction := get (p_estimated_monthly_savings parameters) 0 in
  _simulate_expense_change env db user_id starting_balance
    (only_change_amount (- monthly_reduction)) forecast_days current_date.

(** [frequency_map.get(frequency, 30)]. *)
Definition days_between_of (frequency : string) : Z :=
  if String.eqb frequency "daily" then 1
  else if String.eqb frequency "weekly" then 7
  else if String.eqb frequency "biweekly" then 14
  else if String.eqb frequency "monthly" then 30
  else if String.eqb frequency "quarterly" then 90
  else if String.eqb frequency "yearly" then 365
  else 30.

Fixpoint recurring_loop (amount : Q) (trans_type : string) (days_between : Z) (i : Z)
    (days : list CashFlowForecaster.DailyBalance) (current_balance : Q)
  : list CashFlowForecaster.DailyBalance :=
  match days with
  | [] => []
  | day :: rest =>
      let due := (i mod days_between =? 0)%Z in
      let extra_income :=
        if due then (if String.eqb trans_type "income" then amount else 0) else 0 in
      let extra_expense :=
        if due then (if String.eqb trans_type "income" then 0 else amount) else 0 in
      let adjusted_income := CashFlowForecaster.income day + extra_income in
      let adjusted_expenses := CashFlowForecaster.expenses day + extra_expense in
      let current_balance := current_balance + adjusted_income - adjusted_expenses in
      CashFlowForecaster.mkDaily (CashFlowForecaster.date day) (round2 current_balance)
        (round2 adjusted_income) (round2 adjusted_expenses)
        (round2 (adjusted_income - adjusted_expenses))
      :: recurring_loop amount trans_type days_between (i + 1) rest current_balance
  end.

Definition _simulate_new_recurring (env : Env) (db : Session) (user_id : string)
    (starting_balance : Q) (parameters : Parameters) (forecast_days : Z)
    (current_date : datetime) : outcome Scenario * Session :=
  let amount := get (p_amount parameters) 0 in
  let frequency := get (p_frequency parameters) "monthly"%string in
  let trans_type := get (p_type parameters) "expense"%string in
  let days_between := days_between_of frequency in
  match CashFlowForecaster.forecast_balance env db user_id starting_balance forecast_days
          (Some current_date) with
  | (Raises e, db) => (Raises e, db)
  | (Returns baseline, db) =>
      let modified_balances :=
        recurring_loop amount trans_type days_between 0
                       (CashFlowForecaster.daily_balances baseline) starting_balance in
      (Returns (mkScenario modified_balances (runway_of modified_balances forecast_days)),
       db)
  end.

Definition _simulate_goal_acceleration (env : Env) (db : Session) (user_id : string)
    (starting_balance : Q) (parameters : Parameters) (forecast_days : Z)
    (current_date : datetime) : outcome Scenario * Session :=
  let additional := get (p_additional_monthly_contribution parameters) 0 in
  _simulate_expense_change env db user_id starting_balance
    (only_change_amount additional) forecast_days current_date.

Record Comparison := mkComparison {
  balance_difference : Q;
  balance_change_percentage : Q;
  runway_difference_days : Z;
  is_improvement : bool
}.

(** [l[-1]]. *)
Definition last_of {A : Type} (l : list A) : outcome A :=
  match rev l with
  | [] => Raises IndexError
  | x :: _ => Returns x
  end.

Definition _compare_scenarios (baseline : CashFlowForecaster.Forecast) (scenario : Scenario)
  : outcome Comparison :=
  match last_of (CashFlowForecaster.daily_balances baseline) with
  | Raises e => Raises e
  | Returns baseline_last =>
      match last_of (sc_daily_balances scenario) with
      | Raises e => Raises e
      | Returns scenario_last =>
          let baseline_end := CashFlowForecaster.balance baseline_last in
          let scenario_end := CashFlowForecaster.balance scenario_last in
          let balance_diff := scenario_end - baseline_end in
          let runway_diff :=
            (sc_runway_days scenario - CashFlowForecaster.runway_days baseline)%Z in
          Returns (mkComparison
                     (round2 balance_diff)
                     (round2 (if negb (Qeq_bool baseline_end 0)
                              then balance_diff / baseline_end * 100 else 0))
                     runway_diff
                     (Qltb 0 balance_diff))
      end
  end.

(** The figures reported for the baseline and for the scenario. *)
Record Figures := mkFigures {
  fig_ending_balance : Q;
  fig_total_income : Q;
  fig_total_expenses : Q;
  fig_runway_days : Z
}.

(** The recommendation string is formatted from the comparison. *)
Record Simulation := mkSimulation {
  sim_scenario_type : string;
  sim_parameters : Parameters;
  sim_forecast_days : Z;
  sim_baseline : Figures;
  sim_scenario : Figures;
  sim_comparison : Comparison
}.

Definition figures_of (daily_balances : list CashFlowForecaster.DailyBalance)
    (runway_days : Z) : outcome Figures :=
  match last_of daily_balances with
  | Raises e => Raises e
  | Returns last_day =>
      Returns (mkFigures (CashFlowForecaster.balance last_day)
                         (py_sum (map CashFlowForecaster.income daily_balances))
                         (py_sum (map CashFlowForecaster.expenses daily_balances))
                         runway_days)
  end.

(** The helper a scenario type selects, if any. *)
Definition helper_of (scenario_type : string)
  : option (Env -> Session -> string -> Q -> Parameters -> Z -> datetime
            -> outcome Scenario * Session) :=
  if String.eqb scenario_type "income_change" then Some _simulate_income_change
  else if String.eqb scenario_type "expense_change" then Some _simulate_expense_change
  else if String.eqb scenario_type "budget_cut" then Some _simulate_budget_cut
  else if String.eqb scenario_type "new_recurring" then Some _simulate_new_recurring
  else if String.eqb scenario_type "goal_acceleration" then Some _simulate_goal_acceleration
  else None.

(** [now] is the clock read when no date is given; [env1] and [env2]
    are the environments of the two forecasts that are run. *)
Definition simulate_scenario (now : datetime) (env1 env2 : Env) (db : Session)
    (user_id scenario_type : string) (parameters : Parameters) (forecast_days : Z)
    (current_date : option datetime) : outcome Simulation * Session :=
  let current_date := match current_date with None => now | Some d => d end in
  let starting_balance := get (p_starting_balance parameters) 10000 in
  match CashFlowForecaster.forecast_balance env1 db user_id starting_balance forecast_days
          (Some current_date) with
  | (Raises e, db) => (Raises e, db)
  | (Returns baseline, db) =>
      match helper_of scenario_type with
      | None => (Raises ValueError, db)
      | Some helper =>
          match helper env2 db user_id starting_balance parameters forecast_days
                       current_date with
          | (Raises e, db) => (Raises e, db)
          | (Returns scenario, db) =>
              match _compare_scenarios baseline scenario with
              | Raises e => (Raises e, db)
              | Returns comparison =>
                  match figures_of (CashFlowForecaster.daily_balances baseline)
                                   (CashFlowForecaster.runway_days baseline) with
                  | Raises e => (Raises e, db)
                  | Returns baseline_figures =>
                      match figures_of (sc_daily_balances scenario)
                                       (sc_runway_days scenario) with
                      | Raises e => (Raises e, db)
                      | Returns scenario_figures =>
                          (Returns (mkSimulation scenario_type parameters forecast_days
                                      baseline_figures scenario_figures comparison),
                           db)
                      end
                  end
              end
          end
      end
  end.

End FinancialSimulator.

Module SimNotions.
Import CashFlowForecaster FinancialSimulator.

(** A helper that runs the forecast once and, when that returns,
    rewrites its series day by day, keeping the dates. *)
Definition rewrites_forecast
    (helper : Env -> Session -> string -> Q -> Parameters -> Z -> datetime
              -> outcome Scenario * Session) : Prop :=
  forall env db user_id starting_balance parameters forecast_days current_date,
    match forecast_balance env db user_id starting_balance forecast_days
            (Some current_date) with
    | (Raises e, db') =>
        helper env db user_id starting_balance parameters forecast_days current_date
        = (Raises e, db')
    | (Returns baseline, db') =>
        exists sc,
          helper env db user_id starting_balance parameters forecast_days current_date
          = (Returns sc, db')
          /\ List.length (sc_daily_balances sc) = List.length (daily_balances baseline)
          /\ map date (sc_daily_balances sc) = map date (daily_balances baseline)
          /\ sc_runway_days sc = runway_of (sc_daily_balances sc) forecast_days
    end.

(** The scenario types [simulate_scenario] knows. *)
Definition known_types : list string :=
  ["income_change"; "expense_change"; "budget_cut"; "new_recurring";
   "goal_acceleration"]%string.

End SimNotions.

(** * Properties *)

(** ** Facts about the number model *)

Lemma Qltb_lt (a b : Q) : Qltb a b = true <-> a < b.
Proof.
  unfold Qltb. rewrite negb_true_iff. split; intro H.
  - apply Qnot_le_lt. intro L. apply Qle_bool_iff in L. congruence.
  - destruct (Qle_bool b a) eqn:E; [|reflexivity].
    apply Qle_bool_iff in E. exfalso. apply (Qlt_not_le _ _ H E).
Qed.

Lemma Qltb_ge (a b : Q) : Qltb a b = false <-> b <= a.
Proof.
  unfold Qltb. rewrite negb_false_iff. apply Qle_bool_iff.
Qed.

#[export] Instance Qltb_proper : Proper (Qeq ==> Qeq ==> eq) Qltb.
Proof. intros a a' Ha b b' Hb. unfold Qltb. now rewrite Ha, Hb. Qed.

#[export] Instance py_min_proper : Proper (Qeq ==> Qeq ==> Qeq) py_min.
Proof.
  intros a a' Ha b b' Hb. unfold py_min. rewrite Ha, Hb.
  now destruct (Qltb b' a').
Qed.

Lemma py_min_le_r (a b : Q) : py_min a b <= b.
Proof.
  unfold py_min. destruct (Qltb b a) eqn:E.
  - apply Qle_refl.
  - now apply Qltb_ge in E.
Qed.

Lemma py_min_le_l (a b : Q) : py_min a b <= a.
Proof.
  unfold py_min. destruct (Qltb b a) eqn:E.
  - apply Qltb_lt in E. now apply Qlt_le_weak.
  - apply Qle_refl.
Qed.

Lemma py_min_cases (a b : Q) :
  (b < a /\ py_min a b = b) \/ (a <= b /\ py_min a b = a).
Proof.
  unfold py_min. destruct (Qltb b a) eqn:E.
  - left. split; [now apply Qltb_lt|reflexivity].
  - right. split; [now apply Qltb_ge|reflexivity].
Qed.

#[export] Instance round_half_even_proper : Proper (Qeq ==> eq) round_half_even.
Proof.
  intros x y E. unfold round_half_even.
  rewrite (Qfloor_comp _ _ E).
  assert (C : (x - inject_Z (Qfloor y) ?= 1 # 2) = (y - inject_Z (Qfloor y) ?= 1 # 2))
    by now rewrite E.
  now rewrite C.
Qed.

#[export] Instance round2_proper : Proper (Qeq ==> eq) round2.
Proof.
  intros x y E. unfold round2.
  assert (R : round_half_even (x * 100) = round_half_even (y * 100))
    by now rewrite E.
  now rewrite R.
Qed.

Lemma round_half_even_bounds (q : Q) :
  (Qfloor q <= round_half_even q <= Qfloor q + 1)%Z.
Proof.
  unfold round_half_even.
  destruct (q - inject_Z (Qfloor q) ?= 1 # 2); [destruct (Z.even _)| |]; lia.
Qed.

Lemma round_half_even_Z (z : Z) : round_half_even (inject_Z z) = z.
Proof.
  unfold round_half_even. rewrite Qfloor_Z.
  assert (C : (inject_Z z - inject_Z z ?= 1 # 2) = Lt).
  { apply Qlt_alt. setoid_replace (inject_Z z - inject_Z z) with 0 by ring. reflexivity. }
  now rewrite C.
Qed.

Lemma round_half_even_mono (x y : Q) :
  x <= y -> (round_half_even x <= round_half_even y)%Z.
Proof.
  intro L. pose proof (Qfloor_resp_le _ _ L) as F.
  destruct (Z.eq_dec (Qfloor x) (Qfloor y)) as [E|N].
  - unfold round_half_even. rewrite E.
    destruct (Qcompare_spec (x - inject_Z (Qfloor y)) (1 # 2)) as [Hx|Hx|Hx];
      destruct (Qcompare_spec (y - inject_Z (Qfloor y)) (1 # 2)) as [Hy|Hy|Hy];
      try destruct (Z.even (Qfloor y)); try lia; exfalso; lra.
  - pose proof (round_half_even_bounds x). pose proof (round_half_even_bounds y).
    lia.
Qed.

Lemma round2_correct (q : Q) : round2 q == round_half_even (q * 100) # 100.
Proof. unfold round2. apply Qred_correct. Qed.

Lemma round2_mono (x y : Q) : x <= y -> round2 x <= round2 y.
Proof.
  intro L. rewrite !round2_correct.
  assert (M : (round_half_even (x * 100) <= round_half_even (y * 100))%Z).
  { apply round_half_even_mono. lra. }
  unfold Qle. simpl. nia.
Qed.

Lemma cents_scale (z : Z) : (z # 100) * 100 == inject_Z z.
Proof. unfold Qeq, Qmult, inject_Z. simpl. lia. Qed.

(** An amount with at most two decimals is left alone by [round2]. *)
Lemma round2_cents (z : Z) : round2 (z # 100) == z # 100.
Proof.
  rewrite round2_correct.
  now rewrite (round_half_even_proper _ _ (cents_scale z)), round_half_even_Z.
Qed.

Lemma round2_is_cents (q : Q) : exists z, round2 q == z # 100.
Proof. eexists. apply round2_correct. Qed.

Lemma round2_pos (q : Q) : 1 # 100 <= q -> 0 < round2 q.
Proof.
  intro L. apply Qlt_le_trans with (y := 1 # 100); [reflexivity|].
  rewrite <- (round2_cents 1). now apply round2_mono.
Qed.

Lemma length_py_range (n : Z) : List.length (py_range n) = Z.to_nat n.
Proof. unfold py_range. now rewrite length_map, length_seq. Qed.

Lemma py_sum_from (xs : list Q) (a : Q) : fold_left Qplus xs a == a + py_sum xs.
Proof.
  unfold py_sum. revert a. induction xs as [|x xs IH]; intro a; simpl.
  - lra.
  - rewrite IH, (IH (0 + x)). lra.
Qed.

Lemma py_sum_cons (x : Q) (xs : list Q) : py_sum (x :: xs) == x + py_sum xs.
Proof. unfold py_sum at 1. simpl. rewrite py_sum_from. lra. Qed.

Lemma py_sum_perm (xs ys : list Q) : Permutation xs ys -> py_sum xs == py_sum ys.
Proof.
  induction 1 as [|x l l' _ IH|x y l|l l' l'' _ IH1 _ IH2].
  - reflexivity.
  - rewrite !py_sum_cons, IH. reflexivity.
  - rewrite !py_sum_cons. lra.
  - now rewrite IH1.
Qed.

(** ** The forecaster *)

Section Forecast.
Import CashFlowForecaster Notions.

Lemma project_length hi he rts cd offsets b :
  List.length (project hi he rts cd offsets b) = List.length offsets.
Proof.
  revert b. induction offsets as [|d rest IH]; intro b; simpl.
  - reflexivity.
  - destruct (day_figures hi he rts (cd + timedelta_days d)%Z) as [i e].
    simpl. now rewrite IH.
Qed.

Lemma project_nth hi he rts cd offsets b k day :
  nth_error (project hi he rts cd offsets b) k = Some day ->
  exists d, nth_error offsets k = Some d /\
            date day = date_of (cd + timedelta_days d)%Z /\
            income day = round2 (fst (day_figures hi he rts (cd + timedelta_days d)%Z)) /\
            expenses day = round2 (snd (day_figures hi he rts (cd + timedelta_days d)%Z)).
Proof.
  revert b k. induction offsets as [|d rest IH]; intros b k H; simpl in H.
  - destruct k; discriminate.
  - destruct (day_figures hi he rts (cd + timedelta_days d)%Z) as [i e] eqn:F.
    destruct k as [|k]; simpl in H.
    + injection H as <-. exists d. simpl. rewrite F. auto.
    + destruct (IH _ _ H) as [d' Hd']. exists d'. exact Hd'.
Qed.

Lemma running_proper nets nets' b b' :
  Forall2 Qeq nets nets' -> b == b' -> running nets b = running nets' b'.
Proof.
  intro H. revert b b'. induction H as [|n n' r r' Hn _ IH]; intros b b' Hb; simpl.
  - reflexivity.
  - assert (E : b + n == b' + n') by now rewrite Hn, Hb.
    f_equal; [now apply round2_proper | now apply IH].
Qed.

Lemma project_balances hi he rts cd offsets b :
  map balance (project hi he rts cd offsets b)
  = running (map (fun d => fst (day_figures hi he rts (cd + timedelta_days d)%Z)
                           - snd (day_figures hi he rts (cd + timedelta_days d)%Z))
                 offsets) b.
Proof.
  revert b. induction offsets as [|d rest IH]; intro b; simpl.
  - reflexivity.
  - destruct (day_figures hi he rts (cd + timedelta_days d)%Z) as [i e] eqn:F.
    simpl. f_equal.
    + apply round2_proper. lra.
    + rewrite IH. apply running_proper.
      * clear. induction rest; constructor; [reflexivity | assumption].
      * lra.
Qed.

Lemma summaries_returns sb fd cd dbs periods :
  (0 <= fd)%Z -> List.length dbs = Z.to_nat (fd + 1) ->
  Forall (fun p => (0 <= p)%Z) periods ->
  exists ps, summaries sb fd cd dbs periods = Returns ps.
Proof.
  intros Hfd Hlen. induction 1 as [|p rest Hp _ [ps IH]]; simpl.
  - now exists [].
  - destruct (p <=? fd)%Z eqn:Hle; [|now exists ps].
    apply Z.leb_le in Hle. unfold summary_for.
    destruct (nth_error dbs (Z.to_nat p)) as [day|] eqn:Hn.
    + rewrite IH. eauto.
    + apply nth_error_None in Hn. lia.
Qed.

(** The runway a list of daily balances gives. *)
Lemma forecast_inv env db uid sb fd cd f db' :
  forecast_balance env db uid sb fd cd = (Returns f, db') ->
  let start := start_of env cd in
  daily_balances f
  = project (history db uid start INCOME) (history db uid start EXPENSE)
            (active db uid) start (py_range (fd + 1)) sb
  /\ runway_days f = match first_depleted 0 (daily_balances f) with
                     | Some i => i
                     | None => (fd + 1)%Z
                     end
  /\ db' = (if (runway_days f <=? 30)%Z
            then _create_low_balance_notification env db uid (runway_days f) (min_balance f)
            else db).
Proof.
  unfold forecast_balance. fold (start_of env cd). fold (active db uid).
  set (start := start_of env cd).
  fold (history db uid start INCOME). fold (history db uid start EXPENSE).
  set (dbs := project _ _ _ _ _ _).
  destruct (min_by_balance dbs) as [mb|e]; [|discriminate].
  set (rw := match first_depleted 0 dbs with Some i => i | None => (fd + 1)%Z end).
  destruct (rw <=? 30)%Z eqn:Hrw.
  - destruct (summaries sb fd start dbs [30; 60; 90]%Z) as [ps|e]; [|discriminate].
    intro H. injection H as <- <-. simpl. fold rw. rewrite Hrw. auto.
  - destruct (Qltb (balance mb) (sb * (2 # 10)));
      (destruct (summaries sb fd start dbs [30; 60; 90]%Z) as [ps|e]; [|discriminate]);
      intro H; injection H as <- <-; simpl; fold rw; rewrite Hrw; auto.
Qed.

Lemma forecast_total env db uid sb fd cd :
  (0 <= fd)%Z -> exists f db', forecast_balance env db uid sb fd cd = (Returns f, db').
Proof.
  intro Hfd. unfold forecast_balance.
  set (dbs := project _ _ _ _ _ _).
  assert (Hlen : List.length dbs = Z.to_nat (fd + 1)).
  { unfold dbs. now rewrite project_length, length_py_range. }
  destruct dbs as [|x r] eqn:E; [simpl in Hlen; lia|]. simpl min_by_balance. cbv iota.
  set (rw := match first_depleted 0 (x :: r) with Some i => i | None => (fd + 1)%Z end).
  destruct (summaries_returns sb fd (match cd with None => utcnow_entry env | Some d => d end)
              (x :: r) [30; 60; 90]%Z Hfd Hlen) as [ps Hps].
  { repeat constructor; lia. }
  destruct (rw <=? 30)%Z.
  - rewrite Hps. eauto.
  - destruct (Qltb _ _); rewrite Hps; eauto.
Qed.

Lemma scheduled_from rts on a b :
  fst (fold_left (add_if_due on) rts (a, b))
  == a + py_sum (map rt_amount (due_in INCOME on rts))
  /\ snd (fold_left (add_if_due on) rts (a, b))
     == b + py_sum (map rt_amount (due_in EXPENSE on rts)).
Proof.
  revert a b. induction rts as [|r rts IH]; intros a b; simpl.
  - unfold py_sum. simpl. split; lra.
  - destruct (_is_due_on_date r on); simpl; [|apply IH].
    destruct (rt_type r); simpl; try apply IH;
      destruct (IH (a + rt_amount r) b) as [I1 E1];
      destruct (IH a (b + rt_amount r)) as [I2 E2];
      rewrite ?py_sum_cons; split;
      first [rewrite I1|rewrite E1|rewrite I2|rewrite E2]; lra.
Qed.

Lemma scheduled_income rts on :
  fst (scheduled rts on) == py_sum (map rt_amount (due_in INCOME on rts)).
Proof. unfold scheduled. destruct (scheduled_from rts on 0 0) as [H _]. rewrite H. lra. Qed.

Lemma scheduled_expenses rts on :
  snd (scheduled rts on) == py_sum (map rt_amount (due_in EXPENSE on rts)).
Proof. unfold scheduled. destruct (scheduled_from rts on 0 0) as [_ H]. rewrite H. lra. Qed.

Lemma day_figures_eq hi he rts on :
  day_figures hi he rts on
  = (if Qeq_bool (fst (scheduled rts on)) 0 then daily_average hi else fst (scheduled rts on),
     if Qeq_bool (snd (scheduled rts on)) 0 then daily_average he else snd (scheduled rts on)).
Proof. unfold day_figures. now destruct (scheduled rts on). Qed.

Lemma py_sum_pos xs : xs <> [] -> Forall (fun x => 0 < x) xs -> 0 < py_sum xs.
Proof.
  intros N H. induction H as [|x xs Hx Hxs IH]; [congruence|].
  rewrite py_sum_cons. destruct xs as [|y ys].
  - unfold py_sum. simpl. lra.
  - assert (0 < py_sum (y :: ys)) by (apply IH; discriminate). lra.
Qed.

Lemma Qeq_bool_false_pos q : 0 < q -> Qeq_bool q 0 = false.
Proof.
  intro H. destruct (Qeq_bool q 0) eqn:E; [|reflexivity].
  apply Qeq_bool_eq in E. lra.
Qed.

Lemma Qeq_bool_true_eq q : q == 0 -> Qeq_bool q 0 = true.
Proof. apply Qeq_eq_bool. Qed.

Lemma no_history db uid start ty :
  transactions db = [] -> history db uid start ty = mkAverages 0 0 0 0.
Proof.
  intro H. unfold history, _get_historical_averages. rewrite H. reflexivity.
Qed.

Lemma first_depleted_none i l :
  Forall (fun day => 0 < balance day) l -> first_depleted i l = None.
Proof.
  intro H. revert i. induction H as [|day r Hd _ IH]; intro i; simpl.
  - reflexivity.
  - destruct (Qle_bool (balance day) 0) eqn:E; [|apply IH].
    apply Qle_bool_iff in E. lra.
Qed.

Lemma first_depleted_some i l k :
  first_depleted i l = Some k ->
  (i <= k)%Z /\ exists day,
    nth_error l (Z.to_nat (k - i)) = Some day /\ balance day <= 0 /\
    forall j day', (j < Z.to_nat (k - i))%nat -> nth_error l j = Some day' ->
                   0 < balance day'.
Proof.
  revert i. induction l as [|day r IH]; intros i H; simpl in H; [discriminate|].
  destruct (Qle_bool (balance day) 0) eqn:E.
  - injection H as <-. split; [lia|]. exists day. rewrite Z.sub_diag. simpl.
    split; [reflexivity|]. split; [now apply Qle_bool_iff|]. intros j day' Hj. lia.
  - destruct (IH _ H) as [Hik [day0 [Hn [Hb Hbefore]]]]. split; [lia|].
    exists day0. replace (Z.to_nat (k - i)) with (S (Z.to_nat (k - (i + 1)))) by lia.
    simpl. split; [exact Hn|]. split; [exact Hb|].
    intros [|j] day' Hj Hd; simpl in Hd.
    + injection Hd as <-. apply Qnot_le_lt. intro L. apply Qle_bool_iff in L. congruence.
    + apply (Hbefore j); [lia|exact Hd].
Qed.

Lemma first_depleted_none_inv i l :
  first_depleted i l = None -> Forall (fun day => 0 < balance day) l.
Proof.
  revert i. induction l as [|day r IH]; intros i H; simpl in H; constructor.
  - destruct (Qle_bool (balance day) 0) eqn:E; [discriminate|].
    apply Qnot_le_lt. intro L. apply Qle_bool_iff in L. congruence.
  - destruct (Qle_bool (balance day) 0); [discriminate|]. now apply (IH (i + 1)%Z).
Qed.

Lemma running_floor nets b :
  0 < round2 b -> Forall (fun n => 0 <= n) nets -> Forall (fun x => 0 < x) (running nets b).
Proof.
  intros Hb H. revert b Hb. induction H as [|n r Hn _ IH]; intros b Hb; simpl.
  - constructor.
  - assert (P : 0 < round2 (b + n)).
    { eapply Qlt_le_trans; [exact Hb|]. apply round2_mono. lra. }
    constructor; [exact P|]. now apply IH.
Qed.

(** *** The length of the series *)

(** C2. For every horizon [forecast_days >= 0], whatever the starting
    balance, the obligations and the history, the forecast returns and
    its [daily_balances] has exactly [forecast_days + 1] points, the
    first of which is the point of day 0 (today). *)
Theorem forecast_has_one_point_per_day env db user_id starting_balance forecast_days current_date :
  (0 <= forecast_days)%Z ->
  exists f db',
    forecast_balance env db user_id starting_balance forecast_days current_date
    = (Returns f, db')
    /\ Z.of_nat (List.length (daily_balances f)) = (forecast_days + 1)%Z
    /\ exists today, nth_error (daily_balances f) 0 = Some today
                     /\ date today = date_of (start_of env current_date).
Proof.
  intro Hfd.
  destruct (forecast_total env db user_id starting_balance forecast_days current_date Hfd)
    as [f [db' H]].
  exists f, db'. split; [exact H|].
  destruct (forecast_inv _ _ _ _ _ _ _ _ H) as [Hd _].
  assert (L : List.length (daily_balances f) = Z.to_nat (forecast_days + 1)).
  { rewrite Hd. now rewrite project_length, length_py_range. }
  split; [lia|].
  destruct (nth_error (daily_balances f) 0) as [today|] eqn:N;
    [|apply nth_error_None in N; lia].
  exists today. split; [reflexivity|].
  rewrite Hd in N. apply project_nth in N. destruct N as [d [Hd0 [Hdate _]]].
  unfold py_range in Hd0.
  replace (Z.to_nat (forecast_days + 1)) with (S (Z.to_nat forecast_days)) in Hd0 by lia.
  simpl in Hd0. injection Hd0 as <-. rewrite Hdate. f_equal. unfold timedelta_days. lia.
Qed.

Lemma forecast_has_one_point_per_day_witness :
  exists f db',
    forecast_balance Examples.env0 Examples.mixed_db "u" 1000 2 (Some 0%Z) = (Returns f, db')
    /\ Z.of_nat (List.length (daily_balances f)) = 3%Z
    /\ exists today, nth_error (daily_balances f) 0 = Some today
                     /\ date today = date_of (start_of Examples.env0 (Some 0%Z)).
Proof.
  apply (forecast_has_one_point_per_day Examples.env0 Examples.mixed_db "u" 1000 2 (Some 0%Z)).
  lia.
Defined.


Lemma in_py_range d n : In d (py_range n) -> (0 <= d < n)%Z.
Proof.
  unfold py_range. rewrite in_map_iff. intros [k [<- Hk]]. apply in_seq in Hk. lia.
Qed.

Lemma nth_error_py_range n k d : nth_error (py_range n) k = Some d -> d = Z.of_nat k.
Proof.
  unfold py_range. rewrite nth_error_map.
  destruct (nth_error (seq 0 (Z.to_nat n)) k) as [j|] eqn:E; [|discriminate].
  simpl. intro H. injection H as <-.
  assert (L : (k < List.length (seq 0 (Z.to_nat n)))%nat).
  { apply nth_error_Some. congruence. }
  rewrite length_seq in L. rewrite (nth_error_nth' _ 0%nat) in E by now rewrite length_seq.
  rewrite seq_nth in E by exact L. injection E as <-. reflexivity.
Qed.

Lemma find_existsb {A} (p : A -> bool) l :
  match find p l with Some _ => existsb p l = true | None => existsb p l = false end.
Proof.
  induction l as [|x l IH]; simpl; [reflexivity|].
  destruct (p x); simpl; [reflexivity|exact IH].
Qed.

Lemma create_notification_cases env db uid rw mb :
  _create_low_balance_notification env db uid rw mb
  = if notified_today env db uid then db
    else mkSession (transactions db) (recurring_transactions db)
                   (notifications db ++ [low_balance_notification env uid rw mb]).
Proof.
  unfold _create_low_balance_notification, notified_today.
  match goal with |- context [find ?p ?l] => pose proof (find_existsb p l) as H end.
  cbv zeta in *.
  destruct (find _ _); rewrite H; reflexivity.
Qed.

Lemma forecast_raises env db uid sb fd cd e db' :
  forecast_balance env db uid sb fd cd = (Raises e, db') -> (fd < 0)%Z /\ db' = db.
Proof.
  intro H. destruct (Z_lt_le_dec fd 0) as [L|L].
  - split; [exact L|]. unfold forecast_balance in H.
    unfold py_range in H. replace (Z.to_nat (fd + 1)) with 0%nat in H by lia.
    simpl in H. now injection H.
  - destruct (forecast_total env db uid sb fd cd L) as [f [db'' H']]. congruence.
Qed.

Lemma Forall2_map_Qeq {A} (f g : A -> Q) l :
  (forall x, In x l -> f x == g x) -> Forall2 Qeq (map f l) (map g l).
Proof.
  induction l as [|x l IH]; intro H; simpl; constructor.
  - apply H. now left.
  - apply IH. intros y Hy. apply H. now right.
Qed.

(** *** The example run *)

(** C1, as the code has it.  Starting balance 1000, horizon 5, no
    history, no income due, and recurring expenses summing to 100 due on
    every forecast day: the balance of a day already includes that day's
    expense, so the series is [900, 800, 700, 600, 500, 400]; the runway
    is the sentinel 6. *)
Theorem example_run_balances env db user_id current_date :
  transactions db = [] ->
  (forall d, (0 <= d <= 5)%Z ->
     due db user_id INCOME (day_at (start_of env current_date) d) = []
     /\ py_sum (map rt_amount (due db user_id EXPENSE (day_at (start_of env current_date) d)))
        == 100) ->
  exists f db',
    forecast_balance env db user_id 1000 5 current_date = (Returns f, db')
    /\ map balance (daily_balances f) = [900; 800; 700; 600; 500; 400]
    /\ runway_days f = 6%Z.
Proof.
  intros Hhist Hdue.
  destruct (forecast_total env db user_id 1000 5 current_date ltac:(lia)) as [f [db' H]].
  exists f, db'. split; [exact H|].
  destruct (forecast_inv _ _ _ _ _ _ _ _ H) as [Hd [Hr _]].
  assert (B : map balance (daily_balances f) = [900; 800; 700; 600; 500; 400]).
  { rewrite Hd, project_balances.
    rewrite (running_proper _ (map (fun _ => -(100)) (py_range (5 + 1))) 1000 1000);
      [reflexivity| |reflexivity].
    apply Forall2_map_Qeq. intros d Hin. apply in_py_range in Hin.
    destruct (Hdue d ltac:(lia)) as [Hi He]. unfold due, day_at in Hi, He.
    rewrite day_figures_eq. simpl fst. simpl snd.
    rewrite (Qeq_bool_true_eq (fst (scheduled _ _)))
      by (rewrite scheduled_income, Hi; reflexivity).
    rewrite (Qeq_bool_false_pos (snd (scheduled _ _)))
      by (rewrite scheduled_expenses, He; reflexivity).
    rewrite scheduled_expenses, He, (no_history _ _ _ _ Hhist). reflexivity. }
  split; [exact B|].
  rewrite Hr, (first_depleted_none 0 (daily_balances f)); [reflexivity|].
  apply Forall_forall. intros day Hday.
  assert (I : In (balance day) (map balance (daily_balances f))) by now apply in_map.
  rewrite B in I. simpl in I.
  repeat (destruct I as [<-|I]; [reflexivity|]). contradiction.
Qed.

Lemma example_run_balances_witness :
  exists f db',
    forecast_balance Examples.env0 Examples.expense_every_day "u" 1000 5 (Some 0%Z)
    = (Returns f, db')
    /\ map balance (daily_balances f) = [900; 800; 700; 600; 500; 400]
    /\ runway_days f = 6%Z.
Proof.
  apply (example_run_balances Examples.env0 Examples.expense_every_day "u" (Some 0%Z)).
  - reflexivity.
  - intros d Hd.
    assert (C : d = 0%Z \/ d = 1%Z \/ d = 2%Z \/ d = 3%Z \/ d = 4%Z \/ d = 5%Z) by lia.
    destruct C as [->|[->|[->|[->|[->| ->]]]]]; split; reflexivity.
Defined.

(** C1 as stated fails: with an expense of 100 due on every day, and
    with a single daily obligation next due today, the series is not
    [1000, 900, 800, 700, 600, 500]. *)
Lemma example_run_counterexample :
  (exists f db',
      forecast_balance Examples.env0 Examples.expense_every_day "u" 1000 5 (Some 0%Z)
      = (Returns f, db')
      /\ map balance (daily_balances f) = [900; 800; 700; 600; 500; 400]
      /\ map balance (daily_balances f) <> [1000; 900; 800; 700; 600; 500])
  /\ (exists f db',
      forecast_balance Examples.env0 Examples.one_daily_expense "u" 1000 5 (Some 0%Z)
      = (Returns f, db')
      /\ map balance (daily_balances f) = [900; 900; 900; 900; 900; 900]
      /\ map balance (daily_balances f) <> [1000; 900; 800; 700; 600; 500]).
Proof.
  split; do 2 eexists; (split; [vm_compute; reflexivity|]);
    (split; [vm_compute; reflexivity | vm_compute; discriminate]).
Qed.


(** *** The runway *)

Lemma runway_cases l fd :
  let r := match first_depleted 0 l with Some i => i | None => (fd + 1)%Z end in
  first_at_or_below_zero l r
  \/ (Forall (fun day => 0 < balance day) l /\ r = (fd + 1)%Z).
Proof.
  destruct (first_depleted 0 l) as [k|] eqn:E; simpl.
  - left. destruct (first_depleted_some _ _ _ E) as [Hk [day Hday]].
    rewrite Z.sub_0_r in Hday. split; [exact Hk|]. now exists day.
  - right. split; [now apply (first_depleted_none_inv 0)|reflexivity].
Qed.

(** C6, as the code has it.  The runway is the index of the first day
    whose (rounded) balance is at or below zero, and the sentinel
    [forecast_days + 1] when there is none.  It is the sentinel whenever
    the starting balance rounds to a positive amount of cents, which
    every starting balance of at least 0.01 does, and every projected
    day's net is non-negative. *)
Theorem runway_is_first_depleted_day env db user_id starting_balance forecast_days current_date :
  (0 <= forecast_days)%Z ->
  exists f db',
    forecast_balance env db user_id starting_balance forecast_days current_date
    = (Returns f, db')
    /\ (first_at_or_below_zero (daily_balances f) (runway_days f)
        \/ (Forall (fun day => 0 < balance day) (daily_balances f)
            /\ runway_days f = (forecast_days + 1)%Z))
    /\ (0 < round2 starting_balance ->
        (forall d, (0 <= d <= forecast_days)%Z ->
                   0 <= net_of db user_id (start_of env current_date) d) ->
        runway_days f = (forecast_days + 1)%Z)
    /\ (1 # 100 <= starting_balance -> 0 < round2 starting_balance).
Proof.
  intro Hfd.
  destruct (forecast_total env db user_id starting_balance forecast_days current_date Hfd)
    as [f [db' H]].
  exists f, db'. split; [exact H|].
  destruct (forecast_inv _ _ _ _ _ _ _ _ H) as [Hd [Hr _]].
  split; [|split; [|apply round2_pos]].
  - rewrite Hr. apply runway_cases.
  - intros Hsb Hnet. rewrite Hr, (first_depleted_none 0 (daily_balances f)); [reflexivity|].
    assert (P : Forall (fun x => 0 < x) (map balance (daily_balances f))).
    { rewrite Hd, project_balances. apply running_floor; [exact Hsb|].
      apply Forall_forall. intros n Hn. apply in_map_iff in Hn.
      destruct Hn as [d [<- Hin]]. apply in_py_range in Hin.
      apply (Hnet d). lia. }
    rewrite Forall_map in P. exact P.
Qed.

Lemma runway_is_first_depleted_day_witness :
  exists f db',
    forecast_balance Examples.env0 Examples.mixed_db "u" 1000 2 (Some 0%Z) = (Returns f, db')
    /\ (first_at_or_below_zero (daily_balances f) (runway_days f)
        \/ (Forall (fun day => 0 < balance day) (daily_balances f)
            /\ runway_days f = (2 + 1)%Z))
    /\ (0 < round2 1000 ->
        (forall d, (0 <= d <= 2)%Z ->
                   0 <= net_of Examples.mixed_db "u" (start_of Examples.env0 (Some 0%Z)) d) ->
        runway_days f = (2 + 1)%Z)
    /\ (1 # 100 <= 1000 -> 0 < round2 1000).
Proof.
  apply (runway_is_first_depleted_day Examples.env0 Examples.mixed_db "u" 1000 2 (Some 0%Z)).
  lia.
Defined.

(** C6 as stated fails at a starting balance of 0 with no activity: the
    starting balance and every net are >= 0, yet the balance of day 0 is
    already at zero and the runway is 0, not the sentinel 6. *)
Lemma runway_sentinel_counterexample :
  0 <= 0
  /\ (forall d, (0 <= d <= 5)%Z ->
                0 <= net_of Examples.empty_db "u" (start_of Examples.env0 (Some 0%Z)) d)
  /\ exists f db',
      forecast_balance Examples.env0 Examples.empty_db "u" 0 5 (Some 0%Z) = (Returns f, db')
      /\ runway_days f = 0%Z /\ runway_days f <> (5 + 1)%Z.
Proof.
  split; [apply Qle_refl|]. split.
  - intros d _. vm_compute. discriminate.
  - do 2 eexists. split; [vm_compute; reflexivity|]. simpl. split; [reflexivity|lia].
Qed.

(** *** What a forecast writes *)

(** C7, as the code has it.  A forecast never changes the transaction
    and recurring-transaction tables.  It leaves the whole session
    unchanged when it raises, when the runway exceeds 30 days, and when
    a low-balance notification of the user exists since midnight; in the
    remaining case (runway <= 30) it appends exactly one low-balance
    notification to the notification table. *)
Theorem forecast_writes_only_the_low_balance_notification
    env db user_id starting_balance forecast_days current_date :
  let r := forecast_balance env db user_id starting_balance forecast_days current_date in
  transactions (snd r) = transactions db
  /\ recurring_transactions (snd r) = recurring_transactions db
  /\ (forall e, fst r = Raises e -> snd r = db)
  /\ (forall f, fst r = Returns f ->
        ((30 < runway_days f)%Z -> snd r = db)
        /\ (notified_today env db user_id = true -> snd r = db)
        /\ ((runway_days f <= 30)%Z -> notified_today env db user_id = false ->
            notifications (snd r)
            = notifications db
              ++ [low_balance_notification env user_id (runway_days f) (min_balance f)])).
Proof.
  intro r. destruct r as [o db'] eqn:E. unfold r in E. clear r. simpl.
  destruct o as [f|e].
  - destruct (forecast_inv _ _ _ _ _ _ _ _ E) as [_ [_ Hdb]].
    rewrite create_notification_cases in Hdb.
    assert (T : transactions db' = transactions db
                /\ recurring_transactions db' = recurring_transactions db).
    { subst db'.
      destruct (_ <=? _)%Z; [destruct (notified_today _ _ _)|]; simpl; auto. }
    destruct T as [T1 T2]. split; [exact T1|]. split; [exact T2|].
    split; [intros e He; discriminate|].
    intros f' Hf'. injection Hf' as <-. split; [|split].
    + intro L. apply Z.leb_gt in L. now rewrite L in Hdb.
    + intro N. rewrite N in Hdb. now destruct (_ <=? _)%Z.
    + intros L N. apply Z.leb_le in L. rewrite L, N in Hdb. now subst db'.
  - destruct (forecast_raises _ _ _ _ _ _ _ _ E) as [_ ->].
    split; [reflexivity|]. split; [reflexivity|]. split; [reflexivity|].
    intros f Hf. discriminate.
Qed.

(** C7 as stated fails: a forecast whose runway is at most 30 days
    inserts a notification, so the session after the call differs from
    the one before. *)
Lemma forecast_writes_counterexample :
  let r := forecast_balance Examples.env0 Examples.empty_db "u" 0 5 (Some 0%Z) in
  (exists f, fst r = Returns f /\ runway_days f = 0%Z)
  /\ List.length (notifications (snd r)) = 1%nat
  /\ snd r <> Examples.empty_db.
Proof.
  vm_compute. split; [eexists; split; reflexivity|]. split; [reflexivity|discriminate].
Qed.


(** *** Recurring items before the historical average *)

Lemma due_amounts_positive db uid ty on :
  (forall r, In r (recurring_transactions db) -> 0 < rt_amount r) ->
  Forall (fun x => 0 < x) (map rt_amount (due db uid ty on)).
Proof.
  intro H. apply Forall_map, Forall_forall. intros r Hr. apply H.
  unfold due, due_in, active in Hr.
  apply filter_In in Hr. destruct Hr as [Hr _].
  apply filter_In in Hr. tauto.
Qed.

Lemma figure_when_due (avg : Q) (s : Q) (xs : list Q) :
  s == py_sum xs -> xs <> [] -> Forall (fun x => 0 < x) xs ->
  (if Qeq_bool s 0 then avg else s) == py_sum xs.
Proof.
  intros Hs Hne Hpos. rewrite Qeq_bool_false_pos; [exact Hs|].
  rewrite Hs. now apply py_sum_pos.
Qed.

Lemma figure_when_none_due (avg : Q) (s : Q) (xs : list Q) :
  s == py_sum xs -> xs = [] -> (if Qeq_bool s 0 then avg else s) = avg.
Proof.
  intros Hs ->. rewrite Qeq_bool_true_eq; [reflexivity|]. rewrite Hs. reflexivity.
Qed.

(** C8. With every obligation amount > 0, on every forecast day: if some
    active recurring expense is due that day, the day's expense figure
    is the sum of the due recurring expense amounts (the historical
    average is not added); if none is due, it is the historical daily
    expense average; the same holds on the income side.  The recorded
    [expenses] and [income] of the day are these figures rounded to
    cents. *)
Theorem recurring_takes_precedence env db user_id starting_balance forecast_days current_date :
  (forall r, In r (recurring_transactions db) -> 0 < rt_amount r) ->
  (0 <= forecast_days)%Z ->
  exists f db',
    forecast_balance env db user_id starting_balance forecast_days current_date
    = (Returns f, db')
    /\ forall k day,
        nth_error (daily_balances f) k = Some day ->
        let start := start_of env current_date in
        let on := day_at start (Z.of_nat k) in
        let fig := figures db user_id start (Z.of_nat k) in
        income day = round2 (fst fig)
        /\ expenses day = round2 (snd fig)
        /\ (due db user_id EXPENSE on <> [] ->
            snd fig == py_sum (map rt_amount (due db user_id EXPENSE on)))
        /\ (due db user_id EXPENSE on = [] ->
            snd fig = daily_average (history db user_id start EXPENSE))
        /\ (due db user_id INCOME on <> [] ->
            fst fig == py_sum (map rt_amount (due db user_id INCOME on)))
        /\ (due db user_id INCOME on = [] ->
            fst fig = daily_average (history db user_id start INCOME)).
Proof.
  intros Hpos Hfd.
  destruct (forecast_total env db user_id starting_balance forecast_days current_date Hfd)
    as [f [db' H]].
  exists f, db'. split; [exact H|].
  destruct (forecast_inv _ _ _ _ _ _ _ _ H) as [Hd _].
  intros k day Hk start on fig. rewrite Hd in Hk.
  apply project_nth in Hk. destruct Hk as [d [Hd0 [_ [Hi He]]]].
  apply nth_error_py_range in Hd0. subst d.
  split; [exact Hi|]. split; [exact He|].
  unfold fig, figures. rewrite day_figures_eq. simpl fst. simpl snd. fold on.
  pose proof (scheduled_income (active db user_id) on) as SI.
  pose proof (scheduled_expenses (active db user_id) on) as SE.
  fold (due db user_id INCOME on) in SI. fold (due db user_id EXPENSE on) in SE.
  split; [|split; [|split]].
  - intro N. apply figure_when_due; [exact SE| |now apply due_amounts_positive].
    intro M. apply map_eq_nil in M. contradiction.
  - intro N. apply (figure_when_none_due _ _ _ SE). now rewrite N.
  - intro N. apply figure_when_due; [exact SI| |now apply due_amounts_positive].
    intro M. apply map_eq_nil in M. contradiction.
  - intro N. apply (figure_when_none_due _ _ _ SI). now rewrite N.
Qed.

Lemma recurring_takes_precedence_witness :
  exists f db',
    forecast_balance Examples.env0 Examples.mixed_db "u" 1000 2 (Some 0%Z) = (Returns f, db')
    /\ forall k day,
        nth_error (daily_balances f) k = Some day ->
        let start := start_of Examples.env0 (Some 0%Z) in
        let on := day_at start (Z.of_nat k) in
        let fig := figures Examples.mixed_db "u" start (Z.of_nat k) in
        income day = round2 (fst fig)
        /\ expenses day = round2 (snd fig)
        /\ (due Examples.mixed_db "u" EXPENSE on <> [] ->
            snd fig == py_sum (map rt_amount (due Examples.mixed_db "u" EXPENSE on)))
        /\ (due Examples.mixed_db "u" EXPENSE on = [] ->
            snd fig = daily_average (history Examples.mixed_db "u" start EXPENSE))
        /\ (due Examples.mixed_db "u" INCOME on <> [] ->
            fst fig == py_sum (map rt_amount (due Examples.mixed_db "u" INCOME on)))
        /\ (due Examples.mixed_db "u" INCOME on = [] ->
            fst fig = daily_average (history Examples.mixed_db "u" start INCOME)).
Proof.
  apply (recurring_takes_precedence Examples.env0 Examples.mixed_db "u" 1000 2 (Some 0%Z)).
  - intros r Hr. simpl in Hr.
    destruct Hr as [<-|[<-|[<-|[]]]]; reflexivity.
  - lia.
Defined.

(** The run on [mixed_db]: on day 0 the salary of 50 and the bill of 20
    are used; on day 1 nothing is due and the averages 20 and 10 are. *)
Example recurring_takes_precedence_run :
  exists f db',
    forecast_balance Examples.env0 Examples.mixed_db "u" 1000 2 (Some 0%Z) = (Returns f, db')
    /\ map income (daily_balances f) = [50; 20; 20]
    /\ map expenses (daily_balances f) = [20; 10; 10]
    /\ map balance (daily_balances f) = [1030; 1040; 1050].
Proof.
  do 2 eexists. split; [vm_compute; reflexivity|]. repeat split.
Qed.

End Forecast.

(** ** The debt optimizer *)

Section Debts.
Import DebtOptimizer DebtNotions.

Lemma while_loop_fuel_mono {S} (cond : S -> bool) body fuel fuel' (s s' : S) :
  while_loop fuel cond body s = Some s' -> (fuel <= fuel')%nat ->
  while_loop fuel' cond body s = Some s'.
Proof.
  revert fuel' s. induction fuel as [|fuel IH]; intros fuel' s H L; simpl in H.
  - discriminate.
  - destruct fuel' as [|fuel']; [lia|]. simpl.
    destruct (cond s); [|exact H]. apply IH; [exact H|lia].
Qed.

(** The payoff loop leaves through its own condition within 360 rounds. *)
Lemma payoff_loop_terminates rate payment fuel s :
  (0 <= months s <= 360)%Z -> (Z.to_nat (360 - months s) < fuel)%nat ->
  exists s', while_loop fuel payoff_cond (payoff_body rate payment) s = Some s'
             /\ (months s <= months s' <= 360)%Z
             /\ payoff_cond s' = false.
Proof.
  revert s. induction fuel as [|fuel IH]; intros s Hm Hf; [lia|]. simpl.
  destruct (payoff_cond s) eqn:C.
  - assert (M : (months s < 360)%Z).
    { unfold payoff_cond in C. apply andb_prop in C. destruct C as [_ C].
      now apply Z.ltb_lt in C. }
    destruct (IH (payoff_body rate payment s)) as [s' [H1 [H2 H3]]].
    + unfold payoff_body. cbn [months]. lia.
    + unfold payoff_body. cbn [months]. lia.
    + exists s'. unfold payoff_body in H2. cbn [months] in H2.
      split; [exact H1|]. split; [lia|exact H3].
  - exists s. split; [reflexivity|]. split; [lia|exact C].
Qed.

Lemma payoff_returns fuel debt extra :
  (360 < fuel)%nat ->
  exists s, payoff fuel debt extra = Some s
            /\ (0 <= months s <= 360)%Z
            /\ (months s = 360%Z \/ remaining s <= 0).
Proof.
  intro Hf. unfold payoff.
  destruct (payoff_loop_terminates (interestRate debt / 100 / 12)
              (monthlyPayment debt + extra) fuel (mkPayoff (remainingAmount debt) 0 0))
    as [s [H1 [H2 H3]]]; cbn [months]; try lia.
  exists s. split; [exact H1|]. cbn [months] in H2. split; [lia|].
  unfold payoff_cond in H3. apply andb_false_iff in H3. destruct H3 as [H3|H3].
  - right. now apply Qltb_ge.
  - left. apply Z.ltb_ge in H3. lia.
Qed.

Lemma payoff_fuel_irrelevant fuel fuel' debt extra :
  (360 < fuel)%nat -> (360 < fuel')%nat ->
  payoff fuel debt extra = payoff fuel' debt extra.
Proof.
  intros H H'.
  destruct (payoff_returns 361 debt extra ltac:(lia)) as [s [Hs _]].
  unfold payoff in *.
  rewrite (while_loop_fuel_mono _ _ 361%nat fuel _ _ Hs) by lia.
  rewrite (while_loop_fuel_mono _ _ 361%nat fuel' _ _ Hs) by lia.
  reflexivity.
Qed.

(** A payment that does not cover the interest keeps the loop running
    to the cap. *)
Lemma payoff_loop_uncovered rate payment fuel s s' :
  0 <= rate -> 0 < remaining s -> payment <= remaining s * rate ->
  (0 <= months s <= 360)%Z ->
  while_loop fuel payoff_cond (payoff_body rate payment) s = Some s' ->
  months s' = 360%Z /\ remaining s <= remaining s'.
Proof.
  intro Hr. revert s. induction fuel as [|fuel IH]; intros s Hpos Hpay Hm H; simpl in H.
  - discriminate.
  - destruct (payoff_cond s) eqn:C.
    + assert (M : (months s < 360)%Z).
      { unfold payoff_cond in C. apply andb_prop in C. destruct C as [_ C].
        now apply Z.ltb_lt in C. }
      assert (P : py_min (payment - remaining s * rate) (remaining s) <= 0).
      { eapply Qle_trans; [apply py_min_le_l|]. lra. }
      destruct (IH (payoff_body rate payment s)) as [H1 H2];
        unfold payoff_body; cbn [months remaining]; try lia; try exact H.
      * lra.
      * apply Qle_trans with (y := remaining s * rate); [exact Hpay|].
        apply Qmult_le_compat_r; [lra|exact Hr].
      * split; [exact H1|]. unfold payoff_body in H2. cbn [remaining] in H2. lra.
    + injection H as <-. split; [|apply Qle_refl].
      unfold payoff_cond in C. apply andb_false_iff in C. destruct C as [C|C].
      * apply Qltb_ge in C. lra.
      * apply Z.ltb_ge in C. lia.
Qed.


Lemma insert_sorted_perm {A} (p : A -> A -> bool) x l :
  Permutation (insert_sorted p x l) (x :: l).
Proof.
  induction l as [|y l IH]; simpl; [reflexivity|].
  destruct (p y x); [|reflexivity].
  rewrite IH. apply perm_swap.
Qed.

Lemma sorted_by_perm {A} (p : A -> A -> bool) l : Permutation (sorted_by p l) l.
Proof.
  induction l as [|x l IH]; simpl; [reflexivity|].
  rewrite insert_sorted_perm. now constructor.
Qed.

Lemma sort_for_perm strategy l : Permutation (sort_for strategy l) l.
Proof. unfold sort_for. destruct (String.eqb _ _); apply sorted_by_perm. Qed.

Lemma fold_max_perm l l' :
  Permutation l l' -> forall a, fold_left Z.max l a = fold_left Z.max l' a.
Proof.
  induction 1 as [|x l l' _ IH|x y l|l l' l'' _ IH1 _ IH2]; intro a; simpl.
  - reflexivity.
  - apply IH.
  - f_equal. lia.
  - now rewrite IH1.
Qed.

Lemma fold_plus_perm l l' a :
  Permutation l l' -> fold_left Qplus l a == fold_left Qplus l' a.
Proof. intro P. rewrite !py_sum_from. now rewrite (py_sum_perm _ _ P). Qed.

Lemma payoff_of_eq fuel extra debt s :
  payoff fuel debt extra = Some s -> payoff_of fuel extra debt = s.
Proof. unfold payoff_of. now intros ->. Qed.

Lemma simulate_debts_eq fuel extra l tm ti dr :
  (360 < fuel)%nat ->
  simulate_debts fuel extra l tm ti dr
  = Some (fold_left Z.max (map (fun d => months (payoff_of fuel extra d)) l) tm,
          fold_left Qplus (map (fun d => interest_paid (payoff_of fuel extra d)) l) ti,
          dr ++ map (result_of fuel extra) l).
Proof.
  intro Hf. revert tm ti dr. induction l as [|d l IH]; intros tm ti dr; simpl.
  - now rewrite app_nil_r.
  - destruct (payoff_returns fuel d extra Hf) as [s [Hs _]].
    rewrite Hs, IH. unfold result_of. rewrite (payoff_of_eq _ _ _ _ Hs).
    now rewrite <- app_assoc.
Qed.

Lemma simulate_strategy_eq fuel l extra strategy :
  (360 < fuel)%nat ->
  _simulate_strategy fuel l extra strategy
  = Some (mkStrategy
            (fold_left Z.max
               (map (fun d => months (payoff_of fuel extra d)) (sort_for strategy l)) 0%Z)
            (round2 (fold_left Qplus
               (map (fun d => interest_paid (payoff_of fuel extra d)) (sort_for strategy l)) 0))
            (map (result_of fuel extra) (sort_for strategy l))).
Proof.
  intro Hf. unfold _simulate_strategy. now rewrite simulate_debts_eq.
Qed.

Lemma strategies_agree fuel l extra s1 s2 a b :
  (360 < fuel)%nat ->
  _simulate_strategy fuel l extra s1 = Some a ->
  _simulate_strategy fuel l extra s2 = Some b ->
  total_interest a = total_interest b /\ total_months a = total_months b
  /\ Permutation (debts a) (debts b).
Proof.
  intros Hf Ha Hb. rewrite simulate_strategy_eq in Ha, Hb by exact Hf.
  injection Ha as <-. injection Hb as <-. simpl.
  assert (P : Permutation (sort_for s1 l) (sort_for s2 l)).
  { rewrite !sort_for_perm. reflexivity. }
  split; [|split].
  - apply round2_proper. apply fold_plus_perm. now apply Permutation_map.
  - apply fold_max_perm. now apply Permutation_map.
  - now apply Permutation_map.
Qed.

Lemma aggregate_perm a b :
  Permutation (debts a) (debts b) -> aggregate_interest a == aggregate_interest b.
Proof. intro P. unfold aggregate_interest. apply py_sum_perm. now apply Permutation_map. Qed.

Lemma round2_zero_of q : q == 0 -> round2 q = 0.
Proof. intro H. now rewrite (round2_proper _ _ H). Qed.

Lemma Qabs_sub_eq x y : x == y -> Qabs (x - y) == 0.
Proof.
  intro H. setoid_replace (x - y) with 0 by (rewrite H; ring). reflexivity.
Qed.

(** *** The two strategies give the same totals *)

(** C4. For every debt list and extra budget both simulations return,
    with equal aggregate [total_interest] and equal [total_months]: each
    debt's row depends on that debt and on the extra budget only (its
    payment is its own [monthlyPayment] plus the full extra budget), so
    the two results list the same rows in different orders; the
    reported [interest_savings] is therefore 0. *)
Theorem strategies_differ_only_in_order fuel debts extra_budget :
  (360 < fuel)%nat ->
  exists a s,
    _simulate_strategy fuel debts extra_budget "avalanche" = Some a
    /\ _simulate_strategy fuel debts extra_budget "snowball" = Some s
    /\ total_interest a = total_interest s
    /\ total_months a = total_months s
    /\ DebtOptimizer.debts a
       = map (result_of fuel extra_budget) (sorted_by by_rate_desc debts)
    /\ DebtOptimizer.debts s
       = map (result_of fuel extra_budget) (sorted_by by_balance_asc debts)
    /\ Permutation (DebtOptimizer.debts a) (DebtOptimizer.debts s)
    /\ (debts <> [] ->
        exists recommended,
          optimize_debt_strategy fuel debts extra_budget
          = Some (optimized recommended a s 0)).
Proof.
  intro Hf.
  pose proof (simulate_strategy_eq fuel debts extra_budget "avalanche" Hf) as Ha.
  pose proof (simulate_strategy_eq fuel debts extra_budget "snowball" Hf) as Hs.
  destruct (strategies_agree _ _ _ _ _ _ _ Hf Ha Hs) as [E1 [E2 P]].
  eexists. eexists. split; [exact Ha|]. split; [exact Hs|].
  split; [exact E1|]. split; [exact E2|].
  split; [reflexivity|]. split; [reflexivity|]. split; [exact P|].
  intro N. unfold optimize_debt_strategy. destruct debts as [|d l]; [congruence|].
  rewrite Ha, Hs. eexists. f_equal. f_equal.
  apply round2_zero_of, Qabs_sub_eq, aggregate_perm, P.
Qed.


Lemma strategies_differ_only_in_order_witness :
  exists a s,
    _simulate_strategy 361 Examples.two_debts 0 "avalanche" = Some a
    /\ _simulate_strategy 361 Examples.two_debts 0 "snowball" = Some s
    /\ total_interest a = total_interest s
    /\ total_months a = total_months s
    /\ DebtOptimizer.debts a
       = map (result_of 361 0) (sorted_by by_rate_desc Examples.two_debts)
    /\ DebtOptimizer.debts s
       = map (result_of 361 0) (sorted_by by_balance_asc Examples.two_debts)
    /\ Permutation (DebtOptimizer.debts a) (DebtOptimizer.debts s)
    /\ (Examples.two_debts <> [] ->
        exists recommended,
          optimize_debt_strategy 361 Examples.two_debts 0
          = Some (optimized recommended a s 0)).
Proof.
  apply (strategies_differ_only_in_order 361 Examples.two_debts 0). lia.
Defined.

(** The run on [two_debts]: the two strategies list the rows in opposite
    orders, with the same totals. *)
Example strategies_run :
  optimize_debt_strategy 361 Examples.two_debts 0
  = Some (optimized "snowball"
            (mkStrategy 3 (773 # 100)
               [mkDebtResult "d1" "card" 3 (31 # 5); mkDebtResult "d2" "loan" 3 (153 # 100)])
            (mkStrategy 3 (773 # 100)
               [mkDebtResult "d2" "loan" 3 (153 # 100); mkDebtResult "d1" "card" 3 (31 # 5)])
            0).
Proof. vm_compute. reflexivity. Qed.

(** *** The recommendation *)

Lemma is_cents_round2 q : is_cents (round2 q).
Proof. apply round2_is_cents. Qed.

Lemma is_cents_plus a b : is_cents a -> is_cents b -> is_cents (a + b).
Proof.
  intros [x Hx] [y Hy]. exists (x + y)%Z. rewrite Hx, Hy.
  unfold Qeq, Qplus. simpl. lia.
Qed.

Lemma is_cents_minus a b : is_cents a -> is_cents b -> is_cents (a - b).
Proof.
  intros [x Hx] [y Hy]. exists (x - y)%Z. rewrite Hx, Hy.
  unfold Qeq, Qminus, Qplus, Qopp. simpl. lia.
Qed.

Lemma is_cents_abs a : is_cents a -> is_cents (Qabs a).
Proof.
  intros [x Hx]. exists (Z.abs x). rewrite Hx. symmetry. apply Zabs_Qabs.
Qed.

Lemma is_cents_sum l : Forall is_cents l -> is_cents (py_sum l).
Proof.
  induction 1 as [|x l Hx _ IH].
  - exists 0%Z. reflexivity.
  - destruct (is_cents_plus _ _ Hx IH) as [z Hz]. exists z.
    now rewrite py_sum_cons.
Qed.

Lemma round2_of_cents q : is_cents q -> round2 q == q.
Proof.
  intros [z Hz]. rewrite (round2_proper _ _ Hz), Hz. apply round2_cents.
Qed.

Lemma aggregate_is_cents fuel l extra strategy r :
  (360 < fuel)%nat -> _simulate_strategy fuel l extra strategy = Some r ->
  is_cents (aggregate_interest r).
Proof.
  intros Hf H. rewrite simulate_strategy_eq in H by exact Hf. injection H as <-.
  unfold aggregate_interest. simpl. apply is_cents_sum.
  rewrite map_map. apply Forall_map, Forall_forall. intros d _. apply is_cents_round2.
Qed.

(** C3, as the code has it.  For a non-empty debt list the optimizer
    recommends avalanche exactly when avalanche's aggregate interest is
    strictly lower than snowball's, and snowball otherwise, ties
    included; [interest_savings] is the absolute difference of the two
    aggregate interests. *)
Theorem recommendation_rule fuel debts extra_budget :
  debts <> [] -> (360 < fuel)%nat ->
  exists recommended a s savings,
    optimize_debt_strategy fuel debts extra_budget
    = Some (optimized recommended a s savings)
    /\ _simulate_strategy fuel debts extra_budget "avalanche" = Some a
    /\ _simulate_strategy fuel debts extra_budget "snowball" = Some s
    /\ (aggregate_interest a < aggregate_interest s -> recommended = "avalanche"%string)
    /\ (aggregate_interest s <= aggregate_interest a -> recommended = "snowball"%string)
    /\ (aggregate_interest a == aggregate_interest s -> recommended = "snowball"%string)
    /\ savings == Qabs (aggregate_interest a - aggregate_interest s).
Proof.
  intros N Hf.
  pose proof (simulate_strategy_eq fuel debts extra_budget "avalanche" Hf) as Ha.
  pose proof (simulate_strategy_eq fuel debts extra_budget "snowball" Hf) as Hs.
  match type of Ha with _ = Some ?r => set (a := r) in * end.
  match type of Hs with _ = Some ?r => set (s := r) in * end.
  pose proof (aggregate_is_cents _ _ _ _ _ Hf Ha) as Ca.
  pose proof (aggregate_is_cents _ _ _ _ _ Hf Hs) as Cs.
  unfold optimize_debt_strategy. destruct debts as [|d l]; [congruence|].
  rewrite Ha, Hs. do 4 eexists. split; [reflexivity|].
  split; [reflexivity|]. split; [reflexivity|].
  generalize dependent (aggregate_interest a).
  generalize dependent (aggregate_interest s).
  intros y Cs x Ca.
  split; [|split; [|split]].
  - intro L. apply Qltb_lt in L. now rewrite L.
  - intro L. apply Qltb_ge in L. now rewrite L.
  - intro E. assert (L : y <= x) by (rewrite E; apply Qle_refl).
    apply Qltb_ge in L. now rewrite L.
  - apply round2_of_cents, is_cents_abs, is_cents_minus; assumption.
Qed.

Lemma recommendation_rule_witness :
  exists recommended a s savings,
    optimize_debt_strategy 361 Examples.two_debts 0
    = Some (optimized recommended a s savings)
    /\ _simulate_strategy 361 Examples.two_debts 0 "avalanche" = Some a
    /\ _simulate_strategy 361 Examples.two_debts 0 "snowball" = Some s
    /\ (aggregate_interest a < aggregate_interest s -> recommended = "avalanche"%string)
    /\ (aggregate_interest s <= aggregate_interest a -> recommended = "snowball"%string)
    /\ (aggregate_interest a == aggregate_interest s -> recommended = "snowball"%string)
    /\ savings == Qabs (aggregate_interest a - aggregate_interest s).
Proof.
  apply (recommendation_rule 361 Examples.two_debts 0).
  - discriminate.
  - lia.
Defined.

(** C3 as stated fails on ties: on [two_debts] the two aggregate
    interests are equal and the recommendation is snowball, not
    avalanche. *)
Lemma tie_counterexample :
  exists recommended a s savings,
    optimize_debt_strategy 361 Examples.two_debts 0
    = Some (optimized recommended a s savings)
    /\ aggregate_interest a == aggregate_interest s
    /\ recommended = "snowball"%string
    /\ recommended <> "avalanche"%string.
Proof.
  do 4 eexists. split; [vm_compute; reflexivity|].
  split; [reflexivity|]. split; [reflexivity|discriminate].
Qed.


(** *** The caps *)

Lemma length_py_range2 a b : List.length (py_range2 a b) = Z.to_nat (b - a).
Proof. unfold py_range2. now rewrite length_map, length_py_range. Qed.

Lemma repayment_loop_length r p sd ms b :
  (List.length (fst (repayment_loop r p sd ms b)) <= List.length ms)%nat.
Proof.
  revert b. induction ms as [|m ms IH]; intro b; simpl; [lia|].
  destruct (Qle_bool b 0); simpl; [lia|].
  match goal with |- context [repayment_loop r p sd ms ?b'] =>
    specialize (IH b'); destruct (repayment_loop r p sd ms b') as [sch fin] end.
  destruct (Qle_bool _ 0); simpl in *; lia.
Qed.

(** The floored principal of a payment that does not cover the interest. *)
Lemma floored_uncovered r p b :
  0 < b -> p <= b * r ->
  (if Qltb (py_min (p - b * r) b) 0 then 0 else py_min (p - b * r) b) == 0.
Proof.
  intros Hb Hp. destruct (Qltb (py_min (p - b * r) b) 0) eqn:E; [reflexivity|].
  apply Qltb_ge in E. pose proof (py_min_le_l (p - b * r) b). lra.
Qed.

Lemma repayment_loop_uncovered r p sd ms b :
  0 < b -> p <= b * r ->
  List.length (fst (repayment_loop r p sd ms b)) = List.length ms
  /\ snd (repayment_loop r p sd ms b) == b.
Proof.
  revert b. induction ms as [|m ms IH]; intros b Hb Hp; simpl.
  - split; reflexivity.
  - assert (Qle_bool b 0 = false) as ->.
    { destruct (Qle_bool b 0) eqn:E; [|reflexivity]. apply Qle_bool_iff in E. lra. }
    pose proof (floored_uncovered r p b Hb Hp) as F.
    set (pp := if Qltb (py_min (p - b * r) b) 0 then 0 else py_min (p - b * r) b) in *.
    assert (Hb' : 0 < b - pp) by (rewrite F; lra).
    assert (Hp' : p <= (b - pp) * r) by (rewrite F; lra).
    destruct (IH (b - pp) Hb' Hp') as [L S].
    destruct (repayment_loop r p sd ms (b - pp)) as [sch fin].
    assert (Qle_bool (b - pp) 0 = false) as ->.
    { destruct (Qle_bool (b - pp) 0) eqn:E; [|reflexivity]. apply Qle_bool_iff in E. lra. }
    simpl in *. split; [lia|]. rewrite S, F. lra.
Qed.

Lemma simulate_rows_capped fuel extra l :
  (360 < fuel)%nat ->
  Forall (fun row => (0 <= months_to_payoff row <= 360)%Z) (map (result_of fuel extra) l).
Proof.
  intro Hf. apply Forall_map, Forall_forall. intros d _. unfold result_of. simpl.
  destruct (payoff_returns fuel d extra Hf) as [s [Hs [Hm _]]].
  now rewrite (payoff_of_eq _ _ _ _ Hs).
Qed.

Lemma fold_max_bound l a c :
  (a <= c)%Z -> Forall (fun x => (x <= c)%Z) l -> (a <= fold_left Z.max l a <= c)%Z.
Proof.
  intros Ha H. revert a Ha. induction H as [|x l Hx _ IH]; intros a Ha; simpl; [lia|].
  specialize (IH (Z.max a x) ltac:(lia)). lia.
Qed.

(** C10. Every per-debt amortization stops within 360 monthly steps and
    returns.  Given fuel for more than 360 tests of the loop condition,
    the strategy simulation returns, the same result whatever the fuel,
    with every [months_to_payoff] and [total_months] between 0 and 360;
    a repayment schedule has at most [max_months] rows, 360 by default.
    When the payment does not cover the interest the balance does not
    decrease and the simulations run to the cap and return the
    truncated result: 360 months for the debt in the strategy
    simulation, a schedule of exactly [max_months] rows with the balance
    unchanged for the schedule. *)
Theorem amortization_is_capped fuel debts extra_budget strategy
    principal annual_interest_rate start_date monthly_payment max_months :
  (360 < fuel)%nat ->
  (exists r,
      _simulate_strategy fuel debts extra_budget strategy = Some r
      /\ (forall fuel', (360 < fuel')%nat ->
                        _simulate_strategy fuel' debts extra_budget strategy = Some r)
      /\ Forall (fun row => (0 <= months_to_payoff row <= 360)%Z) (DebtOptimizer.debts r)
      /\ (0 <= total_months r <= 360)%Z)
  /\ (forall debt,
        0 < remainingAmount debt -> 0 <= interestRate debt ->
        monthlyPayment debt + extra_budget
        <= remainingAmount debt * (interestRate debt / 100 / 12) ->
        exists s, payoff fuel debt extra_budget = Some s
                  /\ months s = 360%Z /\ remainingAmount debt <= remaining s)
  /\ (List.length (calculate_repayment_schedule principal annual_interest_rate start_date
                     monthly_payment max_months) <= Z.to_nat max_months)%nat
  /\ (List.length (calculate_repayment_schedule principal annual_interest_rate start_date
                     monthly_payment default_max_months) <= 360)%nat
  /\ (0 < principal ->
      monthly_payment <= principal * (annual_interest_rate / 100 / 12) ->
      List.length (calculate_repayment_schedule principal annual_interest_rate start_date
                     monthly_payment max_months) = Z.to_nat max_months
      /\ snd (repayment_run principal annual_interest_rate start_date monthly_payment
                max_months) == principal).
Proof.
  intro Hf. split; [|split; [|split; [|split]]].
  - eexists. split; [apply (simulate_strategy_eq _ _ _ _ Hf)|]. split; [|split].
    + intros fuel' Hf'. rewrite (simulate_strategy_eq _ _ _ _ Hf'). f_equal.
      assert (E : forall d, payoff_of fuel' extra_budget d = payoff_of fuel extra_budget d).
      { intro d. unfold payoff_of. now rewrite (payoff_fuel_irrelevant fuel' fuel). }
      f_equal.
      * f_equal. apply map_ext. intro d. now rewrite E.
      * f_equal. f_equal. apply map_ext. intro d. now rewrite E.
      * apply map_ext. intro d. unfold result_of. now rewrite E.
    + simpl. now apply simulate_rows_capped.
    + simpl. apply fold_max_bound; [lia|].
      apply Forall_map, Forall_forall. intros d _.
      destruct (payoff_returns fuel d extra_budget Hf) as [s [Hs [Hm _]]].
      rewrite (payoff_of_eq _ _ _ _ Hs). lia.
  - intros debt Hpos Hrate Hpay.
    destruct (payoff_returns fuel debt extra_budget Hf) as [s [Hs _]].
    exists s. split; [exact Hs|].
    unfold payoff in Hs.
    assert (R : 0 <= interestRate debt / 100 / 12).
    { apply Qle_shift_div_l; [reflexivity|]. apply Qle_shift_div_l; [reflexivity|]. lra. }
    assert (M : (0 <= 0 <= 360)%Z) by lia.
    exact (payoff_loop_uncovered _ _ fuel (mkPayoff (remainingAmount debt) 0 0) s
             R Hpos Hpay M Hs).
  - unfold calculate_repayment_schedule, repayment_run.
    eapply Nat.le_trans; [apply repayment_loop_length|].
    rewrite length_py_range2. lia.
  - unfold calculate_repayment_schedule, repayment_run.
    eapply Nat.le_trans; [apply repayment_loop_length|].
    rewrite length_py_range2. unfold default_max_months. lia.
  - intros Hpos Hpay. unfold calculate_repayment_schedule, repayment_run.
    destruct (repayment_loop_uncovered (annual_interest_rate / 100 / 12) monthly_payment
                start_date (py_range2 1 (max_months + 1)) principal Hpos Hpay) as [L S].
    split; [|exact S]. rewrite L, length_py_range2. f_equal. lia.
Qed.


Lemma amortization_is_capped_witness :
  (exists r,
      _simulate_strategy 361 [Examples.underwater] 0 "avalanche" = Some r
      /\ (forall fuel', (360 < fuel')%nat ->
                        _simulate_strategy fuel' [Examples.underwater] 0 "avalanche" = Some r)
      /\ Forall (fun row => (0 <= months_to_payoff row <= 360)%Z) (DebtOptimizer.debts r)
      /\ (0 <= total_months r <= 360)%Z)
  /\ (forall debt,
        0 < remainingAmount debt -> 0 <= interestRate debt ->
        monthlyPayment debt + 0
        <= remainingAmount debt * (interestRate debt / 100 / 12) ->
        exists s, payoff 361 debt 0 = Some s
                  /\ months s = 360%Z /\ remainingAmount debt <= remaining s)
  /\ (List.length (calculate_repayment_schedule 1000 24 0%Z 10 360) <= Z.to_nat 360)%nat
  /\ (List.length (calculate_repayment_schedule 1000 24 0%Z 10 default_max_months)
      <= 360)%nat
  /\ (0 < 1000 ->
      10 <= 1000 * (24 / 100 / 12) ->
      List.length (calculate_repayment_schedule 1000 24 0%Z 10 360) = Z.to_nat 360
      /\ snd (repayment_run 1000 24 0%Z 10 360) == 1000).
Proof.
  apply (amortization_is_capped 361 [Examples.underwater] 0 "avalanche" 1000 24 0%Z 10 360).
  lia.
Defined.

(** *** The monthly step and the final balance *)

#[export] Instance py_max_proper : Proper (Qeq ==> Qeq ==> Qeq) py_max.
Proof.
  intros a a' Ha b b' Hb. unfold py_max. rewrite Ha, Hb.
  destruct (Qltb a' b'); assumption.
Qed.

#[export] Instance interest_on_proper : Proper (Qeq ==> Qeq ==> Qeq) interest_on.
Proof. intros a a' Ha b b' Hb. unfold interest_on. now rewrite Ha, Hb. Qed.

#[export] Instance principal_paid_proper :
  Proper (Qeq ==> Qeq ==> Qeq ==> Qeq) principal_paid.
Proof.
  intros a a' Ha p p' Hp b b' Hb. unfold principal_paid.
  rewrite (Qltb_proper _ _ Hp _ _ (interest_on_proper _ _ Ha _ _ Hb)).
  destruct (Qltb _ _); [reflexivity|]. now rewrite Ha, Hp, Hb.
Qed.

Lemma balance_before_shift a p b k :
  balance_before a p b (S k) = balance_before a p (b - principal_paid a p b) k.
Proof.
  induction k as [|k IH]; [reflexivity|].
  change (balance_before a p b (S (S k)))
    with (balance_before a p b (S k) - principal_paid a p (balance_before a p b (S k))).
  now rewrite IH.
Qed.

Lemma balance_before_proper a p b b' k :
  b == b' -> balance_before a p b k == balance_before a p b' k.
Proof.
  intro H. induction k as [|k IH]; simpl; [exact H|]. now rewrite IH.
Qed.

Lemma principal_paid_bounds a p b : 0 < b -> 0 <= principal_paid a p b <= b.
Proof.
  intro Hb. unfold principal_paid.
  destruct (Qltb p (interest_on a b)) eqn:E.
  - split; [apply Qle_refl|lra].
  - apply Qltb_ge in E. split; [|apply py_min_le_r].
    destruct (py_min_cases (p - interest_on a b) b) as [[_ ->]|[_ ->]]; lra.
Qed.

(** The principal the code pays is the one of the specification. *)
Lemma floored_principal a p b :
  0 < b ->
  (if Qltb (py_min (p - b * (a / 100 / 12)) b) 0 then 0
   else py_min (p - b * (a / 100 / 12)) b)
  == principal_paid a p b.
Proof.
  intro Hb. unfold principal_paid, interest_on.
  set (i := b * (a / 100 / 12)).
  destruct (Qltb p i) eqn:E.
  - apply Qltb_lt in E.
    destruct (Qltb (py_min (p - i) b) 0) eqn:F; [reflexivity|].
    apply Qltb_ge in F. pose proof (py_min_le_l (p - i) b). lra.
  - apply Qltb_ge in E.
    destruct (Qltb (py_min (p - i) b) 0) eqn:F; [|reflexivity].
    apply Qltb_lt in F.
    destruct (py_min_cases (p - i) b) as [[_ M]|[_ M]]; rewrite M in F; lra.
Qed.

Lemma balance_before_nonneg a p b k : 0 <= b -> 0 <= balance_before a p b k.
Proof.
  intro Hb. induction k as [|k IH]; simpl; [exact Hb|].
  destruct (Qlt_le_dec 0 (balance_before a p b k)) as [L|L].
  - pose proof (principal_paid_bounds a p _ L). lra.
  - assert (Z0 : balance_before a p b k == 0) by lra.
    rewrite Z0. unfold principal_paid, interest_on.
    destruct (Qltb p _); [lra|].
    destruct (py_min_cases (p - 0 * (a / 100 / 12)) 0) as [[_ ->]|[H ->]]; lra.
Qed.

Lemma nth_error_py_range2 a b k m :
  nth_error (py_range2 a b) k = Some m -> m = (a + Z.of_nat k)%Z.
Proof.
  unfold py_range2. rewrite nth_error_map.
  destruct (nth_error (py_range (b - a)) k) as [j|] eqn:E; [|discriminate].
  apply nth_error_py_range in E. subst j. simpl. now intros [= <-].
Qed.

Lemma repayment_loop_rows a p sd ms b b' k row :
  b == b' ->
  nth_error (fst (repayment_loop (a / 100 / 12) p sd ms b)) k = Some row ->
  exists m, nth_error ms k = Some m /\ sched_month row = m
    /\ 0 < balance_before a p b' k
    /\ sched_payment row = round2 p
    /\ sched_interest row = round2 (interest_on a (balance_before a p b' k))
    /\ sched_principal row = round2 (principal_paid a p (balance_before a p b' k))
    /\ sched_remaining_balance row
       = round2 (py_max 0 (balance_before a p b' k
                           - principal_paid a p (balance_before a p b' k))).
Proof.
  revert b b' k. induction ms as [|m ms IH]; intros b b' k Hb H; simpl in H.
  - destruct k; discriminate.
  - destruct (Qle_bool b 0) eqn:E; [destruct k; discriminate|].
    assert (Pb : 0 < b).
    { apply Qnot_le_lt. intro L. apply Qle_bool_iff in L. congruence. }
    pose proof (floored_principal a p b Pb) as F.
    set (pp := if Qltb (py_min (p - b * (a / 100 / 12)) b) 0 then 0
               else py_min (p - b * (a / 100 / 12)) b) in *.
    assert (N : b - pp == b' - principal_paid a p b') by now rewrite F, Hb.
    assert (First : forall r0,
      r0 = mkRow m (sd, m) (round2 p) (round2 pp) (round2 (b * (a / 100 / 12)))
                 (round2 (py_max 0 (b - pp))) ->
      exists m0, nth_error (m :: ms) 0 = Some m0 /\ sched_month r0 = m0
        /\ 0 < balance_before a p b' 0
        /\ sched_payment r0 = round2 p
        /\ sched_interest r0 = round2 (interest_on a (balance_before a p b' 0))
        /\ sched_principal r0 = round2 (principal_paid a p (balance_before a p b' 0))
        /\ sched_remaining_balance r0
           = round2 (py_max 0 (balance_before a p b' 0
                               - principal_paid a p (balance_before a p b' 0)))).
    { intros r0 ->. exists m. simpl.
      split; [reflexivity|]. split; [reflexivity|]. split; [now rewrite <- Hb|].
      split; [reflexivity|]. split; [|split].
      - apply round2_proper. unfold interest_on. now rewrite Hb.
      - apply round2_proper. now rewrite F, Hb.
      - apply round2_proper. now rewrite N. }
    destruct (Qle_bool (b - pp) 0) eqn:E2.
    + simpl in H. destruct k as [|k]; [|destruct k; discriminate].
      simpl in H. injection H as <-. now apply First.
    + destruct (repayment_loop (a / 100 / 12) p sd ms (b - pp)) as [sch fin] eqn:R.
      simpl in H. destruct k as [|k].
      * simpl in H. injection H as <-. now apply First.
      * simpl in H.
        assert (H' : nth_error (fst (repayment_loop (a / 100 / 12) p sd ms (b - pp))) k
                     = Some row) by now rewrite R.
        destruct (IH _ _ _ N H') as [m0 Hm0]. exists m0.
        rewrite balance_before_shift. exact Hm0.
Qed.

Lemma repayment_loop_final a p sd ms b b' :
  b == b' ->
  snd (repayment_loop (a / 100 / 12) p sd ms b)
  == balance_before a p b' (List.length (fst (repayment_loop (a / 100 / 12) p sd ms b))).
Proof.
  revert b b'. induction ms as [|m ms IH]; intros b b' Hb; simpl; [exact Hb|].
  destruct (Qle_bool b 0) eqn:E; [exact Hb|].
  assert (Pb : 0 < b).
  { apply Qnot_le_lt. intro L. apply Qle_bool_iff in L. congruence. }
  pose proof (floored_principal a p b Pb) as F.
  set (pp := if Qltb (py_min (p - b * (a / 100 / 12)) b) 0 then 0
             else py_min (p - b * (a / 100 / 12)) b) in *.
  assert (N : b - pp == b' - principal_paid a p b') by now rewrite F, Hb.
  destruct (Qle_bool (b - pp) 0) eqn:E2; [exact N|].
  specialize (IH _ _ N).
  destruct (repayment_loop (a / 100 / 12) p sd ms (b - pp)) as [sch fin].
  simpl in *. rewrite IH. symmetry.
  change (balance_before a p b' (S (List.length sch))
          == balance_before a p (b' - principal_paid a p b') (List.length sch)).
  now rewrite balance_before_shift.
Qed.


(** C5. In [calculate_repayment_schedule], the row of every month is
    computed from the balance [b] outstanding before it:
    interest = b * (annual_rate / 100 / 12), principal paid =
    min(payment - interest, b), and 0 when the payment does not cover
    the interest, and the balance decreases by the principal paid.  The
    balance never becomes negative, and when the debt is fully amortized
    (the loop ends with the balance at or below zero) the final balance
    is exactly 0, as is the remaining balance of the last row. *)
Theorem amortization_step_and_final_balance
    principal annual_interest_rate start_date monthly_payment max_months :
  0 <= principal ->
  let run :=
    repayment_run principal annual_interest_rate start_date monthly_payment max_months in
  let before := balance_before annual_interest_rate monthly_payment principal in
  let paid := principal_paid annual_interest_rate monthly_payment in
  (forall k row,
      nth_error (fst run) k = Some row ->
      0 < before k
      /\ sched_month row = (1 + Z.of_nat k)%Z
      /\ sched_interest row = round2 (interest_on annual_interest_rate (before k))
      /\ sched_principal row = round2 (paid (before k))
      /\ 0 <= paid (before k) <= before k
      /\ before (S k) = before k - paid (before k)
      /\ sched_remaining_balance row = round2 (py_max 0 (before (S k))))
  /\ snd run == before (List.length (fst run))
  /\ 0 <= snd run
  /\ (snd run <= 0 ->
      snd run == 0
      /\ forall row, nth_error (fst run) (List.length (fst run) - 1) = Some row ->
                     sched_remaining_balance row = 0).
Proof.
  intros Hp run before paid.
  assert (Rows : forall k row,
      nth_error (fst run) k = Some row ->
      0 < before k
      /\ sched_month row = (1 + Z.of_nat k)%Z
      /\ sched_interest row = round2 (interest_on annual_interest_rate (before k))
      /\ sched_principal row = round2 (paid (before k))
      /\ 0 <= paid (before k) <= before k
      /\ before (S k) = before k - paid (before k)
      /\ sched_remaining_balance row = round2 (py_max 0 (before (S k)))).
  { intros k row H. unfold run, repayment_run in H.
    destruct (repayment_loop_rows _ _ _ _ _ principal _ _ (Qeq_refl principal) H)
      as [m [Hm [Hmonth [Hpos [_ [Hi [Hpr Hrem]]]]]]].
    apply nth_error_py_range2 in Hm. subst m.
    split; [exact Hpos|]. split; [exact Hmonth|]. split; [exact Hi|].
    split; [exact Hpr|]. split; [now apply principal_paid_bounds|].
    split; [reflexivity|exact Hrem]. }
  assert (Fin : snd run == before (List.length (fst run))).
  { unfold run, repayment_run. apply repayment_loop_final. reflexivity. }
  assert (Nonneg : 0 <= snd run).
  { rewrite Fin. now apply balance_before_nonneg. }
  split; [exact Rows|]. split; [exact Fin|]. split; [exact Nonneg|].
  intro L. assert (Z0 : snd run == 0) by lra. split; [exact Z0|].
  intros row H.
  assert (Len : (0 < List.length (fst run))%nat).
  { destruct (fst run); [destruct (0 - 1)%nat; discriminate|simpl; lia]. }
  destruct (Rows _ _ H) as [_ [_ [_ [_ [_ [_ Hrem]]]]]].
  replace (S (List.length (fst run) - 1)) with (List.length (fst run)) in Hrem by lia.
  rewrite Hrem. rewrite <- Fin, Z0. reflexivity.
Qed.

Lemma amortization_step_and_final_balance_witness :
  let run := repayment_run 300 12 0%Z 200 360 in
  let before := balance_before 12 200 300 in
  let paid := principal_paid 12 200 in
  (forall k row,
      nth_error (fst run) k = Some row ->
      0 < before k
      /\ sched_month row = (1 + Z.of_nat k)%Z
      /\ sched_interest row = round2 (interest_on 12 (before k))
      /\ sched_principal row = round2 (paid (before k))
      /\ 0 <= paid (before k) <= before k
      /\ before (S k) = before k - paid (before k)
      /\ sched_remaining_balance row = round2 (py_max 0 (before (S k))))
  /\ snd run == before (List.length (fst run))
  /\ 0 <= snd run
  /\ (snd run <= 0 ->
      snd run == 0
      /\ forall row, nth_error (fst run) (List.length (fst run) - 1) = Some row ->
                     sched_remaining_balance row = 0).
Proof.
  apply (amortization_step_and_final_balance 300 12 0%Z 200 360).
  discriminate.
Defined.

(** The example of the specification: 5000 at 18% with 200 a month gives
    75 of interest and 125 of principal in the first month, leaving
    4875; and a debt of 300 at 12% with 200 a month is paid off in two
    months, ending at exactly 0. *)
Example amortization_runs :
  calculate_repayment_schedule 5000 18 0%Z 200 1
  = [mkRow 1 (0%Z, 1%Z) 200 125 75 4875]
  /\ calculate_repayment_schedule 300 12 0%Z 200 360
     = [mkRow 1 (0%Z, 1%Z) 200 197 3 103;
        mkRow 2 (0%Z, 2%Z) 200 103 (103 # 100) 0]
  /\ snd (repayment_run 300 12 0%Z 200 360) == 0
  /\ calculate_repayment_schedule 1000 24 0%Z 10 3
     = [mkRow 1 (0%Z, 1%Z) 10 0 20 1000;
        mkRow 2 (0%Z, 2%Z) 10 0 20 1000;
        mkRow 3 (0%Z, 3%Z) 10 0 20 1000].
Proof. vm_compute. repeat split. Qed.

End Debts.

(** ** The goal projector *)

Section Goals.
Import GoalProjector.

Lemma determine_status_cases (current target needed available : Q) :
  let st := _determine_status current target needed available in
  (target <= current /\ st = "achieved"%string)
  \/ (current < target /\ available * (12 # 10) < needed /\ st = "behind"%string)
  \/ (current < target /\ needed <= available * (12 # 10) /\ available < needed
      /\ st = "at-risk"%string)
  \/ (current < target /\ needed <= available * (12 # 10) /\ needed <= available
      /\ st = "on-track"%string).
Proof.
  unfold _determine_status.
  destruct (Qle_bool target current) eqn:A.
  - left. split; [now apply Qle_bool_iff|reflexivity].
  - assert (A' : current < target).
    { apply Qnot_le_lt. intro L. apply Qle_bool_iff in L. congruence. }
    right. destruct (Qltb (available * (12 # 10)) needed) eqn:B.
    + left. apply Qltb_lt in B. auto.
    + apply Qltb_ge in B. right. destruct (Qltb available needed) eqn:C.
      * left. apply Qltb_lt in C. auto.
      * right. apply Qltb_ge in C. auto.
Qed.

Ltac status_iff :=
  split; intro X;
  repeat match goal with
         | H : _ /\ _ |- _ => destruct H
         end;
  try discriminate; try reflexivity; try (exfalso; lra);
  repeat split; assumption.

Lemma example_goal now target_date monthly_income monthly_expenses :
  ((year target_date - year now) * 12 + (month target_date - month now) = 6)%Z ->
  monthly_income - monthly_expenses == 1000 ->
  let p := calculate_goal_projection now 10000 2000 target_date
             monthly_income monthly_expenses in
  months_remaining p = 6%Z
  /\ monthly_contribution_needed p = 133333 # 100
  /\ status p = "behind"%string.
Proof.
  intros Hm Hav. unfold calculate_goal_projection. simpl. rewrite Hm. simpl.
  split; [reflexivity|]. split; [reflexivity|].
  unfold _determine_status. simpl.
  rewrite (Qltb_proper _ _ (Qmult_comp _ _ Hav _ _ (Qeq_refl (12 # 10)))
             _ _ (Qeq_refl _)).
  reflexivity.
Qed.

(** C9. The status is [achieved] exactly when current >= target;
    otherwise [behind] exactly when the required monthly contribution
    exceeds 1.2 times the available monthly surplus; otherwise [at-risk]
    exactly when required > available; otherwise [on-track]; the
    projection reports this status for required = remaining / months
    remaining and available = income - expenses.  For target 10000,
    current 2000, 6 months remaining and an available surplus of 1000,
    the required contribution is 1333.33 and the status is [behind]. *)
Theorem status_classification (current target needed available : Q) :
  (_determine_status current target needed available = "achieved"%string
   <-> target <= current)
  /\ (_determine_status current target needed available = "behind"%string
      <-> current < target /\ available * (12 # 10) < needed)
  /\ (_determine_status current target needed available = "at-risk"%string
      <-> current < target /\ needed <= available * (12 # 10) /\ available < needed)
  /\ (_determine_status current target needed available = "on-track"%string
      <-> current < target /\ needed <= available * (12 # 10) /\ needed <= available)
  /\ (forall now target_date monthly_income monthly_expenses,
        status (calculate_goal_projection now target current target_date
                  monthly_income monthly_expenses)
        = _determine_status current target
            (let m := Z.max 0 ((year target_date - year now) * 12
                               + (month target_date - month now)) in
             if (0 <? m)%Z then (target - current) / inject_Z m else target - current)
            (monthly_income - monthly_expenses))
  /\ (forall now target_date monthly_income monthly_expenses,
        ((year target_date - year now) * 12 + (month target_date - month now) = 6)%Z ->
        monthly_income - monthly_expenses == 1000 ->
        let p := calculate_goal_projection now 10000 2000 target_date
                   monthly_income monthly_expenses in
        months_remaining p = 6%Z
        /\ monthly_contribution_needed p = 133333 # 100
        /\ status p = "behind"%string).
Proof.
  pose proof (determine_status_cases current target needed available) as S.
  cbv zeta in S.
  split; [|split; [|split; [|split; [|split]]]].
  - destruct S as [[H E]|[[H [H1 E]]|[[H [H1 [H2 E]]]|[H [H1 [H2 E]]]]]];
      rewrite E; status_iff.
  - destruct S as [[H E]|[[H [H1 E]]|[[H [H1 [H2 E]]]|[H [H1 [H2 E]]]]]];
      rewrite E; status_iff.
  - destruct S as [[H E]|[[H [H1 E]]|[[H [H1 [H2 E]]]|[H [H1 [H2 E]]]]]];
      rewrite E; status_iff.
  - destruct S as [[H E]|[[H [H1 E]]|[[H [H1 [H2 E]]]|[H [H1 [H2 E]]]]]];
      rewrite E; status_iff.
  - intros. reflexivity.
  - intros now td mi me Hm Hav. now apply example_goal.
Qed.

End Goals.

(** * Further properties *)

(** ** The forecaster: minimum, warnings, summaries *)

Section ForecastMore.
Import CashFlowForecaster Notions MoreNotions.

(** Every field of a returned forecast. *)
Lemma forecast_fields env db uid sb fd cd f db' :
  forecast_balance env db uid sb fd cd = (Returns f, db') ->
  let start := start_of env cd in
  exists low ps,
    min_by_balance (daily_balances f) = Returns low
    /\ summaries sb fd start (daily_balances f) [30; 60; 90]%Z = Returns ps
    /\ starting_balance f = sb
    /\ forecast_days f = fd
    /\ forecast_start_date f = date_of start
    /\ forecast_end_date f = date_of (start + timedelta_days fd)%Z
    /\ min_balance f = balance low
    /\ min_balance_date f = date low
    /\ warnings f = warnings_for sb (runway_days f) low
    /\ summary_periods f = ps
    /\ historical_income f = history db uid start INCOME
    /\ historical_expenses f = history db uid start EXPENSE.
Proof.
  unfold forecast_balance. fold (start_of env cd). fold (active db uid).
  set (start := start_of env cd).
  fold (history db uid start INCOME). fold (history db uid start EXPENSE).
  set (dbs := project _ _ _ _ _ _).
  destruct (min_by_balance dbs) as [mb|e] eqn:M; [|discriminate].
  set (rw := match first_depleted 0 dbs with Some i => i | None => (fd + 1)%Z end).
  unfold warnings_for.
  destruct (rw <=? 30)%Z eqn:Hrw.
  - destruct (summaries sb fd start dbs [30; 60; 90]%Z) as [ps|e] eqn:S; [|discriminate].
    intro H. injection H as <- _. simpl. exists mb, ps. rewrite Hrw.
    repeat (split; [first [assumption|reflexivity]|]). reflexivity.
  - destruct (Qltb (balance mb) (sb * (2 # 10))) eqn:Q;
      (destruct (summaries sb fd start dbs [30; 60; 90]%Z) as [ps|e] eqn:S; [|discriminate]);
      intro H; injection H as <- _; simpl; exists mb, ps; rewrite Hrw, ?Q;
      repeat (split; [first [assumption|reflexivity]|]); reflexivity.
Qed.

Lemma min_from_first best l :
  exists pre post,
    best :: l = pre ++ min_from best l :: post
    /\ Forall (fun x => balance (min_from best l) < balance x) pre
    /\ Forall (fun x => balance (min_from best l) <= balance x) post.
Proof.
  revert best. induction l as [|x l IH]; intro best; simpl.
  - exists [], []. repeat split; constructor.
  - destruct (Qltb (balance x) (balance best)) eqn:E.
    + apply Qltb_lt in E. destruct (IH x) as [pre [post [H1 [H2 H3]]]].
      exists (best :: pre), post. split; [simpl; f_equal; exact H1|]. split; [|exact H3].
      constructor; [|exact H2].
      assert (M : balance (min_from x l) <= balance x).
      { destruct pre as [|p pre]; simpl in H1.
        - injection H1 as H1 _. rewrite <- H1. apply Qle_refl.
        - injection H1 as H1 _. subst p. inversion H2; subst. now apply Qlt_le_weak. }
      lra.
    + apply Qltb_ge in E. destruct (IH best) as [pre [post [H1 [H2 H3]]]].
      destruct pre as [|p pre]; simpl in H1.
      * injection H1 as H1 H1'. exists [], (x :: post). simpl.
        split; [congruence|]. split; [constructor|].
        rewrite <- H1 in *. constructor; assumption.
      * injection H1 as H1 H1'. subst p.
        exists (best :: x :: pre), post. simpl. split; [do 2 f_equal; exact H1'|].
        split; [|exact H3]. inversion H2; subst.
        constructor; [assumption|]. constructor; [lra|assumption].
Qed.

Lemma forecast_series_length env db uid sb fd cd f db' :
  (0 <= fd)%Z -> forecast_balance env db uid sb fd cd = (Returns f, db') ->
  List.length (daily_balances f) = Z.to_nat (fd + 1).
Proof.
  intros Hfd H. destruct (forecast_inv _ _ _ _ _ _ _ _ H) as [Hd _].
  rewrite Hd. now rewrite project_length, length_py_range.
Qed.

(** X1. A forecast over a horizon [forecast_days >= 0] reports as
    [min_balance] the lowest balance of the series, and as
    [min_balance_date] the date of the first day that has it. *)
Theorem minimum_is_first_lowest env db user_id starting_balance forecast_days current_date :
  (0 <= forecast_days)%Z ->
  exists f db' k low,
    forecast_balance env db user_id starting_balance forecast_days current_date
    = (Returns f, db')
    /\ nth_error (daily_balances f) k = Some low
    /\ min_balance f = balance low
    /\ min_balance_date f = date low
    /\ (forall j day, nth_error (daily_balances f) j = Some day ->
                      min_balance f <= balance day)
    /\ (forall j day, (j < k)%nat -> nth_error (daily_balances f) j = Some day ->
                      min_balance f < balance day).
Proof.
  intro Hfd.
  destruct (forecast_total env db user_id starting_balance forecast_days current_date Hfd)
    as [f [db' H]].
  destruct (forecast_fields _ _ _ _ _ _ _ _ H) as [low [ps [M [_ [_ [_ [_ [_ [B [D _]]]]]]]]]].
  destruct (daily_balances f) as [|best l] eqn:E; [discriminate|].
  simpl in M. injection M as M.
  destruct (min_from_first best l) as [pre [post [H1 [H2 H3]]]]. rewrite M in *.
  exists f, db', (List.length pre), low.
  split; [exact H|]. rewrite E, H1, B.
  split; [now rewrite nth_error_app2, Nat.sub_diag by lia|].
  split; [reflexivity|]. split; [exact D|]. split.
  - intros j day Hj. apply nth_error_In in Hj. apply in_app_or in Hj.
    destruct Hj as [Hj|[<-|Hj]].
    + apply Qlt_le_weak. exact (proj1 (Forall_forall _ _) H2 _ Hj).
    + apply Qle_refl.
    + exact (proj1 (Forall_forall _ _) H3 _ Hj).
  - intros j day Hj Hn. rewrite nth_error_app1 in Hn by exact Hj.
    apply nth_error_In in Hn. exact (proj1 (Forall_forall _ _) H2 _ Hn).
Qed.

Lemma minimum_is_first_lowest_witness :
  exists f db' k low,
    forecast_balance Examples.env0 Examples.expense_every_day "u" 1000 5 (Some 0%Z)
    = (Returns f, db')
    /\ nth_error (daily_balances f) k = Some low
    /\ min_balance f = balance low
    /\ min_balance_date f = date low
    /\ (forall j day, nth_error (daily_balances f) j = Some day ->
                      min_balance f <= balance day)
    /\ (forall j day, (j < k)%nat -> nth_error (daily_balances f) j = Some day ->
                      min_balance f < balance day).
Proof.
  apply (minimum_is_first_lowest Examples.env0 Examples.expense_every_day "u" 1000 5
           (Some 0%Z)).
  lia.
Defined.

Lemma runway_bound l fd :
  List.length l = Z.to_nat (fd + 1) -> (0 <= fd)%Z ->
  (0 <= match first_depleted 0 l with Some i => i | None => fd + 1 end <= fd + 1)%Z.
Proof.
  intros L Hfd. destruct (first_depleted 0 l) as [k|] eqn:E; [|lia].
  destruct (first_depleted_some _ _ _ E) as [Hk [day [Hn _]]].
  assert (N : (Z.to_nat (k - 0) < List.length l)%nat).
  { apply nth_error_Some. congruence. }
  lia.
Qed.

(** X2. The runway of a forecast lies between 0 and the sentinel
    [forecast_days + 1].  Hence a forecast over fewer than 30 days
    always carries the critical warning, whatever the balances are, and
    inserts the low-balance notification unless the user was notified
    since midnight. *)
Theorem short_horizon_is_always_critical
    env db user_id starting_balance forecast_days current_date :
  (0 <= forecast_days)%Z ->
  exists f db',
    forecast_balance env db user_id starting_balance forecast_days current_date
    = (Returns f, db')
    /\ (0 <= runway_days f <= forecast_days + 1)%Z
    /\ ((forecast_days < 30)%Z ->
        warnings f = [critical (runway_days f)]
        /\ (notified_today env db user_id = false ->
            notifications db'
            = notifications db
              ++ [low_balance_notification env user_id (runway_days f) (min_balance f)])).
Proof.
  intro Hfd.
  destruct (forecast_total env db user_id starting_balance forecast_days current_date Hfd)
    as [f [db' H]].
  exists f, db'. split; [exact H|].
  pose proof (forecast_series_length _ _ _ _ _ _ _ _ Hfd H) as L.
  destruct (forecast_inv _ _ _ _ _ _ _ _ H) as [_ [Hr Hdb]].
  pose proof (runway_bound _ _ L Hfd) as B. rewrite <- Hr in B.
  split; [exact B|]. intro Hshort.
  assert (R : (runway_days f <=? 30)%Z = true) by (apply Z.leb_le; lia).
  destruct (forecast_fields _ _ _ _ _ _ _ _ H) as [low [ps [_ [_ [_ [_ [_ [_ [_ [_ [W _]]]]]]]]]]].
  split.
  - rewrite W. unfold warnings_for. now rewrite R.
  - intro N. rewrite R, create_notification_cases, N in Hdb. now subst db'.
Qed.

Lemma short_horizon_is_always_critical_witness :
  exists f db',
    forecast_balance Examples.env0 Examples.mixed_db "u" 1000 2 (Some 0%Z) = (Returns f, db')
    /\ (0 <= runway_days f <= 2 + 1)%Z
    /\ ((2 < 30)%Z ->
        warnings f = [critical (runway_days f)]
        /\ (notified_today Examples.env0 Examples.mixed_db "u" = false ->
            notifications db'
            = notifications Examples.mixed_db
              ++ [low_balance_notification Examples.env0 "u" (runway_days f)
                                           (min_balance f)])).
Proof.
  apply (short_horizon_is_always_critical Examples.env0 Examples.mixed_db "u" 1000 2
           (Some 0%Z)).
  lia.
Defined.

Lemma round2_fixed q : round2 (round2 q) = round2 q.
Proof.
  rewrite (round2_proper _ _ (round2_correct q)).
  unfold round2. apply Qred_complete.
  now rewrite (round_half_even_proper _ _ (cents_scale _)), round_half_even_Z.
Qed.

Lemma project_rounded hi he rts cd offsets b day :
  In day (project hi he rts cd offsets b) ->
  round2 (balance day) = balance day
  /\ round2 (income day) = income day
  /\ round2 (expenses day) = expenses day.
Proof.
  revert b. induction offsets as [|d rest IH]; intros b H; simpl in H; [contradiction|].
  destruct (day_figures hi he rts (cd + timedelta_days d)%Z) as [i e].
  destruct H as [<-|H]; [|exact (IH _ H)].
  simpl. now rewrite !round2_fixed.
Qed.

Lemma summaries_spec sb fd cd dbs periods ps :
  summaries sb fd cd dbs periods = Returns ps ->
  map period ps = filter (fun p => (p <=? fd)%Z) periods
  /\ Forall (fun s =>
       exists day,
         nth_error dbs (Z.to_nat (period s)) = Some day
         /\ s = mkPeriod (period s) (date_of cd)
                  (date_of (cd + timedelta_days (period s))%Z) sb
                  (round2 (balance day))
                  (round2 (py_sum (map income
                     (firstn (Z.to_nat (period s + 1)) dbs))))
                  (round2 (py_sum (map expenses
                     (firstn (Z.to_nat (period s + 1)) dbs))))
                  (round2 (balance day - sb))) ps.
Proof.
  revert ps. induction periods as [|p rest IH]; intros ps H; simpl in H.
  - injection H as <-. split; [reflexivity|constructor].
  - simpl. destruct (p <=? fd)%Z.
    + unfold summary_for in H.
      destruct (nth_error dbs (Z.to_nat p)) as [day|] eqn:N; [|discriminate].
      destruct (summaries sb fd cd dbs rest) as [ps'|e]; [|discriminate].
      injection H as <-. destruct (IH _ eq_refl) as [I1 I2]. simpl.
      split; [now rewrite I1|]. constructor; [|exact I2].
      exists day. simpl. split; [exact N|reflexivity].
    + now apply IH.
Qed.

(** X3. A forecast over [forecast_days >= 0] carries one summary for
    each of the checkpoints 30, 60 and 90 that fits in the horizon, in
    that order and no other.  The summary of checkpoint [p] ends on the
    date of the series' point of index [p], its ending balance is that
    point's balance, its net change is that balance less the starting
    balance, and its totals are the rounded sums of the recorded income
    and expenses of the points 0 to [p]. *)
Theorem summaries_at_checkpoints env db user_id starting_balance forecast_days current_date :
  (0 <= forecast_days)%Z ->
  exists f db',
    forecast_balance env db user_id starting_balance forecast_days current_date
    = (Returns f, db')
    /\ map period (summary_periods f)
       = filter (fun p => (p <=? forecast_days)%Z) [30; 60; 90]%Z
    /\ forall s, In s (summary_periods f) ->
         exists day,
           nth_error (daily_balances f) (Z.to_nat (period s)) = Some day
           /\ period_start s = forecast_start_date f
           /\ period_end s = date day
           /\ sp_starting_balance s = starting_balance
           /\ ending_balance s = balance day
           /\ net_change s = round2 (balance day - starting_balance)
           /\ total_income s
              = round2 (py_sum (map income
                  (firstn (S (Z.to_nat (period s))) (daily_balances f))))
           /\ total_expenses s
              = round2 (py_sum (map expenses
                  (firstn (S (Z.to_nat (period s))) (daily_balances f)))).
Proof.
  intro Hfd.
  destruct (forecast_total env db user_id starting_balance forecast_days current_date Hfd)
    as [f [db' H]].
  exists f, db'. split; [exact H|].
  destruct (forecast_fields _ _ _ _ _ _ _ _ H)
    as [low [ps [_ [Hsum [_ [_ [Hs [_ [_ [_ [_ [Hps _]]]]]]]]]]]].
  destruct (forecast_inv _ _ _ _ _ _ _ _ H) as [Hd _].
  destruct (summaries_spec _ _ _ _ _ _ Hsum) as [P1 P2]. rewrite Hps.
  split; [exact P1|]. intros s Hin.
  assert (Hp : (0 <= period s)%Z).
  { assert (I : In (period s) (map period ps)) by now apply in_map.
    rewrite P1 in I. apply filter_In in I. destruct I as [I _].
    simpl in I. lia. }
  destruct (proj1 (Forall_forall _ _) P2 s Hin) as [day [N E]].
  exists day. split; [exact N|]. rewrite E. simpl.
  split; [now rewrite Hs|].
  pose proof N as N'. rewrite Hd in N'.
  destruct (project_rounded _ _ _ _ _ _ _ (nth_error_In _ _ N')) as [R _].
  apply project_nth in N'. destruct N' as [d [Hd0 [Hdate _]]].
  apply nth_error_py_range in Hd0. rewrite Z2Nat.id in Hd0 by exact Hp. subst d.
  split; [now rewrite Hdate|]. split; [reflexivity|]. split; [exact R|].
  split; [reflexivity|].
  replace (Z.to_nat (period s + 1)) with (S (Z.to_nat (period s))) by lia.
  split; reflexivity.
Qed.

Lemma summaries_at_checkpoints_witness :
  exists f db',
    forecast_balance Examples.env0 Examples.mixed_db "u" 1000 45 (Some 0%Z) = (Returns f, db')
    /\ map period (summary_periods f)
       = filter (fun p => (p <=? 45)%Z) [30; 60; 90]%Z
    /\ forall s, In s (summary_periods f) ->
         exists day,
           nth_error (daily_balances f) (Z.to_nat (period s)) = Some day
           /\ period_start s = forecast_start_date f
           /\ period_end s = date day
           /\ sp_starting_balance s = 1000
           /\ ending_balance s = balance day
           /\ net_change s = round2 (balance day - 1000)
           /\ total_income s
              = round2 (py_sum (map income
                  (firstn (S (Z.to_nat (period s))) (daily_balances f))))
           /\ total_expenses s
              = round2 (py_sum (map expenses
                  (firstn (S (Z.to_nat (period s))) (daily_balances f)))).
Proof.
  apply (summaries_at_checkpoints Examples.env0 Examples.mixed_db "u" 1000 45 (Some 0%Z)).
  lia.
Defined.

(** ** The forecaster: what a forecast depends on *)

Lemma forecast_result_ext env db1 db2 uid sb fd cd :
  history db1 uid (start_of env cd) INCOME = history db2 uid (start_of env cd) INCOME ->
  history db1 uid (start_of env cd) EXPENSE = history db2 uid (start_of env cd) EXPENSE ->
  active db1 uid = active db2 uid ->
  fst (forecast_balance env db1 uid sb fd cd) = fst (forecast_balance env db2 uid sb fd cd).
Proof.
  intros Hi He Ha. unfold forecast_balance.
  fold (start_of env cd). fold (active db1 uid). fold (active db2 uid).
  set (start := start_of env cd) in *.
  fold (history db1 uid start INCOME). fold (history db1 uid start EXPENSE).
  fold (history db2 uid start INCOME). fold (history db2 uid start EXPENSE).
  rewrite Hi, He, Ha.
  set (dbs := project _ _ _ _ _ _).
  destruct (min_by_balance dbs) as [mb|e]; [|reflexivity].
  set (rw := match first_depleted 0 dbs with Some i => i | None => (fd + 1)%Z end).
  destruct (rw <=? 30)%Z.
  - destruct (summaries sb fd start dbs [30; 60; 90]%Z); reflexivity.
  - destruct (Qltb (balance mb) (sb * (2 # 10)));
      destruct (summaries sb fd start dbs [30; 60; 90]%Z); reflexivity.
Qed.

Lemma filter_app_none {A} (p : A -> bool) l extra :
  forallb (fun x => negb (p x)) extra = true -> filter p (l ++ extra) = filter p l.
Proof.
  intro H. rewrite filter_app.
  replace (filter p extra) with (@nil A); [now rewrite app_nil_r|].
  symmetry. induction extra as [|x extra IH]; [reflexivity|].
  simpl in *. apply andb_prop in H. destruct H as [Hx H].
  apply negb_true_iff in Hx. rewrite Hx. now apply IH.
Qed.

Lemma forallb_weaken {A} (p q : A -> bool) l :
  (forall x, p x = true -> q x = true) -> forallb p l = true -> forallb q l = true.
Proof.
  intros W H. rewrite forallb_forall in *. intros x Hx. apply W, H, Hx.
Qed.

Lemma history_ignores_unread tx etx rts ns rts' ns' uid start ty :
  ty = INCOME \/ ty = EXPENSE ->
  forallb (fun t => negb (read_by_forecast uid start t)) etx = true ->
  history (mkSession (tx ++ etx) rts ns) uid start ty
  = history (mkSession tx rts' ns') uid start ty.
Proof.
  intros Hty H. unfold history, _get_historical_averages. simpl transactions.
  rewrite filter_app_none; [reflexivity|].
  revert H. apply forallb_weaken. intros t Ht. unfold read_by_forecast in Ht.
  apply negb_true_iff in Ht. apply negb_true_iff.
  destruct (String.eqb (tx_user_id t) uid); [|reflexivity].
  destruct (start - timedelta_days 90 <=? tx_date t)%Z; [|now rewrite !andb_false_r].
  destruct (tx_date t <? start)%Z; [|now rewrite !andb_false_r].
  destruct Hty as [-> | ->]; destruct (tx_type t); simpl in *; congruence.
Qed.

(** X4. The result of a forecast for a user depends only on that
    user's income and expense transactions of the 90 days before the
    start and on that user's active recurring transactions: adding
    transactions of other users, of other types (lending, borrowing) or
    dated outside the window, recurring transactions that are inactive
    or of other users, and any notifications, leaves the returned
    forecast unchanged. *)
Theorem forecast_ignores_unrelated_rows
    env db user_id starting_balance forecast_days current_date
    more_transactions more_recurring more_notifications :
  forallb (fun t => negb (read_by_forecast user_id (start_of env current_date) t))
          more_transactions = true ->
  forallb (fun r => negb (scheduled_for user_id r)) more_recurring = true ->
  fst (forecast_balance env
         (mkSession (transactions db ++ more_transactions)
                    (recurring_transactions db ++ more_recurring)
                    (notifications db ++ more_notifications))
         user_id starting_balance forecast_days current_date)
  = fst (forecast_balance env db user_id starting_balance forecast_days current_date).
Proof.
  intros Ht Hr. destruct db as [tx rts ns]. simpl.
  apply forecast_result_ext.
  - apply history_ignores_unread; [now left|exact Ht].
  - apply history_ignores_unread; [now right|exact Ht].
  - unfold active. simpl. now apply filter_app_none.
Qed.

Lemma forecast_ignores_unrelated_rows_witness :
  fst (forecast_balance Examples.env0
         (mkSession
            (transactions Examples.mixed_db
               ++ [mkTransaction "v" EXPENSE 70 (- timedelta_days 3)%Z;
                   mkTransaction "u" LENDING 40 (- timedelta_days 3)%Z;
                   mkTransaction "u" EXPENSE 55 (- timedelta_days 200)%Z])
            (recurring_transactions Examples.mixed_db
               ++ [mkRecurring "v" EXPENSE 30 DAILY 0%Z true])
            (notifications Examples.mixed_db ++ []))
         "u" 1000 2 (Some 0%Z))
  = fst (forecast_balance Examples.env0 Examples.mixed_db "u" 1000 2 (Some 0%Z)).
Proof.
  apply (forecast_ignores_unrelated_rows Examples.env0 Examples.mixed_db "u" 1000 2
           (Some 0%Z)); reflexivity.
Defined.

Lemma forecast_keeps_notified env db uid sb fd cd :
  notified_today env db uid = true -> snd (forecast_balance env db uid sb fd cd) = db.
Proof.
  intro N. destruct (forecast_balance env db uid sb fd cd) as [[f|e] db'] eqn:E; simpl.
  - destruct (forecast_inv _ _ _ _ _ _ _ _ E) as [_ [_ Hdb]].
    rewrite create_notification_cases, N in Hdb. now destruct (_ <=? _)%Z.
  - now destruct (forecast_raises _ _ _ _ _ _ _ _ E).
Qed.

Lemma day_start_le d : (day_start d <= d)%Z.
Proof.
  unfold day_start, date_of, usec_per_day.
  pose proof (Z.mul_div_le d 86400000000 ltac:(lia)). lia.
Qed.

(** X5. At most one low-balance notification a day: after a forecast
    whose runway is at most 30 days, any further forecast for the same
    user on the same calendar day leaves the session unchanged, whatever
    its arguments, provided the clock did not run backwards between the
    first forecast's check and its insertion. *)
Theorem one_low_balance_notification_a_day
    env1 env2 db user_id starting_balance forecast_days current_date :
  (0 <= forecast_days)%Z ->
  date_of (utcnow_check env2) = date_of (utcnow_check env1) ->
  (utcnow_check env1 <= utcnow_insert env1)%Z ->
  exists f1 db1,
    forecast_balance env1 db user_id starting_balance forecast_days current_date
    = (Returns f1, db1)
    /\ ((runway_days f1 <= 30)%Z ->
        notified_today env2 db1 user_id = true
        /\ forall starting_balance' forecast_days' current_date',
            snd (forecast_balance env2 db1 user_id starting_balance' forecast_days'
                                  current_date')
            = db1).
Proof.
  intros Hfd Hday Hclock.
  destruct (forecast_total env1 db user_id starting_balance forecast_days current_date Hfd)
    as [f1 [db1 H]].
  exists f1, db1. split; [exact H|]. intro R.
  assert (N : notified_today env2 db1 user_id = true).
  { destruct (forecast_inv _ _ _ _ _ _ _ _ H) as [_ [_ Hdb]].
    apply Z.leb_le in R. rewrite R, create_notification_cases in Hdb.
    assert (D : day_start (utcnow_check env2) = day_start (utcnow_check env1))
      by (unfold day_start; now rewrite Hday).
    destruct (notified_today env1 db user_id) eqn:N1; subst db1.
    - unfold notified_today in *. now rewrite D.
    - unfold notified_today. simpl. rewrite existsb_app. apply orb_true_iff. right.
      simpl. rewrite String.eqb_refl, D. simpl.
      pose proof (day_start_le (utcnow_check env1)).
      rewrite orb_false_r. apply Z.leb_le. lia. }
  split; [exact N|]. intros sb' fd' cd'. now apply forecast_keeps_notified.
Qed.

Lemma one_low_balance_notification_a_day_witness :
  exists f1 db1,
    forecast_balance Examples.env0 Examples.mixed_db "u" 1000 2 (Some 0%Z)
    = (Returns f1, db1)
    /\ ((runway_days f1 <= 30)%Z ->
        notified_today Examples.env0 db1 "u" = true
        /\ forall starting_balance' forecast_days' current_date',
            snd (forecast_balance Examples.env0 db1 "u" starting_balance' forecast_days'
                                  current_date')
            = db1).
Proof.
  apply (one_low_balance_notification_a_day Examples.env0 Examples.env0 Examples.mixed_db
           "u" 1000 2 (Some 0%Z)).
  - lia.
  - reflexivity.
  - simpl. lia.
Defined.

(** ** The forecaster: a higher starting balance *)

Lemma project_mono hi he rts cd offsets b b' :
  b <= b' ->
  Forall2 (fun d d' => date d = date d' /\ income d = income d'
                       /\ expenses d = expenses d' /\ balance d <= balance d')
          (project hi he rts cd offsets b) (project hi he rts cd offsets b').
Proof.
  revert b b'. induction offsets as [|d rest IH]; intros b b' L; simpl; [constructor|].
  destruct (day_figures hi he rts (cd + timedelta_days d)%Z) as [i e].
  constructor.
  - simpl. repeat split. apply round2_mono. lra.
  - apply IH. lra.
Qed.

Lemma first_depleted_mono l l' :
  Forall2 (fun d d' => balance d <= balance d') l l' ->
  forall i k', first_depleted i l' = Some k' ->
               exists k, first_depleted i l = Some k /\ (k <= k')%Z.
Proof.
  induction 1 as [|d d' l l' Hd _ IH]; intros i k' H; simpl in *; [discriminate|].
  destruct (Qle_bool (balance d) 0) eqn:E.
  - exists i. split; [reflexivity|].
    destruct (Qle_bool (balance d') 0); [injection H as <-; lia|].
    destruct (first_depleted_some _ _ _ H). lia.
  - destruct (Qle_bool (balance d') 0) eqn:E'.
    + apply Qle_bool_iff in E'.
      assert (C : Qle_bool (balance d) 0 = true) by (apply Qle_bool_iff; lra).
      congruence.
    + now apply IH.
Qed.

Lemma min_by_balance_spec l low :
  min_by_balance l = Returns low ->
  In low l /\ forall day, In day l -> balance low <= balance day.
Proof.
  destruct l as [|best l]; [discriminate|]. intro H. simpl in H. injection H as <-.
  destruct (min_from_first best l) as [pre [post [H1 [H2 H3]]]].
  generalize dependent (min_from best l). intros low H1 H2 H3. rewrite H1.
  split; [apply in_or_app; right; now left|].
  intros day Hd. apply in_app_or in Hd. destruct Hd as [Hd|[<-|Hd]].
  - apply Qlt_le_weak. exact (proj1 (Forall_forall _ _) H2 _ Hd).
  - apply Qle_refl.
  - exact (proj1 (Forall_forall _ _) H3 _ Hd).
Qed.

Lemma Forall2_In_r {A B} (R : A -> B -> Prop) l l' y :
  Forall2 R l l' -> In y l' -> exists x, In x l /\ R x y.
Proof.
  induction 1 as [|a b l l' Hab _ IH]; intro H; [contradiction|].
  destruct H as [<-|H].
  - exists a. split; [now left|exact Hab].
  - destruct (IH H) as [x [Hx Rx]]. exists x. split; [now right|exact Rx].
Qed.

(** X6. A higher starting balance never hurts: with the same data and
    horizon, every projected balance, the minimum balance and the
    runway are at least what they are for the lower starting balance,
    and the projected income and expenses are the same. *)
Theorem higher_start_never_hurts env db user_id low_start high_start forecast_days current_date :
  (0 <= forecast_days)%Z -> low_start <= high_start ->
  exists f f' db1 db2,
    forecast_balance env db user_id low_start forecast_days current_date = (Returns f, db1)
    /\ forecast_balance env db user_id high_start forecast_days current_date
       = (Returns f', db2)
    /\ Forall2 (fun d d' => date d = date d' /\ income d = income d'
                            /\ expenses d = expenses d' /\ balance d <= balance d')
               (daily_balances f) (daily_balances f')
    /\ min_balance f <= min_balance f'
    /\ (runway_days f <= runway_days f')%Z.
Proof.
  intros Hfd L.
  destruct (forecast_total env db user_id low_start forecast_days current_date Hfd)
    as [f [db1 H]].
  destruct (forecast_total env db user_id high_start forecast_days current_date Hfd)
    as [f' [db2 H']].
  exists f, f', db1, db2. split; [exact H|]. split; [exact H'|].
  destruct (forecast_inv _ _ _ _ _ _ _ _ H) as [Hd [Hr _]].
  destruct (forecast_inv _ _ _ _ _ _ _ _ H') as [Hd' [Hr' _]].
  assert (F : Forall2 (fun d d' => date d = date d' /\ income d = income d'
                                   /\ expenses d = expenses d' /\ balance d <= balance d')
                      (daily_balances f) (daily_balances f')).
  { rewrite Hd, Hd'. now apply project_mono. }
  assert (F' : Forall2 (fun d d' => balance d <= balance d')
                       (daily_balances f) (daily_balances f')).
  { revert F. apply Forall2_impl. tauto. }
  split; [exact F|]. split.
  - destruct (forecast_fields _ _ _ _ _ _ _ _ H) as [m [ps [M [_ [_ [_ [_ [_ [B _]]]]]]]]].
    destruct (forecast_fields _ _ _ _ _ _ _ _ H')
      as [m' [ps' [M' [_ [_ [_ [_ [_ [B' _]]]]]]]]].
    rewrite B, B'.
    destruct (min_by_balance_spec _ _ M) as [_ Lo].
    destruct (min_by_balance_spec _ _ M') as [In' _].
    destruct (Forall2_In_r _ _ _ _ F' In') as [x [Hx Rx]].
    eapply Qle_trans; [apply (Lo x Hx)|exact Rx].
  - rewrite Hr, Hr'.
    pose proof (forecast_series_length _ _ _ _ _ _ _ _ Hfd H) as Len.
    pose proof (runway_bound _ _ Len Hfd) as B.
    destruct (first_depleted 0 (daily_balances f')) as [k'|] eqn:E'.
    + destruct (first_depleted_mono _ _ F' _ _ E') as [k [-> Hk]]. exact Hk.
    + lia.
Qed.

Lemma higher_start_never_hurts_witness :
  exists f f' db1 db2,
    forecast_balance Examples.env0 Examples.expense_every_day "u" 250 5 (Some 0%Z)
    = (Returns f, db1)
    /\ forecast_balance Examples.env0 Examples.expense_every_day "u" 1000 5 (Some 0%Z)
       = (Returns f', db2)
    /\ Forall2 (fun d d' => date d = date d' /\ income d = income d'
                            /\ expenses d = expenses d' /\ balance d <= balance d')
               (daily_balances f) (daily_balances f')
    /\ min_balance f <= min_balance f'
    /\ (runway_days f <= runway_days f')%Z.
Proof.
  apply (higher_start_never_hurts Examples.env0 Examples.expense_every_day "u" 250 1000 5
           (Some 0%Z)).
  - lia.
  - discriminate.
Defined.

(** X7. A forecast raises exactly when the horizon is negative: the
    series is then empty, taking its minimum raises [ValueError], and
    the session is left as it was. *)
Theorem negative_horizon_raises env db user_id starting_balance forecast_days current_date :
  ((forecast_days < 0)%Z ->
   forecast_balance env db user_id starting_balance forecast_days current_date
   = (Raises ValueError, db))
  /\ (forall e db',
        forecast_balance env db user_id starting_balance forecast_days current_date
        = (Raises e, db') ->
        (forecast_days < 0)%Z /\ e = ValueError /\ db' = db).
Proof.
  assert (N : (forecast_days < 0)%Z ->
              forecast_balance env db user_id starting_balance forecast_days current_date
              = (Raises ValueError, db)).
  { intro L. unfold forecast_balance, py_range.
    replace (Z.to_nat (forecast_days + 1)) with 0%nat by lia. reflexivity. }
  split; [exact N|]. intros e db' H.
  destruct (forecast_raises _ _ _ _ _ _ _ _ H) as [L ->].
  rewrite (N L) in H. injection H as <-. auto.
Qed.

End ForecastMore.

(** ** The goal projector: probability and estimate *)

Section GoalsMore.
Import GoalProjector.

Lemma Qle_bool_false x y : Qle_bool x y = false -> y < x.
Proof.
  intro H. apply Qnot_le_lt. intro L. apply Qle_bool_iff in L. congruence.
Qed.

Ltac qcases :=
  repeat match goal with
         | |- context [Qle_bool ?x ?y] =>
             let E := fresh "E" in
             destruct (Qle_bool x y) eqn:E;
             [apply Qle_bool_iff in E | apply Qle_bool_false in E]
         | |- context [Qltb ?x ?y] =>
             let E := fresh "E" in
             destruct (Qltb x y) eqn:E;
             [apply Qltb_lt in E | apply Qltb_ge in E]
         end.

Lemma ratio_test c a n : 0 < n -> Qle_bool c (a / n) = Qle_bool (c * n) a.
Proof.
  intro Hn. destruct (Qle_bool (c * n) a) eqn:E.
  - apply Qle_bool_iff in E. apply Qle_bool_iff. now apply Qle_shift_div_l.
  - apply Qle_bool_false in E. destruct (Qle_bool c (a / n)) eqn:F; [|reflexivity].
    apply Qle_bool_iff in F. exfalso.
    assert (a / n < c) by now apply Qlt_shift_div_r. lra.
Qed.

(** The lookup, with the ratio tests cleared of the division. *)
Lemma probability_table needed available :
  _calculate_probability needed available
  = if Qle_bool available 0 then 1 # 10
    else if Qltb 0 needed then
      if Qle_bool ((12 # 10) * needed) available then 95 # 100
      else if Qle_bool (1 * needed) available then 85 # 100
      else if Qle_bool ((8 # 10) * needed) available then 70 # 100
      else if Qle_bool ((6 # 10) * needed) available then 50 # 100
      else if Qle_bool ((4 # 10) * needed) available then 30 # 100
      else 15 # 100
    else 95 # 100.
Proof.
  unfold _calculate_probability.
  destruct (Qle_bool available 0); [reflexivity|].
  destruct (Qltb 0 needed) eqn:N; [|reflexivity].
  apply Qltb_lt in N. now rewrite !ratio_test by exact N.
Qed.

(** X8. The probability of a goal is one of the table's values, between
    0.10 and 0.95; it never decreases when the available surplus grows
    and never increases when the required contribution grows. *)
Theorem probability_is_monotone (needed needed' available available' : Q) :
  (1 # 10 <= _calculate_probability needed available <= 95 # 100)
  /\ (available <= available' ->
      _calculate_probability needed available <= _calculate_probability needed available')
  /\ (needed <= needed' ->
      _calculate_probability needed' available <= _calculate_probability needed available).
Proof.
  rewrite !probability_table. split; [|split].
  - qcases; split; discriminate.
  - intro L. qcases; try discriminate; exfalso; lra.
  - intro L. qcases; try discriminate; exfalso; lra.
Qed.

Lemma needed_positive now target current target_date :
  current < target ->
  0 < (let m := Z.max 0 ((year target_date - year now) * 12
                         + (month target_date - month now)) in
       if (0 <? m)%Z then (target - current) / inject_Z m else target - current).
Proof.
  intro L. cbv zeta.
  set (m := Z.max 0 _). destruct (0 <? m)%Z eqn:E; [|lra].
  apply Z.ltb_lt in E. apply Qlt_shift_div_l.
  - change 0 with (inject_Z 0). now rewrite <- Zlt_Qlt.
  - lra.
Qed.

(** X9. In a projection the status and the probability agree: an
    [on-track] goal has probability at least 0.85, an [at-risk] goal
    exactly 0.70, and a [behind] goal at most 0.70. *)
Theorem status_bounds_probability now target current target_date
    monthly_income monthly_expenses :
  let p := calculate_goal_projection now target current target_date
             monthly_income monthly_expenses in
  (status p = "on-track"%string -> 85 # 100 <= probability p)
  /\ (status p = "at-risk"%string -> probability p = 70 # 100)
  /\ (status p = "behind"%string -> probability p <= 70 # 100).
Proof.
  intro p. unfold p, calculate_goal_projection. simpl status. simpl probability.
  set (n := if (0 <? _)%Z then _ else _).
  set (a := monthly_income - monthly_expenses).
  assert (Hn : current < target -> 0 < n).
  { intro L. exact (needed_positive now target current target_date L). }
  destruct (determine_status_cases current target n a)
    as [[H E]|[[H [H1 E]]|[[H [H1 [H2 E]]]|[H [H1 [H2 E]]]]]];
    cbv zeta in E; rewrite E; (split; [|split]); intro X; try discriminate;
    specialize (Hn H); rewrite probability_table.
  - qcases; try discriminate; try reflexivity; exfalso; lra.
  - qcases; try discriminate; try reflexivity; exfalso; lra.
  - qcases; try discriminate; try reflexivity; exfalso; lra.
Qed.

(** X10. The estimated number of months of a projection is, when the
    monthly surplus is positive, the least whole number of months whose
    surplus covers the remaining amount (zero or negative once the
    target is reached), and the sentinel 999 when there is no surplus. *)
Theorem estimated_months_is_least now target current target_date
    monthly_income monthly_expenses :
  let p := calculate_goal_projection now target current target_date
             monthly_income monthly_expenses in
  let surplus := monthly_income - monthly_expenses in
  (0 < surplus ->
   target - current <= inject_Z (estimated_months p) * surplus
   /\ forall m : Z, target - current <= inject_Z m * surplus ->
                    (estimated_months p <= m)%Z)
  /\ (surplus <= 0 -> estimated_months p = 999%Z).
Proof.
  intros p surplus. unfold p, calculate_goal_projection. simpl estimated_months.
  fold surplus. split.
  - intro S. rewrite (proj2 (Qltb_lt 0 surplus) S). split.
    + pose proof (Qle_ceiling ((target - current) / surplus)) as C.
      apply (Qmult_le_compat_r _ _ surplus) in C; [|lra].
      assert (E : (target - current) / surplus * surplus == target - current).
      { field. intro Z0. rewrite Z0 in S. discriminate. }
      now rewrite E in C.
    + intros m Hm.
      assert (L : (target - current) / surplus <= inject_Z m).
      { apply Qle_shift_div_r; [exact S|exact Hm]. }
      apply Qceiling_resp_le in L. now rewrite Qceiling_Z in L.
  - intro S. now rewrite (proj2 (Qltb_ge 0 surplus) S).
Qed.

End GoalsMore.

(** ** The debt optimizer: order and end of the payoff *)

Section DebtsMore.
Import DebtOptimizer DebtNotions.

Lemma while_loop_invariant {S} (P : S -> Prop) cond body fuel (s s' : S) :
  (forall x, P x -> cond x = true -> P (body x)) ->
  P s -> while_loop fuel cond body s = Some s' -> P s' /\ cond s' = false.
Proof.
  intro Step. revert s. induction fuel as [|fuel IH]; intros s Hs H; simpl in H.
  - discriminate.
  - destruct (cond s) eqn:C.
    + apply (IH (body s)); [now apply Step|exact H].
    + injection H as <-. now split.
Qed.

(** X11. The simulated payoff of a debt that owes a non-negative amount
    never drives the balance below zero: it ends with the balance at
    exactly 0, or at the 360-month cap.  It takes no month exactly when
    nothing is owed, and with a non-negative rate the interest paid is
    non-negative. *)
Theorem payoff_ends_at_zero_or_cap fuel debt extra_budget :
  (360 < fuel)%nat -> 0 <= remainingAmount debt ->
  exists s,
    payoff fuel debt extra_budget = Some s
    /\ 0 <= remaining s
    /\ (remaining s == 0 \/ months s = 360%Z)
    /\ (months s = 0%Z <-> remainingAmount debt == 0)
    /\ (0 <= interestRate debt -> 0 <= interest_paid s).
Proof.
  intros Hf Hpos.
  destruct (payoff_returns fuel debt extra_budget Hf) as [s [Hs [Hm Hend]]].
  exists s. split; [exact Hs|]. unfold payoff in Hs.
  set (rate := interestRate debt / 100 / 12) in *.
  set (payment := monthlyPayment debt + extra_budget) in *.
  apply (while_loop_invariant
           (fun x => 0 <= remaining x
                     /\ (0 <= interestRate debt -> 0 <= interest_paid x)
                     /\ (0 <= months x)%Z
                     /\ (months x = 0%Z -> remaining x = remainingAmount debt)
                     /\ (remainingAmount debt <= 0 -> months x = 0%Z))
           payoff_cond (payoff_body rate payment) fuel
           (mkPayoff (remainingAmount debt) 0 0) s) in Hs.
  - destruct Hs as [[A [B [M0 [K D]]]] E].
    split; [exact A|]. split; [|split; [|exact B]].
    + destruct Hend as [H|H]; [now right|left; lra].
    + split.
      * intro M. rewrite <- (K M).
        unfold payoff_cond in E. apply andb_false_iff in E. destruct E as [E|E].
        -- apply Qltb_ge in E. lra.
        -- apply Z.ltb_ge in E. lia.
      * intro Z0. apply D. lra.
  - intros x [A [B [M0 [K D]]]] Hc. unfold payoff_cond in Hc.
    apply andb_prop in Hc. destruct Hc as [Hc _]. apply Qltb_lt in Hc.
    unfold payoff_body. cbn [remaining interest_paid months].
    split; [|split; [|split; [|split]]].
    + pose proof (py_min_le_r (payment - remaining x * rate) (remaining x)). lra.
    + intro R. specialize (B R).
      assert (0 <= remaining x * rate).
      { apply Qmult_le_0_compat; [lra|]. unfold rate.
        apply Qle_shift_div_l; [reflexivity|].
        apply Qle_shift_div_l; [reflexivity|]. lra. }
      lra.
    + lia.
    + intro Z0. lia.
    + intro Z0. specialize (D Z0). rewrite (K D) in Hc. exfalso. lra.
  - cbn [remaining interest_paid months].
    split; [exact Hpos|]. split; [intros _; apply Qle_refl|]. split; [lia|].
    split; [reflexivity|]. reflexivity.
Qed.

Lemma payoff_ends_at_zero_or_cap_witness :
  exists s,
    payoff 361 Examples.card 0 = Some s
    /\ 0 <= remaining s
    /\ (remaining s == 0 \/ months s = 360%Z)
    /\ (months s = 0%Z <-> remainingAmount Examples.card == 0)
    /\ (0 <= interestRate Examples.card -> 0 <= interest_paid s).
Proof.
  apply (payoff_ends_at_zero_or_cap 361 Examples.card 0).
  - lia.
  - discriminate.
Defined.

Lemma insert_sorted_in {A} (precedes : A -> A -> bool) x l z :
  In z (insert_sorted precedes x l) -> z = x \/ In z l.
Proof.
  intro H. apply (Permutation_in _ (insert_sorted_perm precedes x l)) in H.
  destruct H as [<-|H]; auto.
Qed.

Lemma insert_sorted_pairs {A} (precedes : A -> A -> bool) (R : A -> A -> Prop) x l :
  (forall y, precedes y x = true -> R y x) ->
  (forall y, precedes y x = false -> R x y) ->
  (forall a b c, R a b -> R b c -> R a c) ->
  ForallOrdPairs R l -> ForallOrdPairs R (insert_sorted precedes x l).
Proof.
  intros H1 H2 T. induction 1 as [|y r Hy Hr IH]; simpl.
  - constructor; constructor.
  - destruct (precedes y x) eqn:E.
    + constructor; [|exact IH]. apply Forall_forall. intros z Hz.
      apply insert_sorted_in in Hz. destruct Hz as [->|Hz]; [now apply H1|].
      exact (proj1 (Forall_forall _ _) Hy _ Hz).
    + constructor; [|now constructor]. constructor; [now apply H2|].
      apply Forall_forall. intros z Hz.
      apply (T _ y); [now apply H2|exact (proj1 (Forall_forall _ _) Hy _ Hz)].
Qed.

Lemma insert_sorted_stable {A} (precedes : A -> A -> bool) (p : A -> bool) x l :
  (forall y, p x = true -> precedes y x = true -> p y = false) ->
  filter p (insert_sorted precedes x l) = filter p (x :: l).
Proof.
  intro H. induction l as [|y r IH]; simpl; [reflexivity|].
  destruct (precedes y x) eqn:E; [|reflexivity].
  simpl. rewrite IH. simpl. destruct (p x) eqn:Px; [|reflexivity].
  now rewrite (H y eq_refl E).
Qed.

Lemma avalanche_order l :
  ForallOrdPairs (fun x y => interestRate y <= interestRate x) (sorted_by by_rate_desc l)
  /\ forall k, filter (fun d => Qeq_bool (interestRate d) k) (sorted_by by_rate_desc l)
               = filter (fun d => Qeq_bool (interestRate d) k) l.
Proof.
  induction l as [|x l [IH1 IH2]]; simpl; [split; [constructor|reflexivity]|]. split.
  - apply insert_sorted_pairs; [| | |exact IH1].
    + intros y H. apply Qltb_lt in H. now apply Qlt_le_weak.
    + intros y H. now apply Qltb_ge in H.
    + intros a b c H1 H2. lra.
  - intro k. rewrite insert_sorted_stable; [simpl; now rewrite IH2|].
    intros y Px Hy. apply Qeq_bool_eq in Px. apply Qltb_lt in Hy.
    destruct (Qeq_bool (interestRate y) k) eqn:E; [|reflexivity].
    apply Qeq_bool_eq in E. exfalso. lra.
Qed.

Lemma snowball_order l :
  ForallOrdPairs (fun x y => remainingAmount x <= remainingAmount y)
                 (sorted_by by_balance_asc l)
  /\ forall k, filter (fun d => Qeq_bool (remainingAmount d) k) (sorted_by by_balance_asc l)
               = filter (fun d => Qeq_bool (remainingAmount d) k) l.
Proof.
  induction l as [|x l [IH1 IH2]]; simpl; [split; [constructor|reflexivity]|]. split.
  - apply insert_sorted_pairs; [| | |exact IH1].
    + intros y H. apply Qltb_lt in H. now apply Qlt_le_weak.
    + intros y H. now apply Qltb_ge in H.
    + intros a b c H1 H2. lra.
  - intro k. rewrite insert_sorted_stable; [simpl; now rewrite IH2|].
    intros y Px Hy. apply Qeq_bool_eq in Px. apply Qltb_lt in Hy.
    destruct (Qeq_bool (remainingAmount y) k) eqn:E; [|reflexivity].
    apply Qeq_bool_eq in E. exfalso. lra.
Qed.

(** X12. The rows of a strategy result are those of the debts taken in
    the strategy's order: for avalanche by non-increasing interest
    rate, for snowball by non-decreasing remaining amount, and in both
    with debts of equal key kept in the order they were given. *)
Theorem strategy_rows_are_ordered fuel debts extra_budget :
  (360 < fuel)%nat ->
  exists a s la ls,
    _simulate_strategy fuel debts extra_budget "avalanche" = Some a
    /\ _simulate_strategy fuel debts extra_budget "snowball" = Some s
    /\ DebtOptimizer.debts a = map (result_of fuel extra_budget) la
    /\ DebtOptimizer.debts s = map (result_of fuel extra_budget) ls
    /\ Permutation la debts /\ Permutation ls debts
    /\ ForallOrdPairs (fun x y => interestRate y <= interestRate x) la
    /\ ForallOrdPairs (fun x y => remainingAmount x <= remainingAmount y) ls
    /\ (forall k, filter (fun d => Qeq_bool (interestRate d) k) la
                  = filter (fun d => Qeq_bool (interestRate d) k) debts)
    /\ (forall k, filter (fun d => Qeq_bool (remainingAmount d) k) ls
                  = filter (fun d => Qeq_bool (remainingAmount d) k) debts).
Proof.
  intro Hf.
  do 2 eexists. exists (sorted_by by_rate_desc debts), (sorted_by by_balance_asc debts).
  split; [apply (simulate_strategy_eq _ _ _ "avalanche" Hf)|].
  split; [apply (simulate_strategy_eq _ _ _ "snowball" Hf)|].
  split; [reflexivity|]. split; [reflexivity|].
  split; [apply sorted_by_perm|]. split; [apply sorted_by_perm|].
  destruct (avalanche_order debts) as [A1 A2]. destruct (snowball_order debts) as [S1 S2].
  auto.
Qed.

Lemma strategy_rows_are_ordered_witness :
  exists a s la ls,
    _simulate_strategy 361 Examples.two_debts 0 "avalanche" = Some a
    /\ _simulate_strategy 361 Examples.two_debts 0 "snowball" = Some s
    /\ DebtOptimizer.debts a = map (result_of 361 0) la
    /\ DebtOptimizer.debts s = map (result_of 361 0) ls
    /\ Permutation la Examples.two_debts /\ Permutation ls Examples.two_debts
    /\ ForallOrdPairs (fun x y => interestRate y <= interestRate x) la
    /\ ForallOrdPairs (fun x y => remainingAmount x <= remainingAmount y) ls
    /\ (forall k, filter (fun d => Qeq_bool (interestRate d) k) la
                  = filter (fun d => Qeq_bool (interestRate d) k) Examples.two_debts)
    /\ (forall k, filter (fun d => Qeq_bool (remainingAmount d) k) ls
                  = filter (fun d => Qeq_bool (remainingAmount d) k) Examples.two_debts).
Proof.
  apply (strategy_rows_are_ordered 361 Examples.two_debts 0). lia.
Defined.

End DebtsMore.

(** ** The debt optimizer: the level payment *)

Section LevelPayment.
Import DebtOptimizer DebtNotions DebtPayment.







(** The run for 1000 at 12% over two months: a payment of 507.51. *)
Example level_payment_run :
  calculate_minimum_payment 1000 12 2 = Payment (50751 # 100)
  /\ calculate_minimum_payment 1200 0 12 = Payment (1200 # 12).
Proof. vm_compute. split; reflexivity. Qed.

(** X14. The edge cases of [calculate_minimum_payment]: zero months
    raise [ZeroDivisionError] whatever the rate; at a zero rate the
    payment is the principal divided by the months, not rounded, so
    that [months] payments make up the principal exactly; and the call
    raises [ValueError] exactly for the rate -1200 with negative
    months. *)
Theorem minimum_payment_edge_cases principal annual_interest_rate months :
  (months = 0%Z ->
   calculate_minimum_payment principal annual_interest_rate months = ZeroDivisionError)
  /\ (annual_interest_rate == 0 -> months <> 0%Z ->
      calculate_minimum_payment principal annual_interest_rate months
      = Payment (principal / inject_Z months)
      /\ principal / inject_Z months * inject_Z months == principal)
  /\ (calculate_minimum_payment principal annual_interest_rate months = MathDomainError
      <-> annual_interest_rate == - (1200) /\ (months < 0)%Z).
Proof.
  unfold calculate_minimum_payment. split; [|split].
  - intros ->. destruct (Qeq_bool annual_interest_rate 0); [reflexivity|].
    rewrite andb_false_r. reflexivity.
  - intros Hz Hm. rewrite (Qeq_eq_bool _ _ Hz).
    assert ((months =? 0)%Z = false) as -> by now apply Z.eqb_neq.
    split; [reflexivity|]. field.
    intro E. apply Hm. now apply (inject_Z_injective months 0).
  - destruct (Qeq_bool annual_interest_rate 0) eqn:E0.
    + apply Qeq_bool_eq in E0. split.
      * intro H. destruct (months =? 0)%Z; discriminate.
      * intros [H _]. rewrite H in E0. discriminate.
    + destruct (Qeq_bool (1 + annual_interest_rate / 100 / 12) 0) eqn:E1.
      * apply Qeq_bool_eq in E1.
        assert (A : annual_interest_rate == - (1200)).
        { assert (annual_interest_rate / 100 / 12 == -(1)) by lra.
          setoid_replace annual_interest_rate
            with (annual_interest_rate / 100 / 12 * 1200) by field. rewrite H. reflexivity. }
        destruct (months <? 0)%Z eqn:E2; cbn [andb].
        -- apply Z.ltb_lt in E2. tauto.
        -- apply Z.ltb_ge in E2. split.
           ++ intro H.
              match type of H with (if ?c then _ else _) = _ => destruct c end;
                discriminate.
           ++ intros [_ H]. lia.
      * cbn [andb]. split.
        -- intro H.
           match type of H with (if ?c then _ else _) = _ => destruct c end;
             discriminate.
        -- intros [H _]. exfalso.
           assert (X : Qeq_bool (1 + annual_interest_rate / 100 / 12) 0 = true)
             by (apply Qeq_eq_bool; rewrite H; reflexivity).
           congruence.
Qed.

End LevelPayment.

(** ** The financial simulator *)

Section Simulator.
Import CashFlowForecaster Notions MoreNotions FinancialSimulator SimNotions.

Lemma income_loop_shape ct c dc days b :
  List.length (income_loop ct c dc days b) = List.length days
  /\ map date (income_loop ct c dc days b) = map date days.
Proof.
  revert b. induction days as [|d days IH]; intro b; simpl; [split; reflexivity|].
  destruct (IH (b + (if String.eqb ct "percentage" then income d * (1 + c / 100)
                     else income d + dc) - expenses d)) as [L D].
  split; [now rewrite L|now rewrite D].
Qed.

Lemma expense_loop_shape dc days b :
  List.length (expense_loop dc days b) = List.length days
  /\ map date (expense_loop dc days b) = map date days.
Proof.
  revert b. induction days as [|d days IH]; intro b; simpl; [split; reflexivity|].
  destruct (IH (b + income d - py_max 0 (expenses d + dc))) as [L D].
  split; [now rewrite L|now rewrite D].
Qed.

Lemma recurring_loop_shape a tt db i days b :
  List.length (recurring_loop a tt db i days b) = List.length days
  /\ map date (recurring_loop a tt db i days b) = map date days.
Proof.
  revert i b. induction days as [|d days IH]; intros i b; simpl; [split; reflexivity|].
  match goal with |- context [recurring_loop a tt db (i + 1) days ?b'] =>
    destruct (IH (i + 1)%Z b') as [L D] end.
  split; [now rewrite L|now rewrite D].
Qed.

Lemma income_change_rewrites : rewrites_forecast _simulate_income_change.
Proof.
  intros env db uid sb params fd cd. unfold _simulate_income_change.
  destruct (forecast_balance env db uid sb fd (Some cd)) as [[baseline|e] db'];
    [|reflexivity].
  eexists. split; [reflexivity|]. simpl.
  destruct (income_loop_shape (get (p_change_type params) "fixed"%string)
              (get (p_change_amount params) 0) (get (p_change_amount params) 0 / 30)
              (daily_balances baseline) sb) as [L D].
  auto.
Qed.

Lemma expense_change_rewrites : rewrites_forecast _simulate_expense_change.
Proof.
  intros env db uid sb params fd cd. unfold _simulate_expense_change.
  destruct (forecast_balance env db uid sb fd (Some cd)) as [[baseline|e] db'];
    [|reflexivity].
  eexists. split; [reflexivity|]. simpl.
  destruct (expense_loop_shape (get (p_change_amount params) 0 / 30)
              (daily_balances baseline) sb) as [L D].
  auto.
Qed.

Lemma new_recurring_rewrites : rewrites_forecast _simulate_new_recurring.
Proof.
  intros env db uid sb params fd cd. unfold _simulate_new_recurring.
  destruct (forecast_balance env db uid sb fd (Some cd)) as [[baseline|e] db'];
    [|reflexivity].
  eexists. split; [reflexivity|]. simpl.
  destruct (recurring_loop_shape (get (p_amount params) 0)
              (get (p_type params) "expense"%string)
              (days_between_of (get (p_frequency params) "monthly"%string)) 0
              (daily_balances baseline) sb) as [L D].
  auto.
Qed.

Lemma helper_rewrites ty helper : helper_of ty = Some helper -> rewrites_forecast helper.
Proof.
  unfold helper_of. intro H.
  repeat match type of H with
         | (if ?c then _ else _) = _ => destruct c
         end; try discriminate; injection H as <-.
  - apply income_change_rewrites.
  - apply expense_change_rewrites.
  - intros env db uid sb params fd cd. unfold _simulate_budget_cut.
    apply expense_change_rewrites.
  - apply new_recurring_rewrites.
  - intros env db uid sb params fd cd. unfold _simulate_goal_acceleration.
    apply expense_change_rewrites.
Qed.

Lemma known_type_has_helper ty :
  In ty known_types <-> exists helper, helper_of ty = Some helper.
Proof.
  unfold known_types, helper_of. split.
  - intro H. simpl in H.
    destruct H as [<-|[<-|[<-|[<-|[<-|[]]]]]]; simpl; eexists; reflexivity.
  - intros [h H]. simpl.
    repeat match type of H with
           | (if String.eqb ?a ?b then _ else _) = _ =>
               let E := fresh "E" in
               destruct (String.eqb a b) eqn:E; [apply String.eqb_eq in E; subst; tauto|]
           end.
    discriminate.
Qed.

Lemma last_of_nonempty {A} (l : list A) :
  l <> [] -> exists x, last_of l = Returns x /\ In x l.
Proof.
  intro N. unfold last_of. destruct (rev l) as [|x r] eqn:E.
  - exfalso. apply N. apply (f_equal (@rev A)) in E. now rewrite rev_involutive in E.
  - exists x. split; [reflexivity|]. apply in_rev. rewrite E. now left.
Qed.

(** X15. For each of the five known scenario types and every horizon
    [forecast_days >= 0], [simulate_scenario] returns.  It runs the
    forecast twice, so the session it leaves is the one after two
    forecasts; the scenario's runway lies between 0 and
    [forecast_days + 1]; the comparison reports the scenario's values
    less the baseline's, and the scenario counts as an improvement
    exactly when its ending balance is strictly higher. *)
Theorem simulation_returns now env1 env2 db user_id scenario_type parameters
    forecast_days current_date :
  In scenario_type known_types -> (0 <= forecast_days)%Z ->
  let start := match current_date with None => now | Some d => d end in
  let starting_balance := get (p_starting_balance parameters) 10000 in
  exists sim db1 db2 baseline,
    forecast_balance env1 db user_id starting_balance forecast_days (Some start)
    = (Returns baseline, db1)
    /\ simulate_scenario now env1 env2 db user_id scenario_type parameters forecast_days
                         current_date
       = (Returns sim, db2)
    /\ db2 = snd (forecast_balance env2 db1 user_id starting_balance forecast_days
                                   (Some start))
    /\ sim_scenario_type sim = scenario_type
    /\ sim_forecast_days sim = forecast_days
    /\ fig_runway_days (sim_baseline sim) = runway_days baseline
    /\ (0 <= fig_runway_days (sim_scenario sim) <= forecast_days + 1)%Z
    /\ runway_difference_days (sim_comparison sim)
       = (fig_runway_days (sim_scenario sim) - fig_runway_days (sim_baseline sim))%Z
    /\ balance_difference (sim_comparison sim)
       = round2 (fig_ending_balance (sim_scenario sim)
                 - fig_ending_balance (sim_baseline sim))
    /\ (is_improvement (sim_comparison sim) = true
        <-> fig_ending_balance (sim_baseline sim) < fig_ending_balance (sim_scenario sim)).
Proof.
  intros Hty Hfd start sb.
  destruct (forecast_total env1 db user_id sb forecast_days (Some start) Hfd)
    as [baseline [db1 H1]].
  destruct (forecast_total env2 db1 user_id sb forecast_days (Some start) Hfd)
    as [baseline2 [db2 H2]].
  apply known_type_has_helper in Hty. destruct Hty as [helper Hh].
  pose proof (helper_rewrites _ _ Hh env2 db1 user_id sb parameters forecast_days start)
    as R.
  rewrite H2 in R. destruct R as [sc [Hsc [Len [_ Rw]]]].
  pose proof (forecast_series_length _ _ _ _ _ _ _ _ Hfd H1) as L1.
  pose proof (forecast_series_length _ _ _ _ _ _ _ _ Hfd H2) as L2.
  destruct (last_of_nonempty (daily_balances baseline)) as [bl [Hbl _]].
  { intro E. rewrite E in L1. simpl in L1. lia. }
  destruct (last_of_nonempty (sc_daily_balances sc)) as [sl [Hsl _]].
  { intro E. rewrite E in Len. simpl in Len. lia. }
  eexists. exists db1, db2, baseline. split; [exact H1|].
  unfold simulate_scenario. fold start. fold sb. rewrite H1, Hh, Hsc.
  unfold _compare_scenarios, figures_of. rewrite Hbl, Hsl.
  split; [reflexivity|]. simpl.
  split; [now rewrite H2|]. split; [reflexivity|]. split; [reflexivity|].
  split; [reflexivity|]. split.
  - rewrite Rw. unfold runway_of. apply runway_bound; [|exact Hfd]. congruence.
  - split; [reflexivity|]. split; [reflexivity|]. rewrite Qltb_lt. split; intro X; lra.
Qed.

Lemma simulation_returns_witness :
  let start := match Some 0%Z with None => 0%Z | Some d => d end in
  let starting_balance := get (p_starting_balance no_parameters) 10000 in
  exists sim db1 db2 baseline,
    forecast_balance Examples.env0 Examples.mixed_db "u" starting_balance 2 (Some start)
    = (Returns baseline, db1)
    /\ simulate_scenario 0%Z Examples.env0 Examples.env0 Examples.mixed_db "u"
                         "budget_cut" no_parameters 2 (Some 0%Z)
       = (Returns sim, db2)
    /\ db2 = snd (forecast_balance Examples.env0 db1 "u" starting_balance 2 (Some start))
    /\ sim_scenario_type sim = "budget_cut"%string
    /\ sim_forecast_days sim = 2%Z
    /\ fig_runway_days (sim_baseline sim) = runway_days baseline
    /\ (0 <= fig_runway_days (sim_scenario sim) <= 2 + 1)%Z
    /\ runway_difference_days (sim_comparison sim)
       = (fig_runway_days (sim_scenario sim) - fig_runway_days (sim_baseline sim))%Z
    /\ balance_difference (sim_comparison sim)
       = round2 (fig_ending_balance (sim_scenario sim)
                 - fig_ending_balance (sim_baseline sim))
    /\ (is_improvement (sim_comparison sim) = true
        <-> fig_ending_balance (sim_baseline sim) < fig_ending_balance (sim_scenario sim)).
Proof.
  apply (simulation_returns 0%Z Examples.env0 Examples.env0 Examples.mixed_db "u"
           "budget_cut" no_parameters 2 (Some 0%Z)).
  - simpl. tauto.
  - lia.
Defined.

(** X16. An unknown scenario type makes [simulate_scenario] raise
    [ValueError], but only after the baseline forecast has run: the
    session left is the one after that forecast, which may hold a new
    low-balance notification.  A negative horizon raises [ValueError]
    for every type and leaves the session unchanged. *)
Theorem unknown_scenario_raises now env1 env2 db user_id scenario_type parameters
    forecast_days current_date :
  let start := match current_date with None => now | Some d => d end in
  let starting_balance := get (p_starting_balance parameters) 10000 in
  (~ In scenario_type known_types -> (0 <= forecast_days)%Z ->
   simulate_scenario now env1 env2 db user_id scenario_type parameters forecast_days
                     current_date
   = (Raises ValueError,
      snd (forecast_balance env1 db user_id starting_balance forecast_days (Some start))))
  /\ ((forecast_days < 0)%Z ->
      simulate_scenario now env1 env2 db user_id scenario_type parameters forecast_days
                        current_date
      = (Raises ValueError, db)).
Proof.
  intros start sb. split.
  - intros Hty Hfd.
    destruct (forecast_total env1 db user_id sb forecast_days (Some start) Hfd)
      as [baseline [db1 H1]].
    unfold simulate_scenario. fold start. fold sb. rewrite H1. simpl.
    destruct (helper_of scenario_type) as [h|] eqn:E; [|reflexivity].
    exfalso. apply Hty. apply known_type_has_helper. now exists h.
  - intro Hfd. unfold simulate_scenario. fold start. fold sb.
    assert (E : forecast_balance env1 db user_id sb forecast_days (Some start)
                = (Raises ValueError, db)).
    { unfold forecast_balance, py_range.
      replace (Z.to_nat (forecast_days + 1)) with 0%nat by lia. reflexivity. }
    now rewrite E.
Qed.

(** The run of an unknown type on an empty session: the call raises,
    and the notification of the baseline forecast is left behind. *)
Example unknown_scenario_run :
  simulate_scenario 0%Z Examples.env0 Examples.env0 Examples.empty_db "u" "new_goal"
                    (mkParameters (Some 0) None None None None None None None None None)
                    5 (Some 0%Z)
  = (Raises ValueError,
     mkSession [] []
       [low_balance_notification Examples.env0 "u" 0 0]).
Proof. vm_compute. reflexivity. Qed.


Lemma income_loop_mono ct ct' c c' dc dc' days b b' :
  String.eqb ct "percentage" = false -> String.eqb ct' "percentage" = false ->
  dc <= dc' -> b <= b' ->
  Forall2 (fun d d' => date d = date d' /\ expenses d = expenses d'
                       /\ income d <= income d' /\ balance d <= balance d')
          (income_loop ct c dc days b) (income_loop ct' c' dc' days b').
Proof.
  intros E E' Hdc. revert b b'.
  induction days as [|d days IH]; intros b b' Hb; simpl; [constructor|].
  rewrite E, E'. constructor.
  - simpl. repeat split; apply round2_mono; lra.
  - apply IH. lra.
Qed.

Lemma py_max_cases (a b : Q) :
  (a < b /\ py_max a b = b) \/ (b <= a /\ py_max a b = a).
Proof.
  unfold py_max. destruct (Qltb a b) eqn:E.
  - left. split; [now apply Qltb_lt|reflexivity].
  - right. split; [now apply Qltb_ge|reflexivity].
Qed.

Lemma py_max_floor_mono x y : x <= y -> 0 <= py_max 0 x /\ py_max 0 x <= py_max 0 y.
Proof.
  intro L. destruct (py_max_cases 0 x) as [[Hx ->]|[Hx ->]];
    destruct (py_max_cases 0 y) as [[Hy ->]|[Hy ->]]; split; lra.
Qed.

Lemma expense_loop_mono dc dc' days b b' :
  dc <= dc' -> b' <= b ->
  Forall2 (fun d d' => date d = date d' /\ income d = income d'
                       /\ 0 <= expenses d /\ expenses d <= expenses d'
                       /\ balance d' <= balance d)
          (expense_loop dc days b) (expense_loop dc' days b').
Proof.
  intro Hdc. revert b b'.
  induction days as [|d days IH]; intros b b' Hb; simpl; [constructor|].
  destruct (py_max_floor_mono (expenses d + dc) (expenses d + dc') ltac:(lra)) as [P M].
  constructor.
  - simpl. split; [reflexivity|]. split; [reflexivity|]. split; [|split].
    + change 0 with (round2 0). now apply round2_mono.
    + now apply round2_mono.
    + apply round2_mono. lra.
  - apply IH. lra.
Qed.

Lemma runway_of_mono l l' fd :
  Forall2 (fun d d' => balance d <= balance d') l l' ->
  List.length l = Z.to_nat (fd + 1) -> (0 <= fd)%Z ->
  (runway_of l fd <= runway_of l' fd)%Z.
Proof.
  intros F L Hfd. unfold runway_of.
  pose proof (runway_bound _ _ L Hfd) as B.
  destruct (first_depleted 0 l') as [k'|] eqn:E'.
  - destruct (first_depleted_mono _ _ F _ _ E') as [k [-> Hk]]. exact Hk.
  - lia.
Qed.

(** X17. A larger fixed income change never hurts: under
    [income_change] with a fixed (not percentage) change, raising the
    monthly change amount leaves every day's expenses as they are and
    lowers no day's income or balance, nor the runway. *)
Theorem bigger_raise_never_hurts env db user_id starting_balance smaller larger
    forecast_days current_date :
  (0 <= forecast_days)%Z ->
  String.eqb (get (p_change_type smaller) "fixed"%string) "percentage" = false ->
  String.eqb (get (p_change_type larger) "fixed"%string) "percentage" = false ->
  get (p_change_amount smaller) 0 <= get (p_change_amount larger) 0 ->
  exists sc sc' db1 db2,
    _simulate_income_change env db user_id starting_balance smaller forecast_days
                            current_date = (Returns sc, db1)
    /\ _simulate_income_change env db user_id starting_balance larger forecast_days
                               current_date = (Returns sc', db2)
    /\ Forall2 (fun d d' => date d = date d' /\ expenses d = expenses d'
                            /\ income d <= income d' /\ balance d <= balance d')
               (sc_daily_balances sc) (sc_daily_balances sc')
    /\ (sc_runway_days sc <= sc_runway_days sc')%Z.
Proof.
  intros Hfd E E' Hc.
  destruct (forecast_total env db user_id starting_balance forecast_days
              (Some current_date) Hfd) as [baseline [db1 H]].
  pose proof (forecast_series_length _ _ _ _ _ _ _ _ Hfd H) as L.
  unfold _simulate_income_change. rewrite H.
  do 2 eexists. exists db1, db1. split; [reflexivity|]. split; [reflexivity|]. simpl.
  assert (F : Forall2 (fun d d' => date d = date d' /\ expenses d = expenses d'
                                   /\ income d <= income d' /\ balance d <= balance d')
                (income_loop (get (p_change_type smaller) "fixed"%string)
                   (get (p_change_amount smaller) 0) (get (p_change_amount smaller) 0 / 30)
                   (daily_balances baseline) starting_balance)
                (income_loop (get (p_change_type larger) "fixed"%string)
                   (get (p_change_amount larger) 0) (get (p_change_amount larger) 0 / 30)
                   (daily_balances baseline) starting_balance)).
  { apply income_loop_mono; try assumption; [|apply Qle_refl].
    apply Qmult_le_compat_r; [exact Hc|discriminate]. }
  split; [exact F|]. apply runway_of_mono; [| |exact Hfd].
  - revert F. apply Forall2_impl. tauto.
  - now rewrite (proj1 (income_loop_shape _ _ _ _ _)).
Qed.

Lemma bigger_raise_never_hurts_witness :
  exists sc sc' db1 db2,
    _simulate_income_change Examples.env0 Examples.mixed_db "u" 1000
      (only_change_amount 300) 2 0%Z = (Returns sc, db1)
    /\ _simulate_income_change Examples.env0 Examples.mixed_db "u" 1000
         (only_change_amount 600) 2 0%Z = (Returns sc', db2)
    /\ Forall2 (fun d d' => date d = date d' /\ expenses d = expenses d'
                            /\ income d <= income d' /\ balance d <= balance d')
               (sc_daily_balances sc) (sc_daily_balances sc')
    /\ (sc_runway_days sc <= sc_runway_days sc')%Z.
Proof.
  apply (bigger_raise_never_hurts Examples.env0 Examples.mixed_db "u" 1000
           (only_change_amount 300) (only_change_amount 600) 2 0%Z).
  - lia.
  - reflexivity.
  - reflexivity.
  - discriminate.
Defined.

(** X18. Under [expense_change] the adjusted expenses of a day are
    never negative, however large the cut, and a larger monthly change
    amount raises no day's balance nor the runway and lowers no day's
    expenses; income is left as it is. *)
Theorem bigger_expense_never_helps env db user_id starting_balance smaller larger
    forecast_days current_date :
  (0 <= forecast_days)%Z ->
  get (p_change_amount smaller) 0 <= get (p_change_amount larger) 0 ->
  exists sc sc' db1 db2,
    _simulate_expense_change env db user_id starting_balance smaller forecast_days
                             current_date = (Returns sc, db1)
    /\ _simulate_expense_change env db user_id starting_balance larger forecast_days
                                current_date = (Returns sc', db2)
    /\ Forall2 (fun d d' => date d = date d' /\ income d = income d'
                            /\ 0 <= expenses d /\ expenses d <= expenses d'
                            /\ balance d' <= balance d)
               (sc_daily_balances sc) (sc_daily_balances sc')
    /\ (sc_runway_days sc' <= sc_runway_days sc)%Z.
Proof.
  intros Hfd Hc.
  destruct (forecast_total env db user_id starting_balance forecast_days
              (Some current_date) Hfd) as [baseline [db1 H]].
  pose proof (forecast_series_length _ _ _ _ _ _ _ _ Hfd H) as L.
  unfold _simulate_expense_change. rewrite H.
  do 2 eexists. exists db1, db1. split; [reflexivity|]. split; [reflexivity|]. simpl.
  assert (F : Forall2 (fun d d' => date d = date d' /\ income d = income d'
                                   /\ 0 <= expenses d /\ expenses d <= expenses d'
                                   /\ balance d' <= balance d)
                (expense_loop (get (p_change_amount smaller) 0 / 30)
                   (daily_balances baseline) starting_balance)
                (expense_loop (get (p_change_amount larger) 0 / 30)
                   (daily_balances baseline) starting_balance)).
  { apply expense_loop_mono; [|apply Qle_refl].
    apply Qmult_le_compat_r; [exact Hc|discriminate]. }
  split; [exact F|]. apply runway_of_mono; [| |exact Hfd].
  - clear -F. induction F as [|d d' l l' Hd _ IH]; constructor; [tauto|exact IH].
  - now rewrite (proj1 (expense_loop_shape _ _ _)).
Qed.

Lemma bigger_expense_never_helps_witness :
  exists sc sc' db1 db2,
    _simulate_expense_change Examples.env0 Examples.mixed_db "u" 1000
      (only_change_amount (- (900))) 2 0%Z = (Returns sc, db1)
    /\ _simulate_expense_change Examples.env0 Examples.mixed_db "u" 1000
         (only_change_amount 300) 2 0%Z = (Returns sc', db2)
    /\ Forall2 (fun d d' => date d = date d' /\ income d = income d'
                            /\ 0 <= expenses d /\ expenses d <= expenses d'
                            /\ balance d' <= balance d)
               (sc_daily_balances sc) (sc_daily_balances sc')
    /\ (sc_runway_days sc' <= sc_runway_days sc)%Z.
Proof.
  apply (bigger_expense_never_helps Examples.env0 Examples.mixed_db "u" 1000
           (only_change_amount (- (900))) (only_change_amount 300) 2 0%Z).
  - lia.
  - discriminate.
Defined.


Lemma forecast_keeps_tables env db uid sb fd cd :
  transactions (snd (forecast_balance env db uid sb fd cd)) = transactions db
  /\ recurring_transactions (snd (forecast_balance env db uid sb fd cd))
     = recurring_transactions db.
Proof.
  destruct (forecast_balance env db uid sb fd cd) as [[f|e] db'] eqn:E; simpl.
  - destruct (forecast_inv _ _ _ _ _ _ _ _ E) as [_ [_ Hdb]].
    rewrite create_notification_cases in Hdb. subst db'.
    destruct (_ <=? _)%Z; [destruct (notified_today _ _ _)|]; simpl; auto.
  - destruct (forecast_raises _ _ _ _ _ _ _ _ E) as [_ ->]. auto.
Qed.

(** With the date given, the returned forecast depends neither on the
    environment nor on the notifications. *)
Lemma forecast_again env1 env2 db1 db2 uid sb fd cd :
  transactions db2 = transactions db1 ->
  recurring_transactions db2 = recurring_transactions db1 ->
  fst (forecast_balance env2 db2 uid sb fd (Some cd))
  = fst (forecast_balance env1 db1 uid sb fd (Some cd)).
Proof.
  intros Ht Hr. unfold forecast_balance, _get_historical_averages. rewrite Ht, Hr.
  set (hi := if Qeq_bool _ 0 then _ else _).
  set (he := if Qeq_bool _ 0 then _ else _).
  set (dbs := project _ _ _ _ _ _).
  destruct (min_by_balance dbs) as [mb|e]; [|reflexivity].
  set (rw := match first_depleted 0 dbs with Some i => i | None => (fd + 1)%Z end).
  destruct (rw <=? 30)%Z.
  - destruct (summaries sb fd cd dbs [30; 60; 90]%Z); reflexivity.
  - destruct (Qltb (balance mb) (sb * (2 # 10)));
      destruct (summaries sb fd cd dbs [30; 60; 90]%Z); reflexivity.
Qed.

Lemma history_average_is_cents db uid start ty :
  DebtNotions.is_cents (daily_average (history db uid start ty)).
Proof.
  unfold history, _get_historical_averages.
  destruct (Qeq_bool _ 0); simpl; [exists 0%Z; reflexivity|apply round2_is_cents].
Qed.

Lemma day_figures_are_cents hi he rts on :
  DebtNotions.is_cents (daily_average hi) -> DebtNotions.is_cents (daily_average he) ->
  Forall (fun r => DebtNotions.is_cents (rt_amount r)) rts ->
  DebtNotions.is_cents (fst (day_figures hi he rts on))
  /\ DebtNotions.is_cents (snd (day_figures hi he rts on)).
Proof.
  intros Hi He Hr. rewrite day_figures_eq. simpl.
  assert (S : forall ty, DebtNotions.is_cents (py_sum (map rt_amount (due_in ty on rts)))).
  { intro ty. apply is_cents_sum, Forall_map, Forall_forall. intros r Hin.
    unfold due_in in Hin. apply filter_In in Hin. destruct Hin as [Hin _].
    exact (proj1 (Forall_forall _ _) Hr r Hin). }
  split.
  - destruct (Qeq_bool (fst (scheduled rts on)) 0); [exact Hi|].
    destruct (S INCOME) as [z Hz]. exists z. now rewrite scheduled_income.
  - destruct (Qeq_bool (snd (scheduled rts on)) 0); [exact He|].
    destruct (S EXPENSE) as [z Hz]. exists z. now rewrite scheduled_expenses.
Qed.

Lemma income_loop_null ct c dc hi he rts cd offsets b b' :
  c == 0 -> dc == 0 -> b' == b ->
  (forall on, DebtNotions.is_cents (fst (day_figures hi he rts on))
              /\ DebtNotions.is_cents (snd (day_figures hi he rts on))) ->
  income_loop ct c dc (project hi he rts cd offsets b) b'
  = project hi he rts cd offsets b.
Proof.
  intros Hc Hdc Hb Hcents. revert b b' Hb.
  induction offsets as [|d rest IH]; intros b b' Hb; simpl; [reflexivity|].
  destruct (Hcents (cd + timedelta_days d)%Z) as [Ci Ce].
  destruct (day_figures hi he rts (cd + timedelta_days d)%Z) as [i e]. simpl in *.
  pose proof (round2_of_cents _ Ci) as Ri. pose proof (round2_of_cents _ Ce) as Re.
  assert (A : (if String.eqb ct "percentage" then round2 i * (1 + c / 100)
               else round2 i + dc) == i).
  { destruct (String.eqb ct "percentage"); rewrite Ri.
    - rewrite Hc. field.
    - rewrite Hdc. ring. }
  set (adj := if String.eqb ct "percentage" then _ else _) in *.
  f_equal.
  - f_equal.
    + apply round2_proper. rewrite A, Re, Hb. reflexivity.
    + apply round2_proper. exact A.
    + apply round2_proper. rewrite A, Re. reflexivity.
  - apply IH. rewrite A, Re, Hb. reflexivity.
Qed.

(** X19. The null scenario is neutral: when the amounts of the
    recurring transactions have at most two decimals, an
    [income_change] by 0 (fixed or percentage) over a horizon
    [forecast_days >= 0] gives the scenario the figures of the
    baseline, a balance difference, percentage and runway difference of
    0, and it does not count as an improvement. *)
Theorem null_income_change_is_neutral now env1 env2 db user_id parameters
    forecast_days current_date :
  (0 <= forecast_days)%Z ->
  get (p_change_amount parameters) 0 == 0 ->
  Forall (fun r => DebtNotions.is_cents (rt_amount r)) (recurring_transactions db) ->
  exists sim db',
    simulate_scenario now env1 env2 db user_id "income_change" parameters forecast_days
                      current_date
    = (Returns sim, db')
    /\ sim_scenario sim = sim_baseline sim
    /\ sim_comparison sim = mkComparison 0 0 0 false.
Proof.
  intros Hfd Hc Hcents.
  set (start := match current_date with None => now | Some d => d end).
  set (sb := get (p_starting_balance parameters) 10000).
  destruct (forecast_total env1 db user_id sb forecast_days (Some start) Hfd)
    as [baseline [db1 H1]].
  destruct (forecast_total env2 db1 user_id sb forecast_days (Some start) Hfd)
    as [baseline2 [db2 H2]].
  assert (Same : baseline2 = baseline).
  { pose proof (forecast_keeps_tables env1 db user_id sb forecast_days (Some start)) as K.
    rewrite H1 in K. simpl in K. destruct K as [Kt Kr].
    pose proof (forecast_again env1 env2 db db1 user_id sb forecast_days start Kt Kr) as E.
    rewrite H1, H2 in E. simpl in E. now injection E. }
  subst baseline2.
  destruct (forecast_inv _ _ _ _ _ _ _ _ H1) as [Hd [Hr _]].
  pose proof (forecast_series_length _ _ _ _ _ _ _ _ Hfd H1) as L1.
  assert (Null : income_loop (get (p_change_type parameters) "fixed"%string)
                   (get (p_change_amount parameters) 0)
                   (get (p_change_amount parameters) 0 / 30)
                   (daily_balances baseline) sb
                 = daily_balances baseline).
  { rewrite Hd. apply income_loop_null; [exact Hc| |reflexivity|].
    - rewrite Hc. reflexivity.
    - intro on. apply day_figures_are_cents; try apply history_average_is_cents.
      unfold active. apply Forall_forall. intros r Hin. apply filter_In in Hin.
      exact (proj1 (Forall_forall _ _) Hcents r (proj1 Hin)). }
  destruct (last_of_nonempty (daily_balances baseline)) as [bl [Hbl _]].
  { intro E. rewrite E in L1. simpl in L1. lia. }
  do 2 eexists. unfold simulate_scenario. fold start. fold sb. rewrite H1.
  change (helper_of "income_change") with (Some _simulate_income_change).
  cbv beta iota. unfold _simulate_income_change. rewrite H2, Null.
  unfold _compare_scenarios, figures_of. simpl. rewrite Hbl.
  split; [reflexivity|]. simpl. split.
  - f_equal. unfold runway_of. now rewrite Hr.
  - f_equal.
    + apply round2_zero_of. ring.
    + destruct (negb (Qeq_bool (balance bl) 0)) eqn:E; [|reflexivity].
      apply round2_zero_of. apply negb_true_iff in E.
      field. intro Z0. apply Qeq_eq_bool in Z0. congruence.
    + unfold runway_of. rewrite <- Hr. lia.
    + apply Qltb_ge. setoid_replace (balance bl - balance bl) with 0 by ring.
      apply Qle_refl.
Qed.

Lemma null_income_change_is_neutral_witness :
  exists sim db',
    simulate_scenario 0%Z Examples.env0 Examples.env0 Examples.mixed_db "u"
                      "income_change" no_parameters 2 (Some 0%Z)
    = (Returns sim, db')
    /\ sim_scenario sim = sim_baseline sim
    /\ sim_comparison sim = mkComparison 0 0 0 false.
Proof.
  apply (null_income_change_is_neutral 0%Z Examples.env0 Examples.env0 Examples.mixed_db
           "u" no_parameters 2 (Some 0%Z)).
  - lia.
  - reflexivity.
  - repeat constructor; [exists 5000%Z|exists 2000%Z|exists 500%Z]; reflexivity.
Defined.

End Simulator.

(** ** The debt optimizer: schedule and payoff agree *)

Section ScheduleAndPayoff.
Import DebtOptimizer DebtNotions.

Lemma repayment_loop_exit r p sd ms b :
  List.length (fst (repayment_loop r p sd ms b)) = List.length ms
  \/ snd (repayment_loop r p sd ms b) <= 0.
Proof.
  revert b. induction ms as [|m ms IH]; intro b; simpl; [now left|].
  destruct (Qle_bool b 0) eqn:E; [right; now apply Qle_bool_iff|].
  set (pp := if Qltb (py_min (p - b * r) b) 0 then 0 else py_min (p - b * r) b).
  destruct (Qle_bool (b - pp) 0) eqn:E2; [right; now apply Qle_bool_iff|].
  specialize (IH (b - pp)).
  destruct (repayment_loop r p sd ms (b - pp)) as [sch fin]. simpl in *.
  destruct IH as [IH|IH]; [left; now rewrite IH|now right].
Qed.

Lemma repayment_loop_nothing_owed r p sd ms b :
  b <= 0 -> fst (repayment_loop r p sd ms b) = [].
Proof.
  intro H. destruct ms as [|m ms]; [reflexivity|]. cbn [repayment_loop].
  assert (Qle_bool b 0 = true) as -> by now apply Qle_bool_iff. reflexivity.
Qed.

(** The index at which a run stops is determined by the balances. *)
Lemma stop_index_unique (before : nat -> Q) cap L M :
  (L <= cap)%nat -> (M <= cap)%nat ->
  (forall j, (j < L)%nat -> 0 < before j) -> (L = cap \/ before L <= 0) ->
  (forall j, (j < M)%nat -> 0 < before j) -> (M = cap \/ before M <= 0) ->
  L = M.
Proof.
  intros HL HM PL EL PM EM.
  destruct (Nat.lt_trichotomy L M) as [H|[H|H]]; [|exact H|].
  - exfalso. specialize (PM L H). destruct EL as [EL|EL]; [lia|lra].
  - exfalso. specialize (PL M H). destruct EM as [EM|EM]; [lia|lra].
Qed.

Lemma payoff_follows_balances fuel a pay P s :
  0 <= a -> 0 < P -> P * (a / 100 / 12) < pay ->
  while_loop fuel payoff_cond (payoff_body (a / 100 / 12) pay) (mkPayoff P 0 0) = Some s ->
  (0 <= months s <= 360)%Z
  /\ (forall j, (j < Z.to_nat (months s))%nat -> 0 < balance_before a pay P j)
  /\ (months s = 360%Z \/ balance_before a pay P (Z.to_nat (months s)) <= 0).
Proof.
  intros Ha HP Hcov H.
  assert (Hr : 0 <= a / 100 / 12).
  { apply Qle_shift_div_l; [reflexivity|]. apply Qle_shift_div_l; [reflexivity|]. lra. }
  apply (while_loop_invariant
           (fun x => (0 <= months x <= 360)%Z
                     /\ remaining x == balance_before a pay P (Z.to_nat (months x))
                     /\ 0 <= remaining x <= P
                     /\ (forall j, (j < Z.to_nat (months x))%nat ->
                                   0 < balance_before a pay P j))) in H.
  - destruct H as [[Hm [Hb [_ Hj]]] C]. split; [exact Hm|]. split; [exact Hj|].
    unfold payoff_cond in C. apply andb_false_iff in C. destruct C as [C|C].
    + right. apply Qltb_ge in C. now rewrite <- Hb.
    + left. apply Z.ltb_ge in C. lia.
  - intros x [Hm [Hb [[H0 HPx] Hj]]] C. unfold payoff_cond in C.
    apply andb_prop in C. destruct C as [C1 C2].
    apply Qltb_lt in C1. apply Z.ltb_lt in C2.
    unfold payoff_body. cbn [months remaining].
    set (r := a / 100 / 12) in *.
    assert (Cov : remaining x * r < pay).
    { eapply Qle_lt_trans; [|exact Hcov]. apply Qmult_le_compat_r; [exact HPx|exact Hr]. }
    assert (Paid : principal_paid a pay (balance_before a pay P (Z.to_nat (months x)))
                   == py_min (pay - remaining x * r) (remaining x)).
    { rewrite <- Hb. unfold principal_paid, interest_on. fold r.
      assert (Qltb pay (remaining x * r) = false) as -> by (apply Qltb_ge; lra).
      reflexivity. }
    assert (Pos : 0 < py_min (pay - remaining x * r) (remaining x)).
    { destruct (py_min_cases (pay - remaining x * r) (remaining x)) as [[_ ->]|[_ ->]];
        lra. }
    pose proof (py_min_le_r (pay - remaining x * r) (remaining x)) as Le.
    replace (Z.to_nat (months x + 1)) with (S (Z.to_nat (months x))) by lia.
    split; [lia|]. split; [|split; [split; lra|]].
    + cbn [balance_before]. now rewrite Paid, Hb.
    + intros j Hlt. destruct (Nat.eq_dec j (Z.to_nat (months x))) as [->|N].
      * now rewrite <- Hb.
      * apply Hj. lia.
  - cbn [months remaining]. split; [lia|]. split; [reflexivity|].
    split; [split; [lra|apply Qle_refl]|]. intros j Hlt. simpl in Hlt. lia.
Qed.

(** X20. The optimizer and the repayment schedule agree on the length
    of a payoff: for a debt with a non-negative rate and a non-negative
    amount owed, the [months_to_payoff] the strategy simulation finds
    with the payment [monthlyPayment + extra] is the number of rows of
    the repayment schedule computed for that amount, rate and payment
    with the default cap of 360 months. *)
Theorem schedule_agrees_with_payoff fuel debt extra_budget start_date :
  (360 < fuel)%nat -> 0 <= interestRate debt -> 0 <= remainingAmount debt ->
  exists s,
    payoff fuel debt extra_budget = Some s
    /\ Z.of_nat (List.length
                   (calculate_repayment_schedule (remainingAmount debt) (interestRate debt)
                      start_date (monthlyPayment debt + extra_budget) default_max_months))
       = months s.
Proof.
  intros Hf Ha HP.
  destruct (payoff_returns fuel debt extra_budget Hf) as [s [Hs [Hm _]]].
  exists s. split; [exact Hs|].
  set (P := remainingAmount debt) in *. set (a := interestRate debt) in *.
  set (pay := monthlyPayment debt + extra_budget) in *.
  assert (Hr : 0 <= a / 100 / 12).
  { apply Qle_shift_div_l; [reflexivity|]. apply Qle_shift_div_l; [reflexivity|]. lra. }
  unfold payoff in Hs. fold P a pay in Hs.
  unfold calculate_repayment_schedule, repayment_run, default_max_months.
  destruct (Qlt_le_dec 0 P) as [Ppos|Pzero].
  - destruct (Qlt_le_dec (P * (a / 100 / 12)) pay) as [Cov|Unc].
    + destruct (payoff_follows_balances _ _ _ _ _ Ha Ppos Cov Hs) as [M1 [M2 M3]].
      set (L := List.length (fst (repayment_loop (a / 100 / 12) pay start_date
                                    (py_range2 1 (360 + 1)) P))).
      assert (E : L = Z.to_nat (months s)).
      { apply (stop_index_unique (balance_before a pay P) 360).
        - unfold L. eapply Nat.le_trans; [apply repayment_loop_length|].
          rewrite length_py_range2. lia.
        - lia.
        - intros j Hj.
          destruct (nth_error (fst (repayment_loop (a / 100 / 12) pay start_date
                                      (py_range2 1 (360 + 1)) P)) j) as [row|] eqn:N.
          + destruct (repayment_loop_rows _ _ _ _ _ P _ _ (Qeq_refl P) N)
              as [m [_ [_ [Hpos _]]]]. exact Hpos.
          + apply nth_error_None in N. unfold L in Hj. lia.
        - destruct (repayment_loop_exit (a / 100 / 12) pay start_date
                      (py_range2 1 (360 + 1)) P) as [X|X].
          + left. unfold L. rewrite X, length_py_range2. lia.
          + right. unfold L.
            now rewrite <- (repayment_loop_final _ _ _ _ _ P (Qeq_refl P)).
        - exact M2.
        - destruct M3 as [M3|M3]; [left; lia|now right]. }
      fold L. rewrite E. lia.
    + destruct (repayment_loop_uncovered (a / 100 / 12) pay start_date
                  (py_range2 1 (360 + 1)) P Ppos Unc) as [L _].
      rewrite L, length_py_range2.
      assert (M : (0 <= 0 <= 360)%Z) by lia.
      destruct (payoff_loop_uncovered _ _ fuel (mkPayoff P 0 0) s Hr Ppos Unc M Hs)
        as [-> _].
      reflexivity.
  - assert (months s = 0%Z) as ->.
    { destruct fuel as [|fuel]; [lia|]. simpl in Hs.
      assert (payoff_cond (mkPayoff P 0 0) = false) as C.
      { unfold payoff_cond. simpl.
        assert (Qltb 0 P = false) as -> by now apply Qltb_ge. reflexivity. }
      rewrite C in Hs. now injection Hs as <-. }
    now rewrite repayment_loop_nothing_owed.
Qed.

Lemma schedule_agrees_with_payoff_witness :
  exists s,
    payoff 361 Examples.card 0 = Some s
    /\ Z.of_nat (List.length
                   (calculate_repayment_schedule (remainingAmount Examples.card)
                      (interestRate Examples.card) 0%Z
                      (monthlyPayment Examples.card + 0) default_max_months))
       = months s.
Proof.
  apply (schedule_agrees_with_payoff 361 Examples.card 0 0%Z).
  - lia.
  - discriminate.
  - discriminate.
Defined.

End ScheduleAndPayoff.
